(** * Omniverse Market API: connectors, retry helper and route handlers

    A shallow embedding of the Python sources
    - [ingestion/kalshi.py], [ingestion/polymarket.py] (provider connectors),
    - [api/routes/markets.py], [api/routes/ingest.py] (route handlers),
    and the properties of them that the specification states.

    Python values are modelled by the inductive type [value] (dicts as
    finite maps with string keys), Python floats by IEEE binary64
    primitive floats, exceptions by the type [exn], and effectful code by
    explicit state passing over a [world] that holds the wall clock, the
    sample data file and the logger's output. *)

From Stdlib Require Import ZArith String Ascii List Bool Lia.
From Stdlib Require Import Floats.PrimFloat Floats.FloatOps Numbers.Cyclic.Int63.Uint63.
From stdpp Require Import gmap strings list fin_maps.

Set Warnings "-inexact-float,-register-all".
Local Open Scope string_scope.
Local Open Scope Z_scope.

(** ** Exceptions and results *)

(** The instances of Python's [Exception] class that the modelled code
    can raise or catch.  Every constructor carries the text that [str(e)]
    yields.  [except Exception] catches all of them; signals that are
    not instances of [Exception] (task cancellation, interpreter exit)
    are outside the model. *)
Inductive exn : Type :=
  | FileNotFoundError (msg : string)
  | OSError (msg : string)
  | JSONDecodeError (msg : string)
  | AttributeError (msg : string)
  | TypeError (msg : string)
  | KeyError (msg : string)
  | IndexError (msg : string)
  | OverflowError (msg : string)
  | HTTPException (status_code : Z) (detail : string)
  | OtherError (class_name msg : string).

Definition str_exn (e : exn) : string :=
  match e with
  | FileNotFoundError m | OSError m | JSONDecodeError m | AttributeError m
  | TypeError m | KeyError m | IndexError m | OverflowError m => m
  | HTTPException _ d => d
  | OtherError _ m => m
  end.

Inductive result (A : Type) : Type :=
  | Ok (a : A)
  | Raise (e : exn).
Arguments Ok {A} a.
Arguments Raise {A} e.

(** ** The retry helper [async_retry]

    [KalshiConnector.async_retry] and [PolymarketConnector.async_retry]
    have the same body; one definition models both. *)
Module Retry.

(** [2**attempt] converted to a float for the product with [base_delay]:
    exact up to [2**1023]; a larger int makes Python raise
    [OverflowError]. *)
Definition float_of_pow2 (attempt : nat) : result float :=
  if Z.of_nat attempt <? 1024
  then Ok (Z.ldexp 1%float (Z.of_nat attempt))
  else Raise (OverflowError "int too large to convert to float").

Section AsyncRetry.
(** The awaited function runs in some world [W] and returns a [V] or
    raises.  [asyncio.sleep] and [logger.warning] are effects on the
    same world. *)
Context {W V : Type}.
Variable asyncio_sleep : float -> W -> W.
Variable logger_warning : nat -> Z -> float -> exn -> W -> W.

Definition awaitable : Type := W -> result V * W.

(** What the wrapper did, in order: each invocation of [func] with the
    loop index and its outcome, and each [asyncio.sleep(delay)]. *)
Inductive event : Type :=
  | Attempt (attempt : nat) (outcome : result V)
  | Sleep (delay : float).

(** The body of [for attempt in range(max_retries)], over the indices
    still to be visited.  Falling off the end of the loop returns
    Python's [None]. *)
Fixpoint retry_loop (func : awaitable) (max_retries : Z) (base_delay : float)
    (attempts : list nat) (w : W) : result (option V) * W * list event :=
  match attempts with
  | [] => (Ok None, w, [])
  | attempt :: rest =>
      let '(r, w1) := func w in
      match r with
      | Ok v => (Ok (Some v), w1, [Attempt attempt r])
      | Raise e =>
          if Z.of_nat attempt =? max_retries - 1
          then (Raise e, w1, [Attempt attempt r])
          else
            match float_of_pow2 attempt with
            | Raise e' => (Raise e', w1, [Attempt attempt r])
            | Ok p =>
                let delay := (base_delay * p)%float in
                let w2 := logger_warning (attempt + 1) max_retries delay e w1 in
                let w3 := asyncio_sleep delay w2 in
                let '(out, w4, tr) :=
                  retry_loop func max_retries base_delay rest w3 in
                (out, w4, Attempt attempt r :: Sleep delay :: tr)
            end
      end
  end.

Definition async_retry (func : awaitable) (max_retries : Z) (base_delay : float)
    (w : W) : result (option V) * W * list event :=
  retry_loop func max_retries base_delay (seq 0 (Z.to_nat max_retries)) w.

(** The defaults of the Python signature. *)
Definition default_max_retries : Z := 3.
Definition default_base_delay : float := 1%float.

Definition is_attempt (ev : event) : bool :=
  match ev with Attempt _ _ => true | Sleep _ => false end.

Definition attempts_made (tr : list event) : nat :=
  List.length (List.filter is_attempt tr).
Definition delays (tr : list event) : list float :=
  flat_map (fun ev => match ev with Sleep d => [d] | _ => [] end) tr.
End AsyncRetry.

Arguments Attempt {V} attempt outcome.
Arguments Sleep {V} delay.

(** A function that fails on its first two invocations and succeeds on
    the third; its world is the number of invocations so far. *)
Definition flaky (n : nat) : result Z * nat :=
  if (n <? 2)%nat then (Raise (OtherError "ConnectError" "connection refused"), S n)
  else (Ok 42, S n).

(** A function that fails every time; the third failure is told apart
    by its message. *)
Definition always_failing (n : nat) : result Z * nat :=
  (Raise (OtherError "ConnectError" (if (n =? 2)%nat then "third" else "earlier")), S n).

End Retry.

(** ** Python values *)

(** JSON-shaped Python values.  A [dict] with string keys is a finite
    map: equality of two [VDict]s is Python's [==] on dicts. *)
Inductive value : Type :=
  | VNone
  | VBool (b : bool)
  | VInt (z : Z)
  | VFloat (f : float)
  | VStr (s : string)
  | VList (l : list value)
  | VDict (d : gmap string value).

(** [float(z)] for a small non-negative int (exact below [2**53]). *)
Definition float_of_int (z : Z) : float := PrimFloat.of_uint63 (Uint63.of_Z z).

(** [bool(v)]. *)
Definition truthy (v : value) : bool :=
  match v with
  | VNone => false
  | VBool b => b
  | VInt z => negb (z =? 0)
  | VFloat f => negb (PrimFloat.eqb f 0%float)
  | VStr s => negb (String.eqb s "")
  | VList l => match l with [] => false | _ => true end
  | VDict d => negb (bool_decide (d = ∅))
  end.

(** Truthiness of an [Optional[str]]: [None] and the empty string are
    falsy. *)
Definition truthy_str (o : option string) : bool :=
  match o with
  | None => false
  | Some s => negb (String.eqb s "")
  end.

Definition type_name (v : value) : string :=
  match v with
  | VNone => "NoneType"
  | VBool _ => "bool"
  | VInt _ => "int"
  | VFloat _ => "float"
  | VStr _ => "str"
  | VList _ => "list"
  | VDict _ => "dict"
  end.

(** [v == s] for a string [s]: a value of another type is never equal to
    a string. *)
Definition eq_str (v : value) (s : string) : bool :=
  match v with
  | VStr t => String.eqb t s
  | _ => false
  end.

(** [str.lower] and the substring test [needle in haystack], on ASCII
    text.  A [string] stands for the Python [str] with the same
    characters, all of them ASCII; on such a string Python's
    Unicode-aware [str.lower] changes exactly the letters [A-Z], as
    [str_lower] does.  Outside ASCII the two differ (Python lowers
    U+212A to [k]), so every property that depends on the case mapping
    assumes [is_ascii] of the strings that are lowered. *)
Definition is_ascii_char (c : ascii) : bool := (nat_of_ascii c <? 128)%nat.

Fixpoint is_ascii (s : string) : bool :=
  match s with
  | EmptyString => true
  | String c rest => is_ascii_char c && is_ascii rest
  end.

Definition lower_ascii (c : ascii) : ascii :=
  let n := nat_of_ascii c in
  if ((65 <=? n) && (n <=? 90))%nat then ascii_of_nat (n + 32) else c.

Fixpoint str_lower (s : string) : string :=
  match s with
  | EmptyString => EmptyString
  | String c rest => String (lower_ascii c) (str_lower rest)
  end.

Fixpoint str_contains (needle haystack : string) : bool :=
  String.prefix needle haystack ||
  match haystack with
  | EmptyString => false
  | String _ rest => str_contains needle rest
  end.

(** ** Wall-clock time

    A naive [datetime] is the number of microseconds since
    0001-01-01T00:00:00; [datetime - timedelta] is subtraction.
    [isoformat] follows the standard library: proleptic Gregorian
    calendar, fraction printed only when non-zero. *)
Definition datetime : Type := Z.

Definition timedelta_hours (hours : Z) : Z := hours * 3600 * 1000000.

Definition DAYS_BEFORE_MONTH (month : Z) : Z :=
  match month with
  | 1 => 0 | 2 => 31 | 3 => 59 | 4 => 90 | 5 => 120 | 6 => 151
  | 7 => 181 | 8 => 212 | 9 => 243 | 10 => 273 | 11 => 304 | 12 => 334
  | _ => 0
  end.

Definition DAYS_IN_MONTH (month : Z) : Z :=
  match month with
  | 2 => 28
  | 4 | 6 | 9 | 11 => 30
  | _ => 31
  end.

(** Day ordinal (1 = 0001-01-01) to (year, month, day). *)
Definition ord2ymd (ordinal : Z) : Z * Z * Z :=
  let n := ordinal - 1 in
  let n400 := n / 146097 in
  let n := n mod 146097 in
  let n100 := n / 36524 in
  let n := n mod 36524 in
  let n4 := n / 1461 in
  let n := n mod 1461 in
  let n1 := n / 365 in
  let n := n mod 365 in
  let year := n400 * 400 + 1 + n100 * 100 + n4 * 4 + n1 in
  if (n1 =? 4) || (n100 =? 4) then (year - 1, 12, 31)
  else
    let leapyear := (n1 =? 3) && (negb (n4 =? 24) || (n100 =? 3)) in
    let month := Z.shiftr (n + 50) 5 in
    let preceding :=
      DAYS_BEFORE_MONTH month + (if (2 <? month) && leapyear then 1 else 0) in
    if n <? preceding
    then
      let month := month - 1 in
      let preceding :=
        preceding - (DAYS_IN_MONTH month + (if (month =? 2) && leapyear then 1 else 0)) in
      (year, month, n - preceding + 1)
    else (year, month, n - preceding + 1).

Definition digit (d : Z) : ascii := ascii_of_nat (48 + Z.to_nat d).

(** ["%0<width>d" % n] for [0 <= n < 10**width]. *)
Fixpoint zero_padded (width : nat) (n : Z) : string :=
  match width with
  | O => ""
  | S width' => zero_padded width' (n / 10) ++ String (digit (n mod 10)) ""
  end.

Definition isoformat (t : datetime) : string :=
  let days := t / 86400000000 in
  let rest := t mod 86400000000 in
  let '(year, month, day) := ord2ymd (days + 1) in
  let seconds := rest / 1000000 in
  let microsecond := rest mod 1000000 in
  zero_padded 4 year ++ "-" ++ zero_padded 2 month ++ "-" ++ zero_padded 2 day
  ++ "T" ++ zero_padded 2 (seconds / 3600) ++ ":"
  ++ zero_padded 2 (seconds mod 3600 / 60) ++ ":" ++ zero_padded 2 (seconds mod 60)
  ++ (if microsecond =? 0 then "" else "." ++ zero_padded 6 microsecond).

(** ** The world and the monad of connector code *)

(** What [open("data/sample_timeseries.json")] followed by [json.load]
    does at the moment of the call: the file is absent, reading or
    decoding it raises, or it decodes to a value. *)
Inductive file_state : Type :=
  | FileMissing
  | FileUnreadable (e : exn)
  | FileJson (v : value).

(** One call of [logger.error] or [logger.warning]. *)
Record log_record : Type := LogRecord { levelname : string; message : string }.

(** A connector call is short: every [datetime.utcnow()] inside one call
    reads the same [clock]. *)
Record world : Type := World {
  clock : datetime;
  sample_file : file_state;
  log : list log_record
}.

Definition M (A : Type) : Type := world -> result A * world.

#[global] Instance M_ret : MRet M := fun A a w => (Ok a, w).
#[global] Instance M_bind : MBind M := fun A B f m w =>
  match m w with
  | (Ok a, w') => f a w'
  | (Raise e, w') => (Raise e, w')
  end.

Definition raise {A : Type} (e : exn) : M A := fun w => (Raise e, w).

(** An [except] clause: [None] when the exception is not of the clause's
    class, otherwise the handler to run. *)
Definition clause (A : Type) : Type := exn -> option (M A).

Definition except_Exception {A : Type} (handler : exn -> M A) : clause A :=
  fun e => Some (handler e).

Definition except_FileNotFoundError {A : Type} (handler : M A) : clause A :=
  fun e => match e with FileNotFoundError _ => Some handler | _ => None end.

Definition except_HTTPException {A : Type} (handler : exn -> M A) : clause A :=
  fun e => match e with HTTPException _ _ => Some (handler e) | _ => None end.

Fixpoint dispatch {A : Type} (clauses : list (clause A)) (e : exn) : M A :=
  match clauses with
  | [] => raise e
  | c :: rest => match c e with Some h => h | None => dispatch rest e end
  end.

(** [try: body  except ...:] with the clauses tried in order; an
    exception raised by a handler propagates. *)
Definition try_except {A : Type} (body : M A) (clauses : list (clause A)) : M A :=
  fun w =>
    match body w with
    | (Ok a, w') => (Ok a, w')
    | (Raise e, w') => dispatch clauses e w'
    end.

Definition utcnow : M datetime := fun w => (Ok (clock w), w).

Definition logger_error (msg : string) : M unit :=
  fun w => (Ok tt, World (clock w) (sample_file w) (log w ++ [LogRecord "ERROR" msg])).

(** [with open("data/sample_timeseries.json", "r") as f: return json.load(f)] *)
Definition open_and_load_sample : M value := fun w =>
  match sample_file w with
  | FileMissing =>
      (Raise (FileNotFoundError
                "[Errno 2] No such file or directory: 'data/sample_timeseries.json'"), w)
  | FileUnreadable e => (Raise e, w)
  | FileJson v => (Ok v, w)
  end.

(** [for x in xs: ys.append(f(x))] and list comprehensions. *)
Fixpoint mapM {A B : Type} (f : A -> M B) (xs : list A) : M (list B) :=
  match xs with
  | [] => mret []
  | x :: rest => y ← f x; ys ← mapM f rest; mret (y :: ys)
  end.

(** [[x for x in xs if p(x)]]. *)
Fixpoint filterM {A : Type} (p : A -> M bool) (xs : list A) : M (list A) :=
  match xs with
  | [] => mret []
  | x :: rest =>
      keep ← p x; ys ← filterM p rest; mret (if keep : bool then x :: ys else ys)
  end.

(** *** Operations on values that can raise *)

(** [obj.get(key, default)]: only dicts have [get]. *)
Definition py_get (obj : value) (key : string) (default : value) : M value :=
  match obj with
  | VDict d => mret (match d !! key with Some v => v | None => default end)
  | _ => raise (AttributeError ("'" ++ type_name obj ++ "' object has no attribute 'get'"))
  end.

(** [obj.lower()]: only strings have [lower]. *)
Definition py_lower (obj : value) : M string :=
  match obj with
  | VStr s => mret (str_lower s)
  | _ => raise (AttributeError ("'" ++ type_name obj ++ "' object has no attribute 'lower'"))
  end.

Fixpoint chars (s : string) : list value :=
  match s with
  | EmptyString => []
  | String c rest => VStr (String c "") :: chars rest
  end.

(** The items a [for] loop over [obj] visits.  A dict yields its keys;
    their order is immaterial to the modelled code, which fails on the
    first key. *)
Definition py_iter (obj : value) : M (list value) :=
  match obj with
  | VList l => mret l
  | VStr s => mret (chars s)
  | VDict d => mret (VStr <$> (map_to_list d).*1)
  | _ => raise (TypeError ("'" ++ type_name obj ++ "' object is not iterable"))
  end.

(** [obj[0]]. *)
Definition py_getitem0 (obj : value) : M value :=
  match obj with
  | VList (x :: _) => mret x
  | VList [] => raise (IndexError "list index out of range")
  | VStr (String c _) => mret (VStr (String c ""))
  | VStr EmptyString => raise (IndexError "string index out of range")
  | VDict _ => raise (KeyError "0")
  | _ => raise (TypeError ("'" ++ type_name obj ++ "' object is not subscriptable"))
  end.

(** [create_envelope(data, ok, meta)], defined alike in [api/main.py]
    and both route modules. *)
Definition create_envelope (data : value) (ok : bool) (meta : value) : value :=
  VDict {[ "ok" := VBool ok;
           "meta" := (if truthy meta then meta else VDict ∅);
           "data" := data ]}.

(** [obj[key]] for a string key. *)
Definition py_getitem (obj : value) (key : string) : M value :=
  match obj with
  | VDict d =>
      match d !! key with
      | Some v => mret v
      | None => raise (KeyError ("'" ++ key ++ "'"))
      end
  | VList _ => raise (TypeError "list indices must be integers or slices, not str")
  | VStr _ => raise (TypeError "string indices must be integers, not 'str'")
  | _ => raise (TypeError ("'" ++ type_name obj ++ "' object is not subscriptable"))
  end.

(** [for market in markets: if market["id"] == market_id: return market]
    followed by [return None]; the same loop in both connectors. *)
Fixpoint find_market (markets : list value) (market_id : string) : M value :=
  match markets with
  | [] => mret VNone
  | market :: rest =>
      id ← py_getitem market "id";
      if eq_str id market_id then mret market else find_market rest market_id
  end.

Definition logger_info (msg : string) : M unit :=
  fun w => (Ok tt, World (clock w) (sample_file w) (log w ++ [LogRecord "INFO" msg])).

(** The methods both connector classes offer to the route handlers. *)
Module Connector.
Record t : Type := Build {
  get_markets : M (list value);
  get_market : string -> M value;
  get_market_price : string -> M value;
  get_market_timeseries : string -> option string -> option string -> string -> M value;
  get_market_orderbook : string -> Z -> M value;
  get_market_events : string -> option string -> Z -> M (list value);
  sync_data : M value
}.
End Connector.

(** ** [ingestion/kalshi.py] *)
Module KalshiConnector.

Record t : Type := Build {
  base_url : string;
  api_key : option string;
  user_id : option string;
  mock_mode : bool
}.

(** The attributes [__init__] sets, from the process environment. *)
Definition new (environ : gmap string string) : t :=
  let api_key := environ !! "KALSHI_API_KEY" in
  let user_id := environ !! "KALSHI_USER_ID" in
  {| base_url := "https://trading-api.kalshi.com/trade-api/v2";
     api_key := api_key;
     user_id := user_id;
     mock_mode := negb (truthy_str api_key && truthy_str user_id) |}.

Definition __init__ (environ : gmap string string) : M t :=
  let self := new environ in
  (if mock_mode self
   then logger_info "Kalshi connector running in mock mode (no API credentials)"
   else logger_info "Kalshi connector initialized with API credentials");;
  mret self.

Definition fallback_sample_data : value :=
  VDict {[ "markets" := VList [
    VDict {[ "id" := VStr "KALSHI-PRES2024";
             "title" := VStr "Will Joe Biden win the 2024 US Presidential Election?";
             "description" := VStr "Market resolves to Yes if Joe Biden wins";
             "provider" := VStr "kalshi";
             "status" := VStr "active";
             "category" := VStr "politics";
             "created_at" := VStr "2024-01-01T00:00:00Z";
             "close_date" := VStr "2024-11-05T23:59:59Z";
             "outcomes" := VList [
               VDict {[ "id" := VStr "yes"; "name" := VStr "Yes";
                        "price" := VFloat 0.65; "volume" := VFloat 15420.50 ]};
               VDict {[ "id" := VStr "no"; "name" := VStr "No";
                        "price" := VFloat 0.35; "volume" := VFloat 8930.25 ]} ];
             "total_volume" := VFloat 24350.75 ]} ] ]}.

Definition _load_sample_data (self : t) : M value :=
  try_except open_and_load_sample
    [except_FileNotFoundError (mret fallback_sample_data)].

Definition normalize_market (self : t) (raw_market : value) : M value :=
  id ← py_get raw_market "id" (VStr "");
  title ← py_get raw_market "title" (VStr "");
  description ← py_get raw_market "description" (VStr "");
  status ← py_get raw_market "status" (VStr "active");
  category ← py_get raw_market "category" (VStr "");
  now ← utcnow;
  created_at ← py_get raw_market "created_at" (VStr (isoformat now));
  close_date ← py_get raw_market "close_date" VNone;
  settle_date ← py_get raw_market "settle_date" VNone;
  outcomes ← py_get raw_market "outcomes" (VList []);
  total_volume ← py_get raw_market "total_volume" (VInt 0);
  liquidity ← py_get raw_market "liquidity" (VInt 0);
  mret (VDict {[ "id" := id;
                 "title" := title;
                 "description" := description;
                 "provider" := VStr "kalshi";
                 "status" := status;
                 "category" := category;
                 "created_at" := created_at;
                 "close_date" := close_date;
                 "settle_date" := settle_date;
                 "outcomes" := outcomes;
                 "total_volume" := total_volume;
                 "liquidity" := liquidity ]}).

(** Both branches of [if self.mock_mode] read the sample data: the live
    request is commented out in the source. *)
Definition get_markets (self : t) : M (list value) :=
  try_except
    (if mock_mode self then
       sample_data ← _load_sample_data self;
       markets ← py_get sample_data "markets" (VList []);
       items ← py_iter markets;
       mapM (normalize_market self) items
     else
       sample_data ← _load_sample_data self;
       markets ← py_get sample_data "markets" (VList []);
       items ← py_iter markets;
       mapM (normalize_market self) items)
    [except_Exception (fun e =>
       logger_error ("Error fetching Kalshi markets: " ++ str_exn e);;
       mret [])].

Definition get_market (self : t) (market_id : string) : M value :=
  try_except
    (markets ← get_markets self;
     find_market markets market_id)
    [except_Exception (fun e =>
       logger_error ("Error fetching Kalshi market " ++ market_id ++ ": " ++ str_exn e);;
       mret VNone)].

Definition get_market_price (self : t) (market_id : string) : M value :=
  try_except
    (market ← get_market self market_id;
     if negb (truthy market) then mret VNone
     else
       now ← utcnow;
       outcomes ← py_get market "outcomes" (VList []);
       mret (VDict {[ "market_id" := VStr market_id;
                      "timestamp" := VStr (isoformat now);
                      "outcomes" := outcomes ]}))
    [except_Exception (fun e =>
       logger_error ("Error fetching Kalshi market price " ++ market_id ++ ": " ++ str_exn e);;
       mret VNone)].

Definition get_market_timeseries (self : t) (market_id : string)
    (start end_ : option string) (interval : string) : M value :=
  try_except
    (if mock_mode self then
       now ← utcnow;
       let data_points :=
         (fun i : Z =>
            VDict {[ "timestamp" := VStr (isoformat (now - timedelta_hours (23 - i)));
                     "price" := VFloat (0.60 + float_of_int i * 0.001);
                     "volume" := VInt (100 + i * 10) ]}) <$> seqZ 0 24 in
       mret (VDict {[ "market_id" := VStr market_id;
                      "outcome_id" := VStr "yes";
                      "interval" := VStr interval;
                      "data_points" := VList data_points ]})
     else mret VNone)
    [except_Exception (fun e =>
       logger_error ("Error fetching Kalshi timeseries " ++ market_id ++ ": " ++ str_exn e);;
       mret VNone)].

Definition get_market_orderbook (self : t) (market_id : string) (depth : Z) : M value :=
  try_except
    (if mock_mode self then
       now ← utcnow;
       mret (VDict {[ "market_id" := VStr market_id;
                      "outcome_id" := VStr "yes";
                      "timestamp" := VStr (isoformat now);
                      "bids" := VList [
                        VDict {[ "price" := VFloat 0.64; "size" := VFloat 100.0 ]};
                        VDict {[ "price" := VFloat 0.63; "size" := VFloat 250.0 ]} ];
                      "asks" := VList [
                        VDict {[ "price" := VFloat 0.66; "size" := VFloat 150.0 ]};
                        VDict {[ "price" := VFloat 0.67; "size" := VFloat 200.0 ]} ];
                      "spread" := VFloat 0.02 ]})
     else mret VNone)
    [except_Exception (fun e =>
       logger_error ("Error fetching Kalshi orderbook " ++ market_id ++ ": " ++ str_exn e);;
       mret VNone)].

Definition get_market_events (self : t) (market_id : string)
    (since : option string) (limit : Z) : M (list value) :=
  try_except
    (if mock_mode self then
       now ← utcnow;
       mret [ VDict {[ "id" := VStr "evt_kalshi_123";
                       "market_id" := VStr market_id;
                       "event_type" := VStr "trade";
                       "timestamp" := VStr (isoformat now);
                       "data" := VDict {[ "outcome_id" := VStr "yes";
                                          "price" := VFloat 0.65;
                                          "volume" := VFloat 50.0;
                                          "side" := VStr "buy" ]} ]} ]
     else mret [])
    [except_Exception (fun e =>
       logger_error ("Error fetching Kalshi events " ++ market_id ++ ": " ++ str_exn e);;
       mret [])].

Definition sync_data (self : t) : M value :=
  try_except
    (markets ← get_markets self;
     now ← utcnow;
     mret (VDict {[ "provider" := VStr "kalshi";
                    "markets_synced" := VInt (Z.of_nat (length markets));
                    "status" := VStr "success";
                    "timestamp" := VStr (isoformat now) ]}))
    [except_Exception (fun e =>
       logger_error ("Error syncing Kalshi data: " ++ str_exn e);;
       now ← utcnow;
       mret (VDict {[ "provider" := VStr "kalshi";
                      "markets_synced" := VInt 0;
                      "status" := VStr "error";
                      "error" := VStr (str_exn e);
                      "timestamp" := VStr (isoformat now) ]}))].

Definition as_connector (self : t) : Connector.t :=
  {| Connector.get_markets := get_markets self;
     Connector.get_market := get_market self;
     Connector.get_market_price := get_market_price self;
     Connector.get_market_timeseries := get_market_timeseries self;
     Connector.get_market_orderbook := get_market_orderbook self;
     Connector.get_market_events := get_market_events self;
     Connector.sync_data := sync_data self |}.

End KalshiConnector.

(** ** [ingestion/polymarket.py] *)
Module PolymarketConnector.

Record t : Type := Build {
  base_url : string;
  api_key : option string;
  mock_mode : bool
}.

Definition new (environ : gmap string string) : t :=
  let api_key := environ !! "POLYMARKET_API_KEY" in
  {| base_url := "https://clob.polymarket.com";
     api_key := api_key;
     mock_mode := negb (truthy_str api_key) |}.

Definition __init__ (environ : gmap string string) : M t :=
  let self := new environ in
  (if mock_mode self
   then logger_info "Polymarket connector running in mock mode (no API credentials)"
   else logger_info "Polymarket connector initialized with API credentials");;
  mret self.

Definition fallback_sample_data : value :=
  VDict {[ "markets" := VList [
    VDict {[ "id" := VStr "POLY-CRYPTO2024";
             "title" := VStr "Will Bitcoin reach $100,000 by end of 2024?";
             "description" := VStr "Market resolves to Yes if Bitcoin reaches $100k";
             "provider" := VStr "polymarket";
             "status" := VStr "active";
             "category" := VStr "crypto";
             "created_at" := VStr "2024-01-01T00:00:00Z";
             "close_date" := VStr "2024-12-31T23:59:59Z";
             "outcomes" := VList [
               VDict {[ "id" := VStr "yes"; "name" := VStr "Yes";
                        "price" := VFloat 0.42; "volume" := VFloat 28750.80 ]};
               VDict {[ "id" := VStr "no"; "name" := VStr "No";
                        "price" := VFloat 0.58; "volume" := VFloat 19240.60 ]} ];
             "total_volume" := VFloat 47991.40 ]} ] ]}.

Definition _load_sample_data (self : t) : M value :=
  try_except open_and_load_sample
    [except_FileNotFoundError (mret fallback_sample_data)].

(** Defaults are arguments of [get], so each is evaluated before the
    lookup it belongs to, whether or not the key is present. *)
Definition normalize_market (self : t) (raw_market : value) : M value :=
  id ← py_get raw_market "id" (VStr "");
  question ← py_get raw_market "question" (VStr "");
  title ← py_get raw_market "title" question;
  description ← py_get raw_market "description" (VStr "");
  status ← py_get raw_market "status" (VStr "active");
  tags ← py_get raw_market "tags" VNone;
  first_tag ← (if truthy tags
               then tags' ← py_get raw_market "tags" (VList [VStr ""]);
                    py_getitem0 tags'
               else mret (VStr ""));
  category ← py_get raw_market "category" first_tag;
  now ← utcnow;
  created_at ← py_get raw_market "created_at" (VStr (isoformat now));
  end_date ← py_get raw_market "end_date" VNone;
  close_date ← py_get raw_market "close_date" end_date;
  settle_date ← py_get raw_market "settle_date" VNone;
  outcomes ← py_get raw_market "outcomes" (VList []);
  volume ← py_get raw_market "volume" (VInt 0);
  total_volume ← py_get raw_market "total_volume" volume;
  liquidity ← py_get raw_market "liquidity" (VInt 0);
  mret (VDict {[ "id" := id;
                 "title" := title;
                 "description" := description;
                 "provider" := VStr "polymarket";
                 "status" := status;
                 "category" := category;
                 "created_at" := created_at;
                 "close_date" := close_date;
                 "settle_date" := settle_date;
                 "outcomes" := outcomes;
                 "total_volume" := total_volume;
                 "liquidity" := liquidity ]}).

Definition get_markets (self : t) : M (list value) :=
  try_except
    (if mock_mode self then
       sample_data ← _load_sample_data self;
       markets ← py_get sample_data "markets" (VList []);
       items ← py_iter markets;
       mapM (normalize_market self) items
     else
       sample_data ← _load_sample_data self;
       markets ← py_get sample_data "markets" (VList []);
       items ← py_iter markets;
       mapM (normalize_market self) items)
    [except_Exception (fun e =>
       logger_error ("Error fetching Polymarket markets: " ++ str_exn e);;
       mret [])].

Definition get_market (self : t) (market_id : string) : M value :=
  try_except
    (markets ← get_markets self;
     find_market markets market_id)
    [except_Exception (fun e =>
       logger_error ("Error fetching Polymarket market " ++ market_id ++ ": " ++ str_exn e);;
       mret VNone)].

Definition get_market_price (self : t) (market_id : string) : M value :=
  try_except
    (market ← get_market self market_id;
     if negb (truthy market) then mret VNone
     else
       now ← utcnow;
       outcomes ← py_get market "outcomes" (VList []);
       mret (VDict {[ "market_id" := VStr market_id;
                      "timestamp" := VStr (isoformat now);
                      "outcomes" := outcomes ]}))
    [except_Exception (fun e =>
       logger_error
         ("Error fetching Polymarket market price " ++ market_id ++ ": " ++ str_exn e);;
       mret VNone)].

Definition get_market_timeseries (self : t) (market_id : string)
    (start end_ : option string) (interval : string) : M value :=
  try_except
    (if mock_mode self then
       now ← utcnow;
       let data_points :=
         (fun i : Z =>
            VDict {[ "timestamp" := VStr (isoformat (now - timedelta_hours (23 - i)));
                     "price" := VFloat (0.42 + float_of_int i * 0.002);
                     "volume" := VInt (150 + i * 15) ]}) <$> seqZ 0 24 in
       mret (VDict {[ "market_id" := VStr market_id;
                      "outcome_id" := VStr "yes";
                      "interval" := VStr interval;
                      "data_points" := VList data_points ]})
     else mret VNone)
    [except_Exception (fun e =>
       logger_error ("Error fetching Polymarket timeseries " ++ market_id ++ ": " ++ str_exn e);;
       mret VNone)].

Definition get_market_orderbook (self : t) (market_id : string) (depth : Z) : M value :=
  try_except
    (if mock_mode self then
       now ← utcnow;
       mret (VDict {[ "market_id" := VStr market_id;
                      "outcome_id" := VStr "yes";
                      "timestamp" := VStr (isoformat now);
                      "bids" := VList [
                        VDict {[ "price" := VFloat 0.41; "size" := VFloat 200.0 ]};
                        VDict {[ "price" := VFloat 0.40; "size" := VFloat 350.0 ]} ];
                      "asks" := VList [
                        VDict {[ "price" := VFloat 0.43; "size" := VFloat 180.0 ]};
                        VDict {[ "price" := VFloat 0.44; "size" := VFloat 220.0 ]} ];
                      "spread" := VFloat 0.02 ]})
     else mret VNone)
    [except_Exception (fun e =>
       logger_error ("Error fetching Polymarket orderbook " ++ market_id ++ ": " ++ str_exn e);;
       mret VNone)].

Definition get_market_events (self : t) (market_id : string)
    (since : option string) (limit : Z) : M (list value) :=
  try_except
    (if mock_mode self then
       now ← utcnow;
       mret [ VDict {[ "id" := VStr "evt_poly_456";
                       "market_id" := VStr market_id;
                       "event_type" := VStr "trade";
                       "timestamp" := VStr (isoformat now);
                       "data" := VDict {[ "outcome_id" := VStr "yes";
                                          "price" := VFloat 0.42;
                                          "volume" := VFloat 75.0;
                                          "side" := VStr "sell" ]} ]} ]
     else mret [])
    [except_Exception (fun e =>
       logger_error ("Error fetching Polymarket events " ++ market_id ++ ": " ++ str_exn e);;
       mret [])].

Definition sync_data (self : t) : M value :=
  try_except
    (markets ← get_markets self;
     now ← utcnow;
     mret (VDict {[ "provider" := VStr "polymarket";
                    "markets_synced" := VInt (Z.of_nat (length markets));
                    "status" := VStr "success";
                    "timestamp" := VStr (isoformat now) ]}))
    [except_Exception (fun e =>
       logger_error ("Error syncing Polymarket data: " ++ str_exn e);;
       now ← utcnow;
       mret (VDict {[ "provider" := VStr "polymarket";
                      "markets_synced" := VInt 0;
                      "status" := VStr "error";
                      "error" := VStr (str_exn e);
                      "timestamp" := VStr (isoformat now) ]}))].

Definition as_connector (self : t) : Connector.t :=
  {| Connector.get_markets := get_markets self;
     Connector.get_market := get_market self;
     Connector.get_market_price := get_market_price self;
     Connector.get_market_timeseries := get_market_timeseries self;
     Connector.get_market_orderbook := get_market_orderbook self;
     Connector.get_market_events := get_market_events self;
     Connector.sync_data := sync_data self |}.

End PolymarketConnector.

(** ** Route handlers *)

(** The status code of the HTTP response the framework sends for a
    handler's outcome: 200 for a returned envelope, the code of a raised
    [HTTPException], 500 for any other exception. *)
Definition http_status {A : Type} (r : result A) : Z :=
  match r with
  | Ok _ => 200
  | Raise (HTTPException code _) => code
  | Raise _ => 500
  end.

(** [provider.lower() == name], evaluated only for a truthy [provider]. *)
Definition lower_is (provider : option string) (name : string) : bool :=
  match provider with
  | Some s => String.eqb (str_lower s) name
  | None => false
  end.

(** *** [api/routes/markets.py] *)
Module MarketsRoutes.
Section Handlers.
(** The module-level connector instances. *)
Variables kalshi_connector polymarket_connector : Connector.t.

Definition get_markets (provider status q : option string) : M value :=
  try_except
    (let markets : list value := [] in
     markets ←
       (if negb (truthy_str provider) || lower_is provider "kalshi" then
          kalshi_markets ← Connector.get_markets kalshi_connector;
          mret (markets ++ kalshi_markets)%list
        else mret markets);
     markets ←
       (if negb (truthy_str provider) || lower_is provider "polymarket" then
          polymarket_markets ← Connector.get_markets polymarket_connector;
          mret (markets ++ polymarket_markets)%list
        else mret markets);
     markets ←
       (if truthy_str status then
          filterM (fun m =>
                     s ← py_get m "status" (VStr "");
                     s' ← py_lower s;
                     mret (String.eqb s' (str_lower (default "" status))))
                  markets
        else mret markets);
     markets ←
       (if truthy_str q then
          filterM (fun m =>
                     title ← py_get m "title" (VStr "");
                     title' ← py_lower title;
                     mret (str_contains (str_lower (default "" q)) title'))
                  markets
        else mret markets);
     mret (create_envelope (VList markets) true
             (VDict {[ "total" := VInt (Z.of_nat (length markets));
                       "providers" :=
                         (if negb (truthy_str provider)
                          then VList [VStr "kalshi"; VStr "polymarket"]
                          else VList [VStr (default "" provider)]) ]})))
    [except_Exception (fun e =>
       logger_error ("Error fetching markets: " ++ str_exn e);;
       raise (HTTPException 500 "Failed to fetch markets"))].

Definition get_market (market_id : string) : M value :=
  try_except
    (market ← Connector.get_market kalshi_connector market_id;
     market ←
       (if negb (truthy market)
        then Connector.get_market polymarket_connector market_id
        else mret market);
     if negb (truthy market)
     then raise (HTTPException 404 "Market not found")
     else mret (create_envelope market true
                  (VDict {[ "market_id" := VStr market_id ]})))
    [except_HTTPException (fun e => raise e);
     except_Exception (fun e =>
       logger_error ("Error fetching market " ++ market_id ++ ": " ++ str_exn e);;
       raise (HTTPException 500 "Failed to fetch market"))].

(** An [Optional[str]] query parameter as a value of the response. *)
Definition optional_str (o : option string) : value :=
  match o with
  | Some s => VStr s
  | None => VNone
  end.

Definition get_market_price (market_id : string) : M value :=
  try_except
    (price ← Connector.get_market_price kalshi_connector market_id;
     price ←
       (if negb (truthy price)
        then Connector.get_market_price polymarket_connector market_id
        else mret price);
     if negb (truthy price)
     then raise (HTTPException 404 "Market price not found")
     else
       now ← utcnow;
       mret (create_envelope price true
               (VDict {[ "market_id" := VStr market_id;
                         "timestamp" := VStr (isoformat now) ]})))
    [except_HTTPException (fun e => raise e);
     except_Exception (fun e =>
       logger_error ("Error fetching price for market " ++ market_id ++ ": " ++ str_exn e);;
       raise (HTTPException 500 "Failed to fetch market price"))].

Definition get_market_timeseries (market_id : string) (start end_ : option string)
    (interval : string) : M value :=
  try_except
    (timeseries ←
       Connector.get_market_timeseries kalshi_connector market_id start end_ interval;
     timeseries ←
       (if negb (truthy timeseries)
        then Connector.get_market_timeseries polymarket_connector
               market_id start end_ interval
        else mret timeseries);
     if negb (truthy timeseries)
     then raise (HTTPException 404 "Market timeseries not found")
     else
       mret (create_envelope timeseries true
               (VDict {[ "market_id" := VStr market_id;
                         "interval" := VStr interval;
                         "start" := optional_str start;
                         "end" := optional_str end_ ]})))
    [except_HTTPException (fun e => raise e);
     except_Exception (fun e =>
       logger_error
         ("Error fetching timeseries for market " ++ market_id ++ ": " ++ str_exn e);;
       raise (HTTPException 500 "Failed to fetch market timeseries"))].

Definition get_market_orderbook (market_id : string) (depth : Z) : M value :=
  try_except
    (orderbook ← Connector.get_market_orderbook kalshi_connector market_id depth;
     orderbook ←
       (if negb (truthy orderbook)
        then Connector.get_market_orderbook polymarket_connector market_id depth
        else mret orderbook);
     if negb (truthy orderbook)
     then raise (HTTPException 404 "Market orderbook not found")
     else
       now ← utcnow;
       mret (create_envelope orderbook true
               (VDict {[ "market_id" := VStr market_id;
                         "depth" := VInt depth;
                         "timestamp" := VStr (isoformat now) ]})))
    [except_HTTPException (fun e => raise e);
     except_Exception (fun e =>
       logger_error
         ("Error fetching orderbook for market " ++ market_id ++ ": " ++ str_exn e);;
       raise (HTTPException 500 "Failed to fetch market orderbook"))].

(** The connectors return a list, so [isinstance(events, list)] holds
    and [count] is the length of the list. *)
Definition get_market_events (market_id : string) (since : option string)
    (limit : Z) : M value :=
  try_except
    (events ← Connector.get_market_events kalshi_connector market_id since limit;
     events ←
       (if negb (truthy (VList events))
        then Connector.get_market_events polymarket_connector market_id since limit
        else mret events);
     if negb (truthy (VList events))
     then raise (HTTPException 404 "Market events not found")
     else
       mret (create_envelope (VList events) true
               (VDict {[ "market_id" := VStr market_id;
                         "since" := optional_str since;
                         "limit" := VInt limit;
                         "count" := VInt (Z.of_nat (length events)) ]})))
    [except_HTTPException (fun e => raise e);
     except_Exception (fun e =>
       logger_error ("Error fetching events for market " ++ market_id ++ ": " ++ str_exn e);;
       raise (HTTPException 500 "Failed to fetch market events"))].
End Handlers.
End MarketsRoutes.

(** *** [api/routes/ingest.py] *)
Module IngestRoutes.
Section Handlers.
Variables kalshi_connector polymarket_connector : Connector.t.

Definition sync_provider_data (provider : string) : M value :=
  let provider := str_lower provider in
  try_except
    (result ←
       (if String.eqb provider "kalshi" then Connector.sync_data kalshi_connector
        else if String.eqb provider "polymarket"
        then Connector.sync_data polymarket_connector
        else raise (HTTPException 400
                      ("Unknown provider: " ++ provider
                       ++ ". Supported: kalshi, polymarket")));
     now ← utcnow;
     mret (create_envelope result true
             (VDict {[ "provider" := VStr provider;
                       "sync_timestamp" := VStr (isoformat now);
                       "status" := VStr "completed" ]})))
    [except_HTTPException (fun e => raise e);
     except_Exception (fun e =>
       logger_error ("Error syncing data for provider " ++ provider ++ ": " ++ str_exn e);;
       raise (HTTPException 500 ("Failed to sync data for provider " ++ provider)))].
End Handlers.
End IngestRoutes.

(** ** The sample data set written by [data/gen_sample.py]

    The [markets] list of [generate_sample_markets]; the random-walk
    time series the script adds under ["timeseries"] is not read by any
    connector and is left out. *)
Definition sample_markets : list value :=
  [ VDict {[ "id" := VStr "KALSHI-PRES2024";
             "title" := VStr "Will Joe Biden win the 2024 US Presidential Election?";
             "description" :=
               VStr "Market resolves to Yes if Joe Biden wins the 2024 presidential election";
             "provider" := VStr "kalshi";
             "status" := VStr "active";
             "category" := VStr "politics";
             "created_at" := VStr "2024-01-01T00:00:00Z";
             "close_date" := VStr "2024-11-05T23:59:59Z";
             "settle_date" := VStr "2024-11-06T12:00:00Z";
             "outcomes" := VList [
               VDict {[ "id" := VStr "yes"; "name" := VStr "Yes";
                        "price" := VFloat 0.65; "volume" := VFloat 15420.50 ]};
               VDict {[ "id" := VStr "no"; "name" := VStr "No";
                        "price" := VFloat 0.35; "volume" := VFloat 8930.25 ]} ];
             "total_volume" := VFloat 24350.75;
             "liquidity" := VFloat 5420.30 ]};
    VDict {[ "id" := VStr "POLY-CRYPTO2024";
             "title" := VStr "Will Bitcoin reach $100,000 by end of 2024?";
             "description" :=
               VStr "Market resolves to Yes if Bitcoin reaches $100,000 USD by December 31, 2024";
             "provider" := VStr "polymarket";
             "status" := VStr "active";
             "category" := VStr "crypto";
             "created_at" := VStr "2024-01-01T00:00:00Z";
             "close_date" := VStr "2024-12-31T23:59:59Z";
             "settle_date" := VStr "2025-01-01T12:00:00Z";
             "outcomes" := VList [
               VDict {[ "id" := VStr "yes"; "name" := VStr "Yes";
                        "price" := VFloat 0.42; "volume" := VFloat 28750.80 ]};
               VDict {[ "id" := VStr "no"; "name" := VStr "No";
                        "price" := VFloat 0.58; "volume" := VFloat 19240.60 ]} ];
             "total_volume" := VFloat 47991.40;
             "liquidity" := VFloat 8750.20 ]};
    VDict {[ "id" := VStr "KALSHI-TECH2024";
             "title" := VStr "Will Apple stock reach $250 by end of 2024?";
             "description" :=
               VStr "Market resolves to Yes if AAPL closes above $250 on any trading day in 2024";
             "provider" := VStr "kalshi";
             "status" := VStr "active";
             "category" := VStr "stocks";
             "created_at" := VStr "2024-01-15T00:00:00Z";
             "close_date" := VStr "2024-12-31T21:00:00Z";
             "settle_date" := VStr "2025-01-02T09:00:00Z";
             "outcomes" := VList [
               VDict {[ "id" := VStr "yes"; "name" := VStr "Yes";
                        "price" := VFloat 0.73; "volume" := VFloat 12890.30 ]};
               VDict {[ "id" := VStr "no"; "name" := VStr "No";
                        "price" := VFloat 0.27; "volume" := VFloat 4560.70 ]} ];
             "total_volume" := VFloat 17451.00;
             "liquidity" := VFloat 3240.80 ]} ].

Definition sample_dataset : value :=
  VDict {[ "markets" := VList sample_markets;
           "generated_at" := VStr "2024-01-01T00:00:00Z";
           "version" := VStr "1.0.0" ]}.

(** Worlds used in examples: the sample file as generated, absent, and
    holding text that is not JSON. *)
Definition noon : datetime := 63839707200000000.
Definition world_with_sample : world := World noon (FileJson sample_dataset) [].
Definition world_without_file : world := World noon FileMissing [].

(** Connectors built with no credentials in the environment, as the test
    suite runs them. *)
Definition kalshi_mock : KalshiConnector.t := KalshiConnector.new ∅.
Definition polymarket_mock : PolymarketConnector.t := PolymarketConnector.new ∅.

(** ** Vocabulary of the properties *)

(** The record is a dict whose [provider] field is the string [name]. *)
Definition has_provider (name : string) (v : value) : Prop :=
  match v with
  | VDict d => d !! "provider" = Some (VStr name)
  | _ => False
  end.


(** The record's [id] field, when it is a dict that has one. *)
Definition record_id (v : value) : option value :=
  match v with
  | VDict d => d !! "id"
  | _ => None
  end.

(** Two worlds show a call the same clock reading and the same sample
    file; their logs may differ. *)
Definition same_inputs (w1 w2 : world) : Prop :=
  clock w1 = clock w2 /\ sample_file w1 = sample_file w2.


(** The outcome of a call depends on the world only through the clock
    and the sample file, and so does what the call leaves of them. *)
Definition determined {A : Type} (m : M A) : Prop :=
  forall w1 w2, same_inputs w1 w2 ->
    (m w1).1 = (m w2).1 /\ same_inputs (m w1).2 (m w2).2.

(** The call leaves the world as it found it. *)
Definition stateless {A : Type} (m : M A) : Prop :=
  forall w, (m w).2 = w.

(** The shape of a [get_markets] call: either it returns records that
    all satisfy [P] and leaves the world alone, or it logs one error and
    returns the empty list. *)
Definition fetches (P : value -> Prop) (get_markets : M (list value)) : Prop :=
  forall w, exists l, Forall P l /\
    (get_markets w = (Ok l, w) \/
     (l = [] /\ exists msg,
        get_markets w =
          (Ok [], World (clock w) (sample_file w)
                    (log w ++ [LogRecord "ERROR" msg])))).




(** [record.get(key)] on a record that is a dict. *)
Definition record_field (key : string) (v : value) : option value :=
  match v with
  | VDict d => d !! key
  | _ => None
  end.

(** The record's [provider] field, when it is a dict that has one. *)
Definition record_provider (v : value) : option value :=
  match v with
  | VDict d => d !! "provider"
  | _ => None
  end.

(** A record without its [timestamp] field. *)
Definition without_timestamp (v : value) : value :=
  match v with
  | VDict d => VDict (delete "timestamp" d)
  | _ => v
  end.

(** A time series with the [timestamp] of every data point removed. *)
Definition without_point_timestamps (v : value) : value :=
  match v with
  | VDict d =>
      VDict (alter (fun points =>
                      match points with
                      | VList l => VList (without_timestamp <$> l)
                      | _ => points
                      end) "data_points" d)
  | _ => v
  end.

(** The length of a list-valued field of a record. *)
Definition field_length (field : string) (v : value) : option nat :=
  match v with
  | VDict d =>
      match d !! field with
      | Some (VList l) => Some (length l)
      | _ => None
      end
  | _ => None
  end.

(** The [data] member of a response envelope. *)
Definition envelope_data (body : value) : option value :=
  match body with
  | VDict d => d !! "data"
  | _ => None
  end.

(** The records in the [data] list of a handler's response, if it is an
    envelope holding a list. *)
Definition response_records (r : result value) : option (list value) :=
  match r with
  | Ok body =>
      match envelope_data body with
      | Some (VList l) => Some l
      | _ => None
      end
  | Raise _ => None
  end.

(** The seven methods of a connector return the same results in two
    worlds. *)
Definition same_results (c : Connector.t) (w1 w2 : world) : Prop :=
  (Connector.get_markets c w1).1 = (Connector.get_markets c w2).1 /\
  (forall market_id,
     (Connector.get_market c market_id w1).1 = (Connector.get_market c market_id w2).1) /\
  (forall market_id,
     (Connector.get_market_price c market_id w1).1 =
     (Connector.get_market_price c market_id w2).1) /\
  (forall market_id start end_ interval,
     (Connector.get_market_timeseries c market_id start end_ interval w1).1 =
     (Connector.get_market_timeseries c market_id start end_ interval w2).1) /\
  (forall market_id depth,
     (Connector.get_market_orderbook c market_id depth w1).1 =
     (Connector.get_market_orderbook c market_id depth w2).1) /\
  (forall market_id since limit,
     (Connector.get_market_events c market_id since limit w1).1 =
     (Connector.get_market_events c market_id since limit w2).1) /\
  (Connector.sync_data c w1).1 = (Connector.sync_data c w2).1.

(** Time series, order book and events are returned in both worlds and
    agree once the time stamps are removed. *)
Definition same_outside_timestamps (c : Connector.t) (w1 w2 : world) : Prop :=
  (forall market_id start end_ interval, exists t1 t2,
     Connector.get_market_timeseries c market_id start end_ interval w1 = (Ok t1, w1) /\
     Connector.get_market_timeseries c market_id start end_ interval w2 = (Ok t2, w2) /\
     t1 <> VNone /\
     without_point_timestamps t1 = without_point_timestamps t2) /\
  (forall market_id depth, exists b1 b2,
     Connector.get_market_orderbook c market_id depth w1 = (Ok b1, w1) /\
     Connector.get_market_orderbook c market_id depth w2 = (Ok b2, w2) /\
     b1 <> VNone /\
     without_timestamp b1 = without_timestamp b2) /\
  (forall market_id since limit, exists e1 e2,
     Connector.get_market_events c market_id since limit w1 = (Ok [e1], w1) /\
     Connector.get_market_events c market_id since limit w2 = (Ok [e2], w2) /\
     without_timestamp e1 = without_timestamp e2).

(** The entry [key] of the [meta] member of a response envelope. *)
Definition envelope_meta (key : string) (body : value) : option value :=
  match body with
  | VDict d =>
      match d !! "meta" with
      | Some (VDict meta) => meta !! key
      | _ => None
      end
  | _ => None
  end.

(** [record["id"] == market_id] for a listed record. *)
Definition has_id (market_id : string) (m : value) : bool :=
  match record_id m with
  | Some v => eq_str v market_id
  | None => false
  end.

(** The first record of a list whose id is [market_id], [None] when
    there is none. *)
Definition first_with_id (market_id : string) (l : list value) : value :=
  match List.find (has_id market_id) l with
  | Some m => m
  | None => VNone
  end.

(** The keys of the common market schema, as [normalize_market] writes
    them. *)
Definition market_keys : gset string :=
  {[ "id"; "title"; "description"; "provider"; "status"; "category";
     "created_at"; "close_date"; "settle_date"; "outcomes"; "total_volume";
     "liquidity" ]}.

(** [obj.get(key, default)] on a dict, as a pure function. *)
Definition get_or (d : gmap string value) (key : string) (default : value) : value :=
  match d !! key with
  | Some v => v
  | None => default
  end.

(** The record is a dict. *)
Definition is_dict (v : value) : bool :=
  match v with
  | VDict _ => true
  | _ => false
  end.

(** The delay before the retry that follows failed attempt [attempt]. *)
Definition backoff_delay (base_delay : float) (attempt : nat) : float :=
  (base_delay * Z.ldexp 1%float (Z.of_nat attempt))%float.

(** The shape of what a call of [async_retry] does from attempt [k] on:
    attempts and sleeps alternate, every attempt that is followed by
    anything failed, the sleep after failed attempt [j] lasts
    [base_delay * 2**j], and the last thing done is an attempt. *)
Fixpoint backoff_trace {V : Type} (base_delay : float) (k : nat)
    (tr : list (@Retry.event V)) : Prop :=
  match tr with
  | [Retry.Attempt j _] => j = k
  | Retry.Attempt j (Raise _) :: Retry.Sleep d :: rest =>
      j = k /\ d = backoff_delay base_delay k /\ backoff_trace base_delay (S k) rest
  | _ => False
  end.

(** The recorded events are what happened: starting in [w], every
    recorded attempt is the outcome of invoking [func] in the world
    reached so far, every recorded sleep follows a failed attempt and
    leaves the world that [logger.warning] and then [asyncio.sleep] make
    of the world the attempt left, and [w'] is the world after the last
    event. *)
Fixpoint replays {W V : Type} (asyncio_sleep : float -> W -> W)
    (logger_warning : nat -> Z -> float -> exn -> W -> W)
    (func : W -> result V * W) (max_retries : Z)
    (tr : list (@Retry.event V)) (w w' : W) : Prop :=
  match tr with
  | [] => w' = w
  | Retry.Attempt attempt r :: rest =>
      (func w).1 = r /\
      match rest with
      | [] => w' = (func w).2
      | Retry.Sleep delay :: rest' =>
          match r with
          | Raise e =>
              replays asyncio_sleep logger_warning func max_retries rest'
                (asyncio_sleep delay
                   (logger_warning (attempt + 1)%nat max_retries delay e (func w).2))
                w'
          | Ok _ => False
          end
      | Retry.Attempt _ _ :: _ => False
      end
  | Retry.Sleep _ :: _ => False
  end.

(** What comes out of a call, given the last recorded event: the value
    of a successful attempt; the exception of a failed attempt with the
    last index; after a failed attempt with an earlier index only the
    [OverflowError] of a delay that cannot be formed. *)
Definition outcome_of_last {V : Type} (max_retries : Z)
    (tr : list (@Retry.event V)) (out : result (option V)) : Prop :=
  match last tr with
  | Some (Retry.Attempt attempt (Ok v)) => out = Ok (Some v)
  | Some (Retry.Attempt attempt (Raise e)) =>
      if Z.of_nat attempt =? max_retries - 1 then out = Raise e
      else (1024 <= attempt)%nat /\
           out = Raise (OverflowError "int too large to convert to float")
  | _ => False
  end.

(** An optional query parameter is absent or ASCII. *)
Definition is_ascii_opt (o : option string) : bool :=
  match o with
  | Some s => is_ascii s
  | None => true
  end.

(** The [status] and [title] of the record, where they are strings, are
    ASCII. *)
Definition ascii_text (m : value) : bool :=
  match record_field "status" m with Some (VStr s) => is_ascii s | _ => true end &&
  match record_field "title" m with Some (VStr s) => is_ascii s | _ => true end.

(** The record passes the [status] filter of the listing: there is no
    filter, or the record has a string [status] that equals the
    parameter up to letter case. *)
Definition status_matches (status : option string) (m : value) : bool :=
  if truthy_str status then
    match record_field "status" m with
    | Some (VStr v) => String.eqb (str_lower v) (str_lower (default "" status))
    | _ => false
    end
  else true.

(** The record passes the [q] filter of the listing: there is no filter,
    or the record has a string [title] that contains the parameter up to
    letter case. *)
Definition title_matches (q : option string) (m : value) : bool :=
  if truthy_str q then
    match record_field "title" m with
    | Some (VStr v) => str_contains (str_lower (default "" q)) (str_lower v)
    | _ => false
    end
  else true.

(** Whether the first tag can be taken from the raw dict: [tags] is
    absent or falsy, or it is a non-empty list or string. *)
Definition tags_usable (d : gmap string value) : bool :=
  match d !! "tags" with
  | None => true
  | Some t =>
      negb (truthy t) ||
      match t with
      | VList _ | VStr _ => true
      | _ => false
      end
  end.

(** The environment sets [name] to a non-empty string. *)
Definition env_set (environ : gmap string string) (name : string) : Prop :=
  exists s, environ !! name = Some s /\ s <> "".

(** The id [normalize_market] gives a raw market: its [id] entry, the
    empty string when it has none; nothing for a raw item that is not a
    dict. *)
Definition raw_id (raw : value) : option value :=
  match raw with
  | VDict d => Some (get_or d "id" (VStr ""))
  | _ => None
  end.

(** The raw item is a dict whose [tags] Polymarket can use. *)
Definition polymarket_accepts (raw : value) : bool :=
  match raw with
  | VDict d => tags_usable d
  | _ => false
  end.

(** The world after one call of [logger.error(msg)]. *)
Definition logged_error (msg : string) (w : world) : world :=
  World (clock w) (sample_file w) (log w ++ [LogRecord "ERROR" msg]).

(** The record cannot be tested by the status filter of the listing:
    it is no dict, or its [status] is not a string. *)
Definition breaks_status_filter (m : value) : bool :=
  match m with
  | VDict d =>
      match d !! "status" with
      | Some (VStr _) | None => false
      | Some _ => true
      end
  | _ => true
  end.

(** * Properties *)

(** ** The retry helper *)
Section RetryFacts.
Import Retry.
Context {W V : Type}.
Variable asyncio_sleep : float -> W -> W.
Variable logger_warning : nat -> Z -> float -> exn -> W -> W.

Lemma float_of_pow2_0 : float_of_pow2 0 = Ok 1%float.
Proof. vm_compute. reflexivity. Qed.

Lemma float_of_pow2_1 : float_of_pow2 1 = Ok 2%float.
Proof. vm_compute. reflexivity. Qed.

(** Decides the test [attempt == max_retries - 1] at a known index. *)
Ltac last_index :=
  repeat match goal with
    | |- context [Z.of_nat ?n =? ?m] =>
        let b := eval vm_compute in (Z.of_nat n =? m) in
        change (Z.of_nat n =? m) with b
    end;
  cbn.

(** The loop of a call with the default [max_retries]. *)
Lemma async_retry_default_unfold (func : @awaitable W V) (base_delay : float) (w : W) :
  async_retry asyncio_sleep logger_warning func 3 base_delay w =
  retry_loop asyncio_sleep logger_warning func 3 base_delay [0; 1; 2]%nat w.
Proof. reflexivity. Qed.

(** C1: with the default [max_retries = 3], whatever the function and
    the base delay, [async_retry] invokes the function at most three
    times, each time in the world the previous step left.  The first
    attempt runs in the caller's world; after a failed attempt [k] that
    is not the last, the wrapper logs a warning and sleeps
    [base_delay * 2**k] (so [base_delay * 1], then [base_delay * 2]),
    and the next attempt runs in the world the sleep left.  The call
    returns the first value an attempt returns, in the world that
    attempt left; when the third attempt fails too, the call raises that
    attempt's exception, in the world that attempt left. *)
Theorem async_retry_three_attempts
    (func : @awaitable W V) (base_delay : float) (w : W) :
  let d0 := (base_delay * 1)%float in
  let d1 := (base_delay * 2)%float in
  let run :=
    async_retry asyncio_sleep logger_warning func default_max_retries base_delay w in
  (attempts_made run.2 <= 3)%nat /\
  match func w with
  | (Ok v, w1) => run = (Ok (Some v), w1, [Attempt 0 (Ok v)])
  | (Raise e0, w1) =>
      match func (asyncio_sleep d0 (logger_warning 1%nat 3 d0 e0 w1)) with
      | (Ok v, w2) =>
          run = (Ok (Some v), w2, [Attempt 0 (Raise e0); Sleep d0; Attempt 1 (Ok v)])
      | (Raise e1, w2) =>
          match func (asyncio_sleep d1 (logger_warning 2%nat 3 d1 e1 w2)) with
          | (Ok v, w3) =>
              run = (Ok (Some v), w3,
                     [Attempt 0 (Raise e0); Sleep d0; Attempt 1 (Raise e1); Sleep d1;
                      Attempt 2 (Ok v)])
          | (Raise e2, w3) =>
              run = (Raise e2, w3,
                     [Attempt 0 (Raise e0); Sleep d0; Attempt 1 (Raise e1); Sleep d1;
                      Attempt 2 (Raise e2)])
          end
      end
  end.
Proof.
  cbv zeta. unfold default_max_retries. rewrite async_retry_default_unfold.
  cbn [retry_loop].
  destruct (func w) as [[v0 | e0] w1]; last_index.
  { split; [lia | reflexivity]. }
  rewrite float_of_pow2_0.
  destruct (func _) as [[v1 | e1] w2]; last_index.
  { split; [lia | reflexivity]. }
  rewrite float_of_pow2_1.
  destruct (func _) as [[v2 | e2] w3]; last_index.
  { split; [lia | reflexivity]. }
  split; [lia | reflexivity].
Qed.

(** C2: a function that raises on its first two invocations and
    returns [v] on the third makes [async_retry] (default
    [max_retries = 3]) return [v], after exactly two sleeps, one after
    each failed attempt. *)
Theorem async_retry_fail_twice_then_succeed
    (func : @awaitable W V) (base_delay : float)
    (w0 w1 w2 w3 : W) (e0 e1 : exn) (v : V) :
  let d0 := (base_delay * 1)%float in
  let d1 := (base_delay * 2)%float in
  func w0 = (Raise e0, w1) ->
  func (asyncio_sleep d0 (logger_warning 1%nat 3 d0 e0 w1)) = (Raise e1, w2) ->
  func (asyncio_sleep d1 (logger_warning 2%nat 3 d1 e1 w2)) = (Ok v, w3) ->
  exists tr,
    async_retry asyncio_sleep logger_warning func default_max_retries base_delay w0
      = (Ok (Some v), w3, tr) /\
    tr = [Attempt 0 (Raise e0); Sleep d0; Attempt 1 (Raise e1); Sleep d1;
          Attempt 2 (Ok v)] /\
    delays tr = [d0; d1] /\
    length (delays tr) = 2%nat.
Proof.
  intros d0 d1 H0 H1 H2.
  unfold default_max_retries. rewrite async_retry_default_unfold.
  cbn [retry_loop]. rewrite H0. last_index. rewrite float_of_pow2_0.
  fold d0. rewrite H1. last_index. rewrite float_of_pow2_1. fold d1. rewrite H2.
  eexists. split; [reflexivity |]. repeat split.
Qed.
End RetryFacts.

(** Three failures with base delay 0.5: sleeps of 0.5 and 1.0, then the
    third exception comes out. *)
Example async_retry_always_failing :
  Retry.async_retry (fun _ n => n) (fun _ _ _ _ n => n) Retry.always_failing
    Retry.default_max_retries 0.5%float 0%nat =
  (Raise (OtherError "ConnectError" "third"), 3%nat,
   [Retry.Attempt 0 (Raise (OtherError "ConnectError" "earlier"));
    Retry.Sleep 0.5%float;
    Retry.Attempt 1 (Raise (OtherError "ConnectError" "earlier"));
    Retry.Sleep 1%float;
    Retry.Attempt 2 (Raise (OtherError "ConnectError" "third"))]).
Proof. vm_compute. reflexivity. Qed.

Lemma async_retry_fail_twice_witness :
  exists tr,
    Retry.async_retry (fun _ n => n) (fun _ _ _ _ n => n) Retry.flaky
      Retry.default_max_retries 1%float 0%nat = (Ok (Some 42), 3%nat, tr) /\
    tr = [Retry.Attempt 0 (Raise (OtherError "ConnectError" "connection refused"));
          Retry.Sleep 1%float;
          Retry.Attempt 1 (Raise (OtherError "ConnectError" "connection refused"));
          Retry.Sleep 2%float;
          Retry.Attempt 2 (Ok 42)] /\
    Retry.delays tr = [1%float; 2%float] /\
    length (Retry.delays tr) = 2%nat.
Proof.
  exact (async_retry_fail_twice_then_succeed (fun _ n => n) (fun _ _ _ _ n => n)
           Retry.flaky 1%float 0%nat 1%nat 2%nat 3%nat _ _ 42
           eq_refl eq_refl eq_refl).
Defined.

(** ** Reasoning about the monad *)

Lemma bind_run {A B : Type} (m : M A) (f : A -> M B) (w : world) :
  (m ≫= f) w = match m w with
               | (Ok a, w') => f a w'
               | (Raise e, w') => (Raise e, w')
               end.
Proof. reflexivity. Qed.

Lemma try_except_Exception_run {A : Type} (body : M A) (h : exn -> M A) (w : world) :
  try_except body [except_Exception h] w =
  match body w with
  | (Ok a, w') => (Ok a, w')
  | (Raise e, w') => h e w'
  end.
Proof. unfold try_except. destruct (body w) as [[a | e] w']; reflexivity. Qed.

Lemma same_inputs_refl (w : world) : same_inputs w w.
Proof. split; reflexivity. Qed.

Lemma same_inputs_log (w : world) (l : list log_record) :
  same_inputs w (World (clock w) (sample_file w) l).
Proof. split; reflexivity. Qed.

(** *** [determined] is closed under the constructs of the code *)

Lemma determined_ret {A : Type} (a : A) : determined (mret a : M A).
Proof. intros w1 w2 H. split; [reflexivity | exact H]. Qed.

Lemma determined_raise {A : Type} (e : exn) : determined (raise e : M A).
Proof. intros w1 w2 H. split; [reflexivity | exact H]. Qed.

Lemma determined_utcnow : determined utcnow.
Proof. intros w1 w2 H. split; [cbn; f_equal; apply H | exact H]. Qed.

Lemma determined_logger_error (msg : string) : determined (logger_error msg).
Proof. intros w1 w2 [Hc Hf]. split; [reflexivity | split; cbn; assumption]. Qed.

Lemma determined_open_and_load_sample : determined open_and_load_sample.
Proof.
  intros w1 w2 [Hc Hf]. unfold open_and_load_sample. rewrite Hf.
  destruct (sample_file w2) eqn:E; cbn; (split; [reflexivity | split; congruence]).
Qed.

Lemma determined_bind {A B : Type} (m : M A) (f : A -> M B) :
  determined m -> (forall a, determined (f a)) -> determined (m ≫= f).
Proof.
  intros Hm Hf w1 w2 H. rewrite !bind_run.
  destruct (Hm w1 w2 H) as [Hr Hw].
  destruct (m w1) as [r1 w1'], (m w2) as [r2 w2']; cbn in Hr, Hw. subst r2.
  destruct r1 as [a | e]; [apply Hf; exact Hw | split; [reflexivity | exact Hw]].
Qed.

Lemma determined_dispatch {A : Type} (clauses : list (clause A)) (e : exn) :
  Forall (fun c => forall h, c e = Some h -> determined h) clauses ->
  determined (dispatch clauses e).
Proof.
  induction 1 as [| c rest Hc _ IH]; cbn; [apply determined_raise |].
  destruct (c e) as [h |] eqn:E; [apply Hc; reflexivity | exact IH].
Qed.

Lemma determined_try_except {A : Type} (body : M A) (clauses : list (clause A)) :
  determined body ->
  (forall e, Forall (fun c => forall h, c e = Some h -> determined h) clauses) ->
  determined (try_except body clauses).
Proof.
  intros Hb Hc w1 w2 H. unfold try_except.
  destruct (Hb w1 w2 H) as [Hr Hw].
  destruct (body w1) as [r1 w1'], (body w2) as [r2 w2']; cbn in Hr, Hw. subst r2.
  destruct r1 as [a | e]; [split; [reflexivity | exact Hw] |].
  apply determined_dispatch; [apply Hc | exact Hw].
Qed.

Lemma determined_except_Exception {A : Type} (h : exn -> M A) (e : exn) :
  (forall e, determined (h e)) ->
  Forall (fun c : clause A => forall h', c e = Some h' -> determined h')
         [except_Exception h].
Proof.
  intros Hh. constructor; [| constructor].
  intros h' E. injection E as <-. apply Hh.
Qed.

Lemma determined_mapM {A B : Type} (f : A -> M B) (xs : list A) :
  (forall x, determined (f x)) -> determined (mapM f xs).
Proof.
  intros Hf. induction xs as [| x rest IH]; cbn [mapM]; [apply determined_ret |].
  apply determined_bind; [apply Hf | intros y].
  apply determined_bind; [exact IH | intros ys; apply determined_ret].
Qed.

Lemma determined_filterM {A : Type} (p : A -> M bool) (xs : list A) :
  (forall x, determined (p x)) -> determined (filterM p xs).
Proof.
  intros Hp. induction xs as [| x rest IH]; cbn [filterM]; [apply determined_ret |].
  apply determined_bind; [apply Hp | intros keep].
  apply determined_bind; [exact IH | intros ys; apply determined_ret].
Qed.

Lemma determined_py_get (obj : value) (key : string) (default : value) :
  determined (py_get obj key default).
Proof. destruct obj; first [apply determined_ret | apply determined_raise]. Qed.

Lemma determined_py_iter (obj : value) : determined (py_iter obj).
Proof. destruct obj; first [apply determined_ret | apply determined_raise]. Qed.

Lemma determined_py_getitem0 (obj : value) : determined (py_getitem0 obj).
Proof.
  destruct obj as [| | | | s | l |];
    try destruct s; try destruct l; first [apply determined_ret | apply determined_raise].
Qed.

Lemma determined_py_getitem (obj : value) (key : string) :
  determined (py_getitem obj key).
Proof.
  destruct obj; try apply determined_raise.
  cbn. destruct (_ !! key); [apply determined_ret | apply determined_raise].
Qed.

Lemma determined_find_market (markets : list value) (market_id : string) :
  determined (find_market markets market_id).
Proof.
  induction markets as [| m rest IH]; cbn [find_market]; [apply determined_ret |].
  apply determined_bind; [apply determined_py_getitem | intros id].
  destruct (eq_str id market_id); [apply determined_ret | exact IH].
Qed.

Lemma determined_load_fallback (fallback : value) :
  determined (try_except open_and_load_sample
                [except_FileNotFoundError (mret fallback)]).
Proof.
  apply determined_try_except; [apply determined_open_and_load_sample |].
  intros e. constructor; [| constructor].
  intros h E. destruct e; try discriminate. injection E as <-. apply determined_ret.
Qed.

Create HintDb determined discriminated.
#[local] Hint Resolve determined_ret determined_raise determined_utcnow
  determined_logger_error determined_open_and_load_sample determined_py_get
  determined_py_iter determined_py_getitem0 determined_py_getitem
  determined_find_market determined_load_fallback : determined.

(** Walks a method body: binds, handlers, branches and loops. *)
Ltac determined_step :=
  match goal with
  | |- determined (try_except _ [except_Exception _]) =>
      apply determined_try_except;
      [| intros ?; apply determined_except_Exception; intros ?]
  | |- determined (_ ≫= _) => apply determined_bind; [| intros ?]
  | |- determined (mapM _ _) => apply determined_mapM; intros ?
  | |- determined (filterM _ _) => apply determined_filterM; intros ?
  | |- determined (if ?b then _ else _) => destruct b
  | |- determined (let x := _ in _) => cbv zeta
  | |- determined _ => solve [auto with determined]
  end.

(** *** [stateless] code: no logging, hence no caught error *)

Lemma stateless_run {A : Type} (m : M A) (w : world) :
  stateless m -> m w = ((m w).1, w).
Proof. intros H. rewrite <- (H w) at 3. destruct (m w); reflexivity. Qed.

Lemma stateless_ret {A : Type} (a : A) : stateless (mret a : M A).
Proof. intros w. reflexivity. Qed.

Lemma stateless_raise {A : Type} (e : exn) : stateless (raise e : M A).
Proof. intros w. reflexivity. Qed.

Lemma stateless_utcnow : stateless utcnow.
Proof. intros w. reflexivity. Qed.

Lemma stateless_open_and_load_sample : stateless open_and_load_sample.
Proof. intros w. unfold open_and_load_sample. destruct (sample_file w); reflexivity. Qed.

Lemma stateless_bind {A B : Type} (m : M A) (f : A -> M B) :
  stateless m -> (forall a, stateless (f a)) -> stateless (m ≫= f).
Proof.
  intros Hm Hf w. rewrite bind_run, (stateless_run m w Hm).
  destruct (m w).1 as [a | e]; [apply Hf | reflexivity].
Qed.

Lemma stateless_mapM {A B : Type} (f : A -> M B) (xs : list A) :
  (forall x, stateless (f x)) -> stateless (mapM f xs).
Proof.
  intros Hf. induction xs as [| x rest IH]; cbn [mapM]; [apply stateless_ret |].
  apply stateless_bind; [apply Hf | intros y].
  apply stateless_bind; [exact IH | intros ys; apply stateless_ret].
Qed.

Lemma stateless_py_get (obj : value) (key : string) (default : value) :
  stateless (py_get obj key default).
Proof. destruct obj; intros w; reflexivity. Qed.

Lemma stateless_py_iter (obj : value) : stateless (py_iter obj).
Proof. destruct obj; intros w; reflexivity. Qed.

Lemma stateless_py_getitem0 (obj : value) : stateless (py_getitem0 obj).
Proof.
  destruct obj as [| | | | s | l |]; try destruct s; try destruct l;
    intros w; reflexivity.
Qed.

Lemma stateless_py_getitem (obj : value) (key : string) :
  stateless (py_getitem obj key).
Proof.
  destruct obj; intros w; try reflexivity.
  cbn. destruct (_ !! key); reflexivity.
Qed.

Lemma stateless_find_market (markets : list value) (market_id : string) :
  stateless (find_market markets market_id).
Proof.
  induction markets as [| m rest IH]; cbn [find_market]; [apply stateless_ret |].
  apply stateless_bind; [apply stateless_py_getitem | intros id].
  destruct (eq_str id market_id); [apply stateless_ret | exact IH].
Qed.

Lemma stateless_load_fallback (fallback : value) :
  stateless (try_except open_and_load_sample
               [except_FileNotFoundError (mret fallback)]).
Proof.
  intros w. unfold try_except, open_and_load_sample.
  destruct (sample_file w) as [| e |]; try reflexivity.
  destruct e; reflexivity.
Qed.

Create HintDb stateless discriminated.
#[local] Hint Resolve stateless_ret stateless_raise stateless_utcnow
  stateless_open_and_load_sample stateless_py_get stateless_py_iter
  stateless_py_getitem0 stateless_py_getitem stateless_find_market
  stateless_load_fallback : stateless.

Ltac stateless_step :=
  match goal with
  | |- stateless (_ ≫= _) => apply stateless_bind; [| intros ?]
  | |- stateless (mapM _ _) => apply stateless_mapM; intros ?
  | |- stateless (if ?b then _ else _) => destruct b
  | |- stateless _ => solve [auto with stateless]
  end.

(** *** Inversion of successful runs *)

Lemma bind_Ok_inv {A B : Type} (m : M A) (f : A -> M B) (w w' : world) (b : B) :
  (m ≫= f) w = (Ok b, w') ->
  exists a w1, m w = (Ok a, w1) /\ f a w1 = (Ok b, w').
Proof.
  rewrite bind_run. destruct (m w) as [[a | e] w1]; [eauto | discriminate].
Qed.

Lemma mapM_Ok_Forall {A B : Type} (P : B -> Prop) (f : A -> M B) (xs : list A) :
  (forall x w b w', f x w = (Ok b, w') -> P b) ->
  forall w ys w', mapM f xs w = (Ok ys, w') -> Forall P ys.
Proof.
  intros Hf. induction xs as [| x rest IH]; cbn [mapM]; intros w ys w' H.
  - injection H as <- _. constructor.
  - apply bind_Ok_inv in H as (y & w1 & Hy & H).
    apply bind_Ok_inv in H as (ys' & w2 & Hys & H).
    injection H as <- _. constructor; [eapply Hf, Hy | eapply IH, Hys].
Qed.

Lemma filterM_Ok_Forall {A : Type} (P : A -> Prop) (p : A -> M bool) (xs : list A) :
  Forall P xs ->
  forall w ys w', filterM p xs w = (Ok ys, w') -> Forall P ys.
Proof.
  induction 1 as [| x rest Hx _ IH]; cbn [filterM]; intros w ys w' H.
  - injection H as <- _. constructor.
  - apply bind_Ok_inv in H as (keep & w1 & _ & H).
    apply bind_Ok_inv in H as (ys' & w2 & Hys & H).
    injection H as <- _. specialize (IH _ _ _ Hys).
    destruct keep; [constructor; assumption | assumption].
Qed.

Lemma find_market_Ok (markets : list value) (market_id : string) :
  forall w v w', find_market markets market_id w = (Ok v, w') ->
    v = VNone \/ (v ∈ markets /\ exists id, record_id v = Some id /\ eq_str id market_id = true).
Proof.
  induction markets as [| m rest IH]; cbn [find_market]; intros w v w' H.
  - injection H as <- _. left; reflexivity.
  - apply bind_Ok_inv in H as (id & w1 & Hid & H).
    destruct (eq_str id market_id) eqn:E.
    + injection H as <- _. right. split; [left |].
      exists id. split; [| exact E].
      destruct m; try discriminate. cbn in Hid |- *.
      destruct (_ !! "id"); [injection Hid as ->; reflexivity | discriminate].
    + destruct (IH _ _ _ H) as [-> | [Hin Hid']]; [left; reflexivity |].
      right. split; [right; exact Hin | exact Hid'].
Qed.

(** ** Shapes shared by the two connectors

    The connector classes repeat the same method bodies around
    different constants; the lemmas here are about the bodies. *)

Lemma get_markets_shape (P : value -> Prop) (fetch : M (list value))
    (msg : exn -> string) (mock_mode : bool) :
  stateless fetch ->
  (forall w l w', fetch w = (Ok l, w') -> Forall P l) ->
  fetches P (try_except (if mock_mode then fetch else fetch)
               [except_Exception (fun e => logger_error (msg e);; mret [])]).
Proof.
  intros Hs HP w. rewrite try_except_Exception_run.
  replace (if mock_mode then fetch else fetch) with fetch by (destruct mock_mode; reflexivity).
  rewrite (stateless_run fetch w Hs).
  destruct (fetch w).1 as [l | e] eqn:E.
  - exists l. split; [| left; reflexivity].
    apply (HP w l w). rewrite (stateless_run fetch w Hs), E. reflexivity.
  - exists []. split; [constructor | right; split; [reflexivity |]].
    exists (msg e). reflexivity.
Qed.


(** [get_market]: never raises; returns [None] whenever an error was
    logged; a record it returns is one of the fetched markets, with the
    requested id. *)
Lemma get_market_shape (P : value -> Prop) (get_markets : M (list value))
    (msg : exn -> string) (market_id : string) :
  fetches P get_markets ->
  forall w, exists v w',
    try_except (markets ← get_markets; find_market markets market_id)
      [except_Exception (fun e => logger_error (msg e);; mret VNone)] w = (Ok v, w') /\
    (log w' = log w \/ v = VNone) /\
    (v = VNone \/
     (P v /\ exists id, record_id v = Some id /\ eq_str id market_id = true)) /\
    same_inputs w w'.
Proof.
  intros Hf w. rewrite try_except_Exception_run, bind_run.
  destruct (Hf w) as (l & HP & [Hrun | (-> & m & Hrun)]); rewrite Hrun.
  - rewrite (stateless_run _ w (stateless_find_market l market_id)).
    destruct (find_market l market_id w).1 as [v | e] eqn:E.
    + exists v, w. split; [reflexivity |]. split; [left; reflexivity |].
      split; [| apply same_inputs_refl].
      assert (Hrun' : find_market l market_id w = (Ok v, w)).
      { rewrite (stateless_run _ w (stateless_find_market l market_id)), E. reflexivity. }
      destruct (find_market_Ok _ _ _ _ _ Hrun') as [-> | [Hin Hid]]; [left; reflexivity |].
      right. split; [| exact Hid].
      rewrite Forall_forall in HP. apply HP, Hin.
    + eexists VNone, _. split; [reflexivity |].
      split; [right; reflexivity |]. split; [left; reflexivity | apply same_inputs_log].
  - eexists VNone, _. split; [reflexivity |].
    split; [right; reflexivity |]. split; [left; reflexivity | apply same_inputs_log].
Qed.



(** ** The Kalshi connector *)

(** The statements both branches of [get_markets] run. *)
Local Abbreviation kalshi_fetch self :=
  (sample_data ← KalshiConnector._load_sample_data self;
   markets ← py_get sample_data "markets" (VList []);
   items ← py_iter markets;
   mapM (KalshiConnector.normalize_market self) items).

Lemma kalshi_normalize_stateless self raw :
  stateless (KalshiConnector.normalize_market self raw).
Proof. unfold KalshiConnector.normalize_market. repeat stateless_step. Qed.

Lemma kalshi_normalize_dict self (d : gmap string value) w :
  exists m, KalshiConnector.normalize_market self (VDict d) w = (Ok (VDict m), w) /\
    m !! "provider" = Some (VStr "kalshi") /\
    m !! "id" = Some (default (VStr "") (d !! "id")).
Proof.
  eexists. split; [reflexivity |].
  split; [by simplify_map_eq |].
  rewrite lookup_insert_eq. destruct (d !! "id"); reflexivity.
Qed.

Lemma kalshi_normalize_Ok self raw w m w' :
  KalshiConnector.normalize_market self raw w = (Ok m, w') ->
  has_provider "kalshi" m /\
  exists d, raw = VDict d /\ record_id m = Some (default (VStr "") (d !! "id")).
Proof.
  intros H. destruct raw as [| | | | | | d]; try (cbn in H; discriminate).
  destruct (kalshi_normalize_dict self d w) as (m' & Hrun & Hp & Hid).
  rewrite Hrun in H. injection H as <- _.
  split; [exact Hp | exists d; split; [reflexivity | exact Hid]].
Qed.

Lemma kalshi_fetch_stateless self : stateless (kalshi_fetch self).
Proof.
  unfold KalshiConnector._load_sample_data.
  repeat stateless_step. apply kalshi_normalize_stateless.
Qed.

Lemma kalshi_fetch_Ok self w l w' :
  kalshi_fetch self w = (Ok l, w') -> Forall (has_provider "kalshi") l.
Proof.
  intros H.
  apply bind_Ok_inv in H as (sample_data & w1 & _ & H).
  apply bind_Ok_inv in H as (markets & w2 & _ & H).
  apply bind_Ok_inv in H as (items & w3 & _ & H).
  eapply mapM_Ok_Forall, H.
  intros x w0 b w0' Hx. eapply kalshi_normalize_Ok, Hx.
Qed.

Lemma kalshi_get_markets_fetches self :
  fetches (has_provider "kalshi") (KalshiConnector.get_markets self).
Proof.
  apply (get_markets_shape _ (kalshi_fetch self)).
  - apply kalshi_fetch_stateless.
  - apply kalshi_fetch_Ok.
Qed.




Lemma kalshi_determined self :
  determined (KalshiConnector.get_markets self) /\
  (forall market_id, determined (KalshiConnector.get_market self market_id)) /\
  (forall market_id, determined (KalshiConnector.get_market_price self market_id)) /\
  (forall market_id start end_ interval,
     determined (KalshiConnector.get_market_timeseries self market_id start end_ interval)) /\
  (forall market_id depth,
     determined (KalshiConnector.get_market_orderbook self market_id depth)) /\
  (forall market_id since limit,
     determined (KalshiConnector.get_market_events self market_id since limit)) /\
  determined (KalshiConnector.sync_data self).
Proof.
  assert (Hn : forall raw, determined (KalshiConnector.normalize_market self raw)).
  { intros raw. unfold KalshiConnector.normalize_market. repeat determined_step. }
  assert (Hm : determined (KalshiConnector.get_markets self)).
  { unfold KalshiConnector.get_markets, KalshiConnector._load_sample_data.
    repeat determined_step; apply Hn. }
  assert (Hg : forall market_id, determined (KalshiConnector.get_market self market_id)).
  { intros market_id. unfold KalshiConnector.get_market.
    repeat determined_step; apply Hm. }
  refine (conj Hm (conj Hg (conj _ (conj _ (conj _ (conj _ _)))))); intros;
    unfold KalshiConnector.get_market_price, KalshiConnector.get_market_timeseries,
      KalshiConnector.get_market_orderbook, KalshiConnector.get_market_events,
      KalshiConnector.sync_data;
    repeat determined_step; first [apply Hm | apply Hg].
Qed.

(** [sync_data] always takes the success path: the count is the length
    of the list [get_markets] returned. *)
Lemma kalshi_sync_data_run self w :
  exists l w' d,
    KalshiConnector.get_markets self w = (Ok l, w') /\
    (log w' = log w \/ l = []) /\
    Forall (has_provider "kalshi") l /\
    KalshiConnector.sync_data self w = (Ok (VDict d), w') /\
    d !! "provider" = Some (VStr "kalshi") /\
    d !! "status" = Some (VStr "success") /\
    d !! "markets_synced" = Some (VInt (Z.of_nat (length l))).
Proof.
  unfold KalshiConnector.sync_data. rewrite try_except_Exception_run, bind_run.
  destruct (kalshi_get_markets_fetches self w) as (l & HP & [Hrun | (-> & m & Hrun)]);
    rewrite Hrun.
  - exists l, w. eexists. split; [reflexivity |]. split; [left; reflexivity |].
    split; [exact HP |]. split; [reflexivity |]. by simplify_map_eq.
  - eexists [], _, _. split; [reflexivity |]. split; [right; reflexivity |].
    split; [constructor |]. split; [reflexivity |]. by simplify_map_eq.
Qed.



(** ** The Polymarket connector *)

(** The statements both branches of [get_markets] run. *)
Local Abbreviation polymarket_fetch self :=
  (sample_data ← PolymarketConnector._load_sample_data self;
   markets ← py_get sample_data "markets" (VList []);
   items ← py_iter markets;
   mapM (PolymarketConnector.normalize_market self) items).

Lemma polymarket_normalize_stateless self raw :
  stateless (PolymarketConnector.normalize_market self raw).
Proof. unfold PolymarketConnector.normalize_market. repeat stateless_step. Qed.

(** Peels the binds off a successful run, naming nothing. *)
Ltac invert_binds H :=
  repeat (apply bind_Ok_inv in H as (? & ? & ? & H)).

Lemma polymarket_normalize_Ok self raw w m w' :
  PolymarketConnector.normalize_market self raw w = (Ok m, w') ->
  has_provider "polymarket" m /\
  exists d, raw = VDict d /\ record_id m = Some (default (VStr "") (d !! "id")).
Proof.
  intros H. destruct raw as [| | | | | | d]; try (cbn in H; discriminate).
  unfold PolymarketConnector.normalize_market in H.
  apply bind_Ok_inv in H as (id & w1 & Hid & H).
  invert_binds H. injection H as <- _.
  split; [cbn; by simplify_map_eq |].
  exists d. split; [reflexivity |].
  cbn in Hid. injection Hid as <- _.
  cbn. rewrite lookup_insert_eq. destruct (d !! "id"); reflexivity.
Qed.

Lemma polymarket_fetch_stateless self : stateless (polymarket_fetch self).
Proof.
  unfold PolymarketConnector._load_sample_data.
  repeat stateless_step. apply polymarket_normalize_stateless.
Qed.

Lemma polymarket_fetch_Ok self w l w' :
  polymarket_fetch self w = (Ok l, w') -> Forall (has_provider "polymarket") l.
Proof.
  intros H.
  apply bind_Ok_inv in H as (sample_data & w1 & _ & H).
  apply bind_Ok_inv in H as (markets & w2 & _ & H).
  apply bind_Ok_inv in H as (items & w3 & _ & H).
  eapply mapM_Ok_Forall, H.
  intros x w0 b w0' Hx. eapply polymarket_normalize_Ok, Hx.
Qed.

Lemma polymarket_get_markets_fetches self :
  fetches (has_provider "polymarket") (PolymarketConnector.get_markets self).
Proof.
  apply (get_markets_shape _ (polymarket_fetch self)).
  - apply polymarket_fetch_stateless.
  - apply polymarket_fetch_Ok.
Qed.




Lemma polymarket_determined self :
  determined (PolymarketConnector.get_markets self) /\
  (forall market_id, determined (PolymarketConnector.get_market self market_id)) /\
  (forall market_id, determined (PolymarketConnector.get_market_price self market_id)) /\
  (forall market_id start end_ interval,
     determined (PolymarketConnector.get_market_timeseries self market_id start end_ interval)) /\
  (forall market_id depth,
     determined (PolymarketConnector.get_market_orderbook self market_id depth)) /\
  (forall market_id since limit,
     determined (PolymarketConnector.get_market_events self market_id since limit)) /\
  determined (PolymarketConnector.sync_data self).
Proof.
  assert (Hn : forall raw, determined (PolymarketConnector.normalize_market self raw)).
  { intros raw. unfold PolymarketConnector.normalize_market. repeat determined_step. }
  assert (Hm : determined (PolymarketConnector.get_markets self)).
  { unfold PolymarketConnector.get_markets, PolymarketConnector._load_sample_data.
    repeat determined_step; apply Hn. }
  assert (Hg : forall market_id, determined (PolymarketConnector.get_market self market_id)).
  { intros market_id. unfold PolymarketConnector.get_market.
    repeat determined_step; apply Hm. }
  refine (conj Hm (conj Hg (conj _ (conj _ (conj _ (conj _ _)))))); intros;
    unfold PolymarketConnector.get_market_price, PolymarketConnector.get_market_timeseries,
      PolymarketConnector.get_market_orderbook, PolymarketConnector.get_market_events,
      PolymarketConnector.sync_data;
    repeat determined_step; first [apply Hm | apply Hg].
Qed.

(** [sync_data] always takes the success path: the count is the length
    of the list [get_markets] returned. *)
Lemma polymarket_sync_data_run self w :
  exists l w' d,
    PolymarketConnector.get_markets self w = (Ok l, w') /\
    (log w' = log w \/ l = []) /\
    Forall (has_provider "polymarket") l /\
    PolymarketConnector.sync_data self w = (Ok (VDict d), w') /\
    d !! "provider" = Some (VStr "polymarket") /\
    d !! "status" = Some (VStr "success") /\
    d !! "markets_synced" = Some (VInt (Z.of_nat (length l))).
Proof.
  unfold PolymarketConnector.sync_data. rewrite try_except_Exception_run, bind_run.
  destruct (polymarket_get_markets_fetches self w) as (l & HP & [Hrun | (-> & m & Hrun)]);
    rewrite Hrun.
  - exists l, w. eexists. split; [reflexivity |]. split; [left; reflexivity |].
    split; [exact HP |]. split; [reflexivity |]. by simplify_map_eq.
  - eexists [], _, _. split; [reflexivity |]. split; [right; reflexivity |].
    split; [constructor |]. split; [reflexivity |]. by simplify_map_eq.
Qed.



(** ** Single-market lookup: [GET /api/v1/markets/{id}] *)

(** C3: for any two connectors, the handler asks Kalshi first.  When
    Kalshi returns a record the response is built from it in the world
    Kalshi left, whatever the Polymarket connector would do: Polymarket
    is not consulted.  When Kalshi returns no record, Polymarket is
    consulted next, in that world, and when it returns none either the
    handler raises [HTTPException(404)].  When Kalshi raises, Polymarket
    is not consulted either. *)
Theorem get_market_kalshi_first_else_polymarket_else_404
    (kalshi polymarket : Connector.t) (market_id : string) (w : world) :
  (forall m w1,
     Connector.get_market kalshi market_id w = (Ok m, w1) ->
     truthy m = true ->
     MarketsRoutes.get_market kalshi polymarket market_id w =
       (Ok (create_envelope m true (VDict {[ "market_id" := VStr market_id ]})), w1)) /\
  (forall m w1 m' w2,
     Connector.get_market kalshi market_id w = (Ok m, w1) ->
     truthy m = false ->
     Connector.get_market polymarket market_id w1 = (Ok m', w2) ->
     (truthy m' = true ->
      MarketsRoutes.get_market kalshi polymarket market_id w =
        (Ok (create_envelope m' true (VDict {[ "market_id" := VStr market_id ]})), w2)) /\
     (truthy m' = false ->
      MarketsRoutes.get_market kalshi polymarket market_id w =
        (Raise (HTTPException 404 "Market not found"), w2) /\
      http_status (MarketsRoutes.get_market kalshi polymarket market_id w).1 = 404)) /\
  (forall e w1 polymarket',
     Connector.get_market kalshi market_id w = (Raise e, w1) ->
     MarketsRoutes.get_market kalshi polymarket market_id w =
     MarketsRoutes.get_market kalshi polymarket' market_id w).
Proof.
  unfold MarketsRoutes.get_market, try_except. split; [| split].
  - intros m w1 Hk Ht. rewrite bind_run, Hk, Ht. cbn [negb].
    rewrite bind_run. cbn [mret M_ret]. rewrite Ht. reflexivity.
  - intros m w1 m' w2 Hk Ht Hp. rewrite bind_run, Hk, Ht. cbn [negb].
    rewrite bind_run, Hp.
    split; intros Ht'; rewrite Ht'; cbn; [reflexivity | split; reflexivity].
  - intros e w1 polymarket' Hk. rewrite !bind_run, Hk. reflexivity.
Qed.

Lemma get_market_unknown_id_witness :
  MarketsRoutes.get_market (KalshiConnector.as_connector kalshi_mock)
    (PolymarketConnector.as_connector polymarket_mock) "NONEXISTENT" world_without_file =
    (Raise (HTTPException 404 "Market not found"), world_without_file) /\
  http_status
    (MarketsRoutes.get_market (KalshiConnector.as_connector kalshi_mock)
       (PolymarketConnector.as_connector polymarket_mock) "NONEXISTENT"
       world_without_file).1 = 404.
Proof.
  refine (proj2 (proj1 (proj2 (get_market_kalshi_first_else_polymarket_else_404
            (KalshiConnector.as_connector kalshi_mock)
            (PolymarketConnector.as_connector polymarket_mock)
            "NONEXISTENT" world_without_file))
          VNone world_without_file VNone world_without_file _ _ _) _);
    vm_compute; reflexivity.
Defined.

(** ** Synchronisation: [POST /api/v1/ingest/{provider}/sync] *)

(** Decides comparisons of string literals in the goal. *)
Ltac decide_eqb :=
  repeat match goal with
    | |- context [String.eqb ?a ?b] =>
        let r := eval vm_compute in (String.eqb a b) in
        change (String.eqb a b) with r
    end.

Lemma envelope_data_create (data : value) (ok : bool) (meta : value) :
  envelope_data (create_envelope data ok meta) = Some data.
Proof. cbn. by simplify_map_eq. Qed.

(** C6: for either provider and any connector configuration, mock mode
    included, [sync_data] returns a record whose [status] is ["success"]
    and whose [markets_synced] is the number of markets [get_markets]
    fetched, a non-negative count; the ingest route hands that record
    back as the data of its envelope. *)
Theorem sync_data_reports_success
    (kalshi : KalshiConnector.t) (polymarket : PolymarketConnector.t) (w : world) :
  (exists l w' d,
     KalshiConnector.get_markets kalshi w = (Ok l, w') /\
     KalshiConnector.sync_data kalshi w = (Ok (VDict d), w') /\
     d !! "status" = Some (VStr "success") /\
     d !! "markets_synced" = Some (VInt (Z.of_nat (length l))) /\
     0 <= Z.of_nat (length l) /\
     exists body,
       IngestRoutes.sync_provider_data (KalshiConnector.as_connector kalshi)
         (PolymarketConnector.as_connector polymarket) "kalshi" w = (Ok body, w') /\
       envelope_data body = Some (VDict d)) /\
  (exists l w' d,
     PolymarketConnector.get_markets polymarket w = (Ok l, w') /\
     PolymarketConnector.sync_data polymarket w = (Ok (VDict d), w') /\
     d !! "status" = Some (VStr "success") /\
     d !! "markets_synced" = Some (VInt (Z.of_nat (length l))) /\
     0 <= Z.of_nat (length l) /\
     exists body,
       IngestRoutes.sync_provider_data (KalshiConnector.as_connector kalshi)
         (PolymarketConnector.as_connector polymarket) "polymarket" w = (Ok body, w') /\
       envelope_data body = Some (VDict d)).
Proof.
  split.
  - destruct (kalshi_sync_data_run kalshi w)
      as (l & w' & d & Hg & _ & _ & Hs & _ & Hst & Hn).
    exists l, w', d. repeat (split; [first [assumption | lia] |]).
    unfold IngestRoutes.sync_provider_data, try_except.
    rewrite bind_run.
    change (str_lower "kalshi") with "kalshi". decide_eqb.
    cbn [Connector.sync_data KalshiConnector.as_connector]. rewrite Hs.
    eexists. split; [reflexivity | apply envelope_data_create].
  - destruct (polymarket_sync_data_run polymarket w)
      as (l & w' & d & Hg & _ & _ & Hs & _ & Hst & Hn).
    exists l, w', d. repeat (split; [first [assumption | lia] |]).
    unfold IngestRoutes.sync_provider_data, try_except.
    rewrite bind_run. change (str_lower "polymarket") with "polymarket".
    decide_eqb.
    cbn [Connector.sync_data PolymarketConnector.as_connector]. rewrite Hs.
    eexists. split; [reflexivity | apply envelope_data_create].
Qed.

(** ** Market listing: [GET /api/v1/markets] *)

Lemma fetches_Ok (P : value -> Prop) (get_markets : M (list value)) w l w' :
  fetches P get_markets -> get_markets w = (Ok l, w') -> Forall P l.
Proof.
  intros Hf Hrun. destruct (Hf w) as (l0 & HP & [H | (-> & msg & H)]);
    rewrite H in Hrun; injection Hrun as <- _; [exact HP | constructor].
Qed.

Lemma lowers_to_nonempty (s name : string) :
  str_lower s = name -> name <> "" -> truthy_str (Some s) = true.
Proof. intros H Hne. destruct s; [cbn in H; congruence | reflexivity]. Qed.

(** C8: when the [provider] query parameter lowers to ["kalshi"], the
    handler either answers with an envelope whose [data] is a list of
    market records that all have [provider == "kalshi"], or (when a
    filter meets a malformed record) with HTTP 500 and no records. *)
Theorem get_markets_provider_kalshi_only
    (kalshi : KalshiConnector.t) (polymarket : PolymarketConnector.t)
    (provider : string) (status q : option string) (w : world) :
  str_lower provider = "kalshi" ->
  (exists body w' markets,
     MarketsRoutes.get_markets (KalshiConnector.as_connector kalshi)
       (PolymarketConnector.as_connector polymarket) (Some provider) status q w
       = (Ok body, w') /\
     envelope_data body = Some (VList markets) /\
     Forall (has_provider "kalshi") markets) \/
  (exists w',
     MarketsRoutes.get_markets (KalshiConnector.as_connector kalshi)
       (PolymarketConnector.as_connector polymarket) (Some provider) status q w
       = (Raise (HTTPException 500 "Failed to fetch markets"), w')).
Proof.
  intros Hp. unfold MarketsRoutes.get_markets.
  rewrite try_except_Exception_run.
  rewrite (lowers_to_nonempty provider "kalshi" Hp) by discriminate.
  unfold lower_is. rewrite Hp. decide_eqb. cbn [negb orb].
  match goal with |- context [match ?body w with _ => _ end] =>
    destruct (body w) as [[env | e] w'] eqn:E end.
  - left. exists env, w'.
    apply bind_Ok_inv in E as (markets1 & w1 & H1 & E).
    apply bind_Ok_inv in H1 as (km & w0 & Hk & H1). injection H1 as <- <-.
    apply bind_Ok_inv in E as (markets2 & w2 & H2 & E). injection H2 as <- <-.
    apply bind_Ok_inv in E as (markets3 & w3 & H3 & E).
    apply bind_Ok_inv in E as (markets4 & w4 & H4 & E).
    injection E as <- <-.
    exists markets4. split; [reflexivity |]. split; [apply envelope_data_create |].
    assert (Hkm : Forall (has_provider "kalshi") km).
    { eapply fetches_Ok, Hk. apply kalshi_get_markets_fetches. }
    assert (H3' : Forall (has_provider "kalshi") markets3).
    { destruct (truthy_str status).
      - eapply filterM_Ok_Forall, H3. exact Hkm.
      - injection H3 as <- _. exact Hkm. }
    destruct (truthy_str q).
    + eapply filterM_Ok_Forall, H4. exact H3'.
    + injection H4 as <- _. exact H3'.
  - right. eexists. reflexivity.
Qed.

Lemma get_markets_provider_kalshi_witness :
  str_lower "Kalshi" = "kalshi" /\
  ((exists body w' markets,
      MarketsRoutes.get_markets (KalshiConnector.as_connector kalshi_mock)
        (PolymarketConnector.as_connector polymarket_mock) (Some "Kalshi")
        (Some "active") None world_with_sample = (Ok body, w') /\
      envelope_data body = Some (VList markets) /\
      Forall (has_provider "kalshi") markets) \/
   (exists w',
      MarketsRoutes.get_markets (KalshiConnector.as_connector kalshi_mock)
        (PolymarketConnector.as_connector polymarket_mock) (Some "Kalshi")
        (Some "active") None world_with_sample
        = (Raise (HTTPException 500 "Failed to fetch markets"), w'))).
Proof.
  split; [reflexivity |].
  exact (get_markets_provider_kalshi_only kalshi_mock polymarket_mock "Kalshi"
           (Some "active") None world_with_sample eq_refl).
Defined.

(** ** Normalization *)



(** ** Inline mock data *)

(** C10: in mock mode the order book has exactly two bids and two asks
    whatever [depth] is, and the event list has exactly one event
    whatever [since] and [limit] are; the calls return the same thing
    for any two values of these parameters.  Both connectors. *)
Theorem mock_orderbook_and_events_ignore_parameters
    (kalshi : KalshiConnector.t) (polymarket : PolymarketConnector.t)
    (market_id : string) (w : world) :
  KalshiConnector.mock_mode kalshi = true ->
  PolymarketConnector.mock_mode polymarket = true ->
  (forall depth, exists book,
     KalshiConnector.get_market_orderbook kalshi market_id depth w = (Ok book, w) /\
     field_length "bids" book = Some 2%nat /\ field_length "asks" book = Some 2%nat) /\
  (forall depth, exists book,
     PolymarketConnector.get_market_orderbook polymarket market_id depth w = (Ok book, w) /\
     field_length "bids" book = Some 2%nat /\ field_length "asks" book = Some 2%nat) /\
  (forall since limit, exists event,
     KalshiConnector.get_market_events kalshi market_id since limit w = (Ok [event], w)) /\
  (forall since limit, exists event,
     PolymarketConnector.get_market_events polymarket market_id since limit w
       = (Ok [event], w)) /\
  (forall depth depth',
     KalshiConnector.get_market_orderbook kalshi market_id depth w =
     KalshiConnector.get_market_orderbook kalshi market_id depth' w /\
     PolymarketConnector.get_market_orderbook polymarket market_id depth w =
     PolymarketConnector.get_market_orderbook polymarket market_id depth' w) /\
  (forall since limit since' limit',
     KalshiConnector.get_market_events kalshi market_id since limit w =
     KalshiConnector.get_market_events kalshi market_id since' limit' w /\
     PolymarketConnector.get_market_events polymarket market_id since limit w =
     PolymarketConnector.get_market_events polymarket market_id since' limit' w).
Proof.
  intros Hk Hp.
  unfold KalshiConnector.get_market_orderbook, PolymarketConnector.get_market_orderbook,
    KalshiConnector.get_market_events, PolymarketConnector.get_market_events.
  rewrite Hk, Hp.
  split; [| split; [| split; [| split; [| split]]]]; intros.
  - eexists. split; [reflexivity |]. cbn. split; by simplify_map_eq.
  - eexists. split; [reflexivity |]. cbn. split; by simplify_map_eq.
  - eexists. reflexivity.
  - eexists. reflexivity.
  - split; reflexivity.
  - split; reflexivity.
Qed.

Lemma mock_orderbook_and_events_witness :
  exists book,
    KalshiConnector.get_market_orderbook kalshi_mock "KALSHI-PRES2024" 5 world_with_sample
      = (Ok book, world_with_sample) /\
    field_length "bids" book = Some 2%nat /\ field_length "asks" book = Some 2%nat.
Proof.
  exact (proj1 (mock_orderbook_and_events_ignore_parameters kalshi_mock polymarket_mock
                  "KALSHI-PRES2024" world_with_sample eq_refl eq_refl) 5).
Defined.

(** ** Provider tags *)

(** Looks a constant key up in a dict literal. *)
Ltac lookup_literal :=
  repeat (rewrite lookup_insert_ne by done);
  first [ apply lookup_insert_eq
        | apply lookup_singleton_eq
        | apply lookup_singleton_ne; done ].






(** On the generated sample file the unfiltered listing holds every
    sample market twice, once under each provider tag. *)
Example sample_listing_keeps_both_copies :
  let response :=
    (MarketsRoutes.get_markets (KalshiConnector.as_connector kalshi_mock)
       (PolymarketConnector.as_connector polymarket_mock) None None None
       world_with_sample).1 in
  option_map (List.map record_id) (response_records response) =
    Some [ Some (VStr "KALSHI-PRES2024"); Some (VStr "POLY-CRYPTO2024");
           Some (VStr "KALSHI-TECH2024");
           Some (VStr "KALSHI-PRES2024"); Some (VStr "POLY-CRYPTO2024");
           Some (VStr "KALSHI-TECH2024") ] /\
  option_map (List.map record_provider) (response_records response) =
    Some [ Some (VStr "kalshi"); Some (VStr "kalshi"); Some (VStr "kalshi");
           Some (VStr "polymarket"); Some (VStr "polymarket");
           Some (VStr "polymarket") ].
Proof. split; vm_compute; reflexivity. Qed.

(** Filtered by [provider=kalshi], the listing over the generated
    sample file holds the three sample markets, the Polymarket one
    included, all tagged ["kalshi"]. *)
Example sample_listing_filtered_by_kalshi :
  let response :=
    (MarketsRoutes.get_markets (KalshiConnector.as_connector kalshi_mock)
       (PolymarketConnector.as_connector polymarket_mock) (Some "kalshi") None None
       world_with_sample).1 in
  option_map (List.map record_id) (response_records response) =
    Some [ Some (VStr "KALSHI-PRES2024"); Some (VStr "POLY-CRYPTO2024");
           Some (VStr "KALSHI-TECH2024") ] /\
  option_map (List.map record_provider) (response_records response) =
    Some [ Some (VStr "kalshi"); Some (VStr "kalshi"); Some (VStr "kalshi") ].
Proof. split; vm_compute; reflexivity. Qed.

(** ** Errors inside the connectors *)



(** ** Determinism in mock mode *)

Lemma kalshi_same_outside_timestamps self w1 w2 :
  KalshiConnector.mock_mode self = true ->
  same_outside_timestamps (KalshiConnector.as_connector self) w1 w2.
Proof.
  intros Hm.
  unfold same_outside_timestamps;
    cbn [KalshiConnector.as_connector Connector.get_market_timeseries
           Connector.get_market_orderbook Connector.get_market_events].
  unfold KalshiConnector.get_market_timeseries, KalshiConnector.get_market_orderbook,
    KalshiConnector.get_market_events.
  rewrite Hm. split; [| split]; intros.
  - eexists _, _. split; [reflexivity |]. split; [reflexivity |].
    split; [discriminate |].
    (* the dict operations compute on literal keys: deleting the
       time stamp leaves the same term on both sides *)
    reflexivity.
  - eexists _, _. split; [reflexivity |]. split; [reflexivity |].
    split; [discriminate | reflexivity].
  - eexists _, _. split; [reflexivity |]. split; reflexivity.
Qed.

Lemma kalshi_same_results self w1 w2 :
  same_inputs w1 w2 -> same_results (KalshiConnector.as_connector self) w1 w2.
Proof.
  intros H. destruct (kalshi_determined self) as (H1 & H2 & H3 & H4 & H5 & H6 & H7).
  unfold same_results;
    cbn [KalshiConnector.as_connector Connector.get_markets Connector.get_market
           Connector.get_market_price Connector.get_market_timeseries
           Connector.get_market_orderbook Connector.get_market_events
           Connector.sync_data].
  split; [apply H1, H |]. split; [intros; apply H2, H |].
  split; [intros; apply H3, H |]. split; [intros; apply H4, H |].
  split; [intros; apply H5, H |]. split; [intros; apply H6, H | apply H7, H].
Qed.

Lemma polymarket_same_outside_timestamps self w1 w2 :
  PolymarketConnector.mock_mode self = true ->
  same_outside_timestamps (PolymarketConnector.as_connector self) w1 w2.
Proof.
  intros Hm.
  unfold same_outside_timestamps;
    cbn [PolymarketConnector.as_connector Connector.get_market_timeseries
           Connector.get_market_orderbook Connector.get_market_events].
  unfold PolymarketConnector.get_market_timeseries, PolymarketConnector.get_market_orderbook,
    PolymarketConnector.get_market_events.
  rewrite Hm. split; [| split]; intros.
  - eexists _, _. split; [reflexivity |]. split; [reflexivity |].
    split; [discriminate |].
    (* the dict operations compute on literal keys: deleting the
       time stamp leaves the same term on both sides *)
    reflexivity.
  - eexists _, _. split; [reflexivity |]. split; [reflexivity |].
    split; [discriminate | reflexivity].
  - eexists _, _. split; [reflexivity |]. split; reflexivity.
Qed.

Lemma polymarket_same_results self w1 w2 :
  same_inputs w1 w2 -> same_results (PolymarketConnector.as_connector self) w1 w2.
Proof.
  intros H. destruct (polymarket_determined self) as (H1 & H2 & H3 & H4 & H5 & H6 & H7).
  unfold same_results;
    cbn [PolymarketConnector.as_connector Connector.get_markets Connector.get_market
           Connector.get_market_price Connector.get_market_timeseries
           Connector.get_market_orderbook Connector.get_market_events
           Connector.sync_data].
  split; [apply H1, H |]. split; [intros; apply H2, H |].
  split; [intros; apply H3, H |]. split; [intros; apply H4, H |].
  split; [intros; apply H5, H |]. split; [intros; apply H6, H | apply H7, H].
Qed.

(** C5, as the code has it: in mock mode the result of a connector
    method is a function of its arguments, the sample data file and the
    clock reading.  With the sample file unchanged, two invocations with
    the same arguments return time series, order books and events that
    are identical apart from their time stamps, and every method returns
    identical results when the clock reading is the same as well. *)
Theorem mock_results_determined_by_file_and_clock
    (kalshi : KalshiConnector.t) (polymarket : PolymarketConnector.t)
    (w1 w2 : world) :
  KalshiConnector.mock_mode kalshi = true ->
  PolymarketConnector.mock_mode polymarket = true ->
  sample_file w1 = sample_file w2 ->
  same_outside_timestamps (KalshiConnector.as_connector kalshi) w1 w2 /\
  same_outside_timestamps (PolymarketConnector.as_connector polymarket) w1 w2 /\
  (clock w1 = clock w2 ->
   same_results (KalshiConnector.as_connector kalshi) w1 w2 /\
   same_results (PolymarketConnector.as_connector polymarket) w1 w2).
Proof.
  intros Hk Hp Hf.
  split; [apply kalshi_same_outside_timestamps, Hk |].
  split; [apply polymarket_same_outside_timestamps, Hp |].
  intros Hc. assert (H : same_inputs w1 w2) by (split; assumption).
  split; [apply kalshi_same_results, H | apply polymarket_same_results, H].
Qed.

(** Two calls at the same clock reading, the second after an error was
    logged. *)
Lemma mock_results_determined_witness :
  let w1 := world_with_sample in
  let w2 := World noon (FileJson sample_dataset) [LogRecord "ERROR" "earlier failure"] in
  same_outside_timestamps (KalshiConnector.as_connector kalshi_mock) w1 w2 /\
  same_outside_timestamps (PolymarketConnector.as_connector polymarket_mock) w1 w2 /\
  same_results (KalshiConnector.as_connector kalshi_mock) w1 w2 /\
  same_results (PolymarketConnector.as_connector polymarket_mock) w1 w2.
Proof.
  pose proof (mock_results_determined_by_file_and_clock kalshi_mock polymarket_mock
                world_with_sample
                (World noon (FileJson sample_dataset) [LogRecord "ERROR" "earlier failure"])
                eq_refl eq_refl eq_refl) as (Hk & Hp & Hsame).
  exact (conj Hk (conj Hp (Hsame eq_refl))).
Defined.

(** The same call of [get_market_orderbook], in mock mode and with no
    sample file in either world, one second apart: the two order books
    differ in their time stamp. *)
Lemma mock_orderbook_differs_with_clock :
  exists b1 b2,
    (KalshiConnector.get_market_orderbook kalshi_mock "KALSHI-PRES2024" 10
       (World noon FileMissing [])).1 = Ok b1 /\
    (KalshiConnector.get_market_orderbook kalshi_mock "KALSHI-PRES2024" 10
       (World (noon + 1000000) FileMissing [])).1 = Ok b2 /\
    record_field "timestamp" b1 = Some (VStr "2024-01-01T12:00:00") /\
    record_field "timestamp" b2 = Some (VStr "2024-01-01T12:00:01") /\
    b1 <> b2.
Proof.
  eexists _, _. split; [reflexivity |]. split; [reflexivity |].
  cbn [record_field clock].
  match goal with
  | |- ?A /\ ?B /\ _ =>
      assert (L1 : A) by (lookup_literal; vm_compute; reflexivity);
      assert (L2 : B) by (lookup_literal; vm_compute; reflexivity)
  end.
  split; [exact L1 |]. split; [exact L2 |].
  intros E. apply (f_equal (record_field "timestamp")) in E.
  cbn [record_field] in E. rewrite L1, L2 in E. discriminate.
Qed.

(** * Further properties of the code *)

(** ** The retry helper for any [max_retries] *)
Section RetryBounds.
Import Retry.
Context {W V : Type}.
Variable asyncio_sleep : float -> W -> W.
Variable logger_warning : nat -> Z -> float -> exn -> W -> W.

Lemma float_of_pow2_small (k : nat) :
  (k < 1024)%nat -> float_of_pow2 k = Ok (Z.ldexp 1%float (Z.of_nat k)).
Proof.
  intros H. unfold float_of_pow2.
  destruct (Z.ltb_spec (Z.of_nat k) 1024); [reflexivity | lia].
Qed.

Lemma float_of_pow2_large (k : nat) :
  (1024 <= k)%nat ->
  float_of_pow2 k = Raise (OverflowError "int too large to convert to float").
Proof.
  intros H. unfold float_of_pow2.
  destruct (Z.ltb_spec (Z.of_nat k) 1024); [lia | reflexivity].
Qed.

Lemma attempts_made_cons_attempt (k : nat) (r : result V) (tr : list (@event V)) :
  attempts_made (Attempt k r :: tr) = S (attempts_made tr).
Proof. reflexivity. Qed.

Lemma attempts_made_cons_sleep (d : float) (tr : list (@event V)) :
  attempts_made (Sleep d :: tr) = attempts_made tr.
Proof. reflexivity. Qed.

Lemma retry_loop_cons (func : @awaitable W V) (max_retries : Z) (base_delay : float)
    (attempt : nat) (rest : list nat) (w : W) :
  retry_loop asyncio_sleep logger_warning func max_retries base_delay (attempt :: rest) w =
  let '(r, w1) := func w in
  match r with
  | Ok v => (Ok (Some v), w1, [Attempt attempt r])
  | Raise e =>
      if Z.of_nat attempt =? max_retries - 1
      then (Raise e, w1, [Attempt attempt r])
      else
        match float_of_pow2 attempt with
        | Raise e' => (Raise e', w1, [Attempt attempt r])
        | Ok p =>
            let delay := (base_delay * p)%float in
            let w2 := logger_warning (attempt + 1)%nat max_retries delay e w1 in
            let w3 := asyncio_sleep delay w2 in
            let '(out, w4, tr) :=
              retry_loop asyncio_sleep logger_warning func max_retries base_delay rest w3 in
            (out, w4, Attempt attempt r :: Sleep delay :: tr)
        end
  end.
Proof. reflexivity. Qed.

(** The loop from index [k] on, when the indices left end at
    [max_retries - 1]. *)
Lemma retry_loop_shape (func : @awaitable W V) (max_retries : Z) (base_delay : float) :
  forall (m k : nat) (w : W),
    (k + S m)%nat = Z.to_nat max_retries ->
    backoff_trace base_delay k
      (retry_loop asyncio_sleep logger_warning func max_retries base_delay
         (seq k (S m)) w).2 /\
    (attempts_made
       (retry_loop asyncio_sleep logger_warning func max_retries base_delay
          (seq k (S m)) w).2 <= S m)%nat /\
    attempts_made
      (retry_loop asyncio_sleep logger_warning func max_retries base_delay
         (seq k (S m)) w).2 =
    S (length (delays
         (retry_loop asyncio_sleep logger_warning func max_retries base_delay
            (seq k (S m)) w).2)).
Proof.
  induction m as [| m IH]; intros k w Hk;
    change (seq k (S ?n)) with (k :: seq (S k) n); rewrite retry_loop_cons.
  - destruct (func w) as [[v | e] w1]; [cbn; repeat split; lia |].
    destruct (Z.eqb_spec (Z.of_nat k) (max_retries - 1)); [cbn; repeat split; lia | lia].
  - destruct (func w) as [[v | e] w1]; [cbn; repeat split; lia |].
    destruct (Z.eqb_spec (Z.of_nat k) (max_retries - 1)); [cbn; repeat split; lia |].
    destruct (float_of_pow2 k) as [p | e'] eqn:Ep; [| cbn; repeat split; lia].
    assert (Hp : p = Z.ldexp 1%float (Z.of_nat k)).
    { unfold float_of_pow2 in Ep. destruct (Z.of_nat k <? 1024); congruence. }
    cbv zeta.
    specialize (IH (S k) (asyncio_sleep (base_delay * p)%float
                            (logger_warning (k + 1)%nat max_retries
                               (base_delay * p)%float e w1))).
    destruct IH as (IH1 & IH2 & IH3); [lia |].
    destruct (retry_loop _ _ _ _ _ (seq (S k) (S m)) _) as [[out w4] tr].
    cbn [snd] in *. rewrite attempts_made_cons_attempt, attempts_made_cons_sleep.
    split; [| split; [lia | cbn [delays flat_map app length]; fold (delays tr); lia]].
    cbn [backoff_trace]. destruct tr as [| ev tr']; [contradiction |].
    split; [reflexivity |]. split; [subst p; reflexivity | exact IH1].
Qed.

(** X1: with [max_retries <= 0] the wrapper never invokes the function
    and never sleeps: it returns [None] in the world it was called in. *)
Theorem async_retry_nonpositive_does_nothing
    (func : @awaitable W V) (max_retries : Z) (base_delay : float) (w : W) :
  max_retries <= 0 ->
  async_retry asyncio_sleep logger_warning func max_retries base_delay w
    = (Ok None, w, []).
Proof.
  intros H. unfold async_retry.
  replace (Z.to_nat max_retries) with 0%nat by lia. reflexivity.
Qed.

(** The events the loop records are what it did to the world: each
    attempt is an invocation of [func] in the world reached so far, and
    each sleep is a warning and a sleep applied to the world the failed
    attempt left. *)
Lemma retry_loop_replays (func : @awaitable W V) (max_retries : Z) (base_delay : float) :
  forall (attempts : list nat) (w : W),
    replays asyncio_sleep logger_warning func max_retries
      (retry_loop asyncio_sleep logger_warning func max_retries base_delay attempts w).2
      w
      (retry_loop asyncio_sleep logger_warning func max_retries base_delay attempts w).1.2.
Proof.
  induction attempts as [| k rest IH]; intros w; [reflexivity |].
  rewrite retry_loop_cons.
  destruct (func w) as [[v | e] w1] eqn:Ef.
  - cbn [fst snd replays]. rewrite Ef. split; reflexivity.
  - destruct (Z.of_nat k =? max_retries - 1);
      [cbn [fst snd replays]; rewrite Ef; split; reflexivity |].
    destruct (float_of_pow2 k) as [p | e'];
      [| cbn [fst snd replays]; rewrite Ef; split; reflexivity].
    cbv zeta.
    specialize (IH (asyncio_sleep (base_delay * p)%float
                      (logger_warning (k + 1)%nat max_retries
                         (base_delay * p)%float e w1))).
    destruct (retry_loop _ _ _ _ _ rest _) as [[out w4] tr].
    cbn [fst snd] in *. cbn [replays]. rewrite Ef. cbn [fst snd].
    split; [reflexivity | exact IH].
Qed.

(** What comes out of the loop is decided by its last attempt. *)
Lemma retry_loop_outcome (func : @awaitable W V) (max_retries : Z) (base_delay : float) :
  forall (m k : nat) (w : W),
    (k + S m)%nat = Z.to_nat max_retries ->
    outcome_of_last max_retries
      (retry_loop asyncio_sleep logger_warning func max_retries base_delay
         (seq k (S m)) w).2
      (retry_loop asyncio_sleep logger_warning func max_retries base_delay
         (seq k (S m)) w).1.1.
Proof.
  assert (Hlast : forall (k : nat) (e : exn) (out : result (option V)),
            (if Z.of_nat k =? max_retries - 1 then out = Raise e
             else (1024 <= k)%nat /\
                  out = Raise (OverflowError "int too large to convert to float")) ->
            outcome_of_last max_retries [Attempt k (Raise e)] out)
    by (intros k e out H; exact H).
  induction m as [| m IH]; intros k w Hk;
    change (seq k (S ?n)) with (k :: seq (S k) n); rewrite retry_loop_cons.
  - destruct (func w) as [[v | e] w1]; [reflexivity |].
    destruct (Z.eqb_spec (Z.of_nat k) (max_retries - 1)) as [Ek | Ek]; [| lia].
    apply Hlast. rewrite (proj2 (Z.eqb_eq _ _) Ek). reflexivity.
  - destruct (func w) as [[v | e] w1]; [reflexivity |].
    destruct (Z.eqb_spec (Z.of_nat k) (max_retries - 1)) as [Ek | Ek].
    { apply Hlast. rewrite (proj2 (Z.eqb_eq _ _) Ek). reflexivity. }
    destruct (float_of_pow2 k) as [p | e'] eqn:Ep.
    + cbv zeta.
      specialize (IH (S k) (asyncio_sleep (base_delay * p)%float
                              (logger_warning (k + 1)%nat max_retries
                                 (base_delay * p)%float e w1))).
      destruct (retry_loop _ _ _ _ _ (seq (S k) (S m)) _) as [[out w4] tr].
      cbn [fst snd] in *. specialize (IH ltac:(lia)).
      unfold outcome_of_last in *.
      destruct tr as [| ev tr']; [contradiction | exact IH].
    + apply Hlast. rewrite (proj2 (Z.eqb_neq _ _) Ek).
      unfold float_of_pow2 in Ep.
      destruct (Z.ltb_spec (Z.of_nat k) 1024); [discriminate |].
      injection Ep as <-. split; [lia | reflexivity].
Qed.

(** X2: for every positive [max_retries], function and base delay, the
    wrapper makes at least one and at most [max_retries] attempts and one
    sleep fewer than attempts; attempts and sleeps alternate, the sleep
    after failed attempt [j] lasts [base_delay * 2**j], and the last
    thing done is an attempt, never a sleep.  Every attempt is an
    invocation of the function in the world reached so far, every sleep
    goes with a logged warning, the call ends in the world the last
    attempt left, and what comes out is that attempt's value, or its
    exception when it has the last index. *)
Theorem async_retry_backoff_shape
    (func : @awaitable W V) (max_retries : Z) (base_delay : float) (w : W) :
  0 < max_retries ->
  let run := async_retry asyncio_sleep logger_warning func max_retries base_delay w in
  replays asyncio_sleep logger_warning func max_retries run.2 w run.1.2 /\
  outcome_of_last max_retries run.2 run.1.1 /\
  backoff_trace base_delay 0 run.2 /\
  (attempts_made run.2 <= Z.to_nat max_retries)%nat /\
  attempts_made run.2 = S (length (delays run.2)).
Proof.
  intros H. cbv zeta. unfold async_retry.
  split; [apply retry_loop_replays |].
  destruct (Z.to_nat max_retries) as [| m] eqn:E; [lia |].
  split; [apply retry_loop_outcome; lia |].
  destruct (retry_loop_shape func max_retries base_delay m 0 w) as (H1 & H2 & H3);
    [lia |].
  split; [exact H1 | split; [exact H2 | exact H3]].
Qed.
End RetryBounds.

Lemma async_retry_nonpositive_witness :
  Retry.async_retry (fun _ n => n) (fun _ _ _ _ n => n) Retry.flaky (-1) 1%float 0%nat
    = (Ok None, 0%nat, []).
Proof.
  apply (async_retry_nonpositive_does_nothing (fun _ n => n) (fun _ _ _ _ n => n)
           Retry.flaky (-1) 1%float 0%nat).
  lia.
Defined.

Lemma async_retry_backoff_shape_witness :
  let run :=
    Retry.async_retry (fun _ n => n) (fun _ _ _ _ n => n) Retry.always_failing 5
      0.5%float 0%nat in
  replays (fun _ n => n) (fun _ _ _ _ n => n) Retry.always_failing 5 run.2 0%nat run.1.2 /\
  outcome_of_last 5 run.2 run.1.1 /\
  backoff_trace 0.5%float 0 run.2 /\
  (Retry.attempts_made run.2 <= Z.to_nat 5)%nat /\
  Retry.attempts_made run.2 = S (length (Retry.delays run.2)).
Proof.
  apply (async_retry_backoff_shape (fun _ n => n) (fun _ _ _ _ n => n)
           Retry.always_failing 5 0.5%float 0%nat).
  lia.
Defined.

Section RetryExhaustion.
Import Retry.
Context {W V : Type}.
Variable asyncio_sleep : float -> W -> W.
Variable logger_warning : nat -> Z -> float -> exn -> W -> W.
Variable func : @awaitable W V.
(** The function fails whenever it is invoked. *)
Hypothesis func_fails : forall w, exists e w', func w = (Raise e, w').

Lemma retry_loop_exhausts (max_retries : Z) (base_delay : float) :
  forall (m k : nat) (w : W),
    (k + S m)%nat = Z.to_nat max_retries ->
    (k + S m <= 1025)%nat ->
    exists e w' tr,
      retry_loop asyncio_sleep logger_warning func max_retries base_delay
        (seq k (S m)) w = (Raise e, w', tr) /\
      last tr = Some (Attempt (k + m) (Raise e)) /\
      attempts_made tr = S m /\
      delays tr = backoff_delay base_delay <$> seq k m.
Proof.
  induction m as [| m IH]; intros k w Hk Hle;
    change (seq k (S ?n)) with (k :: seq (S k) n); rewrite retry_loop_cons;
    destruct (func_fails w) as (e & w1 & ->);
    destruct (Z.eqb_spec (Z.of_nat k) (max_retries - 1)); try lia.
  - exists e, w1. eexists. split; [reflexivity |].
    replace (k + 0)%nat with k by lia. repeat split.
  - rewrite float_of_pow2_small by lia. cbv zeta.
    destruct (IH (S k) (asyncio_sleep (base_delay * Z.ldexp 1 (Z.of_nat k))%float
                          (logger_warning (k + 1)%nat max_retries
                             (base_delay * Z.ldexp 1 (Z.of_nat k))%float e w1)))
      as (e' & w' & tr & -> & Hlast & Hatt & Hdel); [lia | lia |].
    exists e', w'. eexists. split; [reflexivity |].
    split; [| split].
    + replace (k + S m)%nat with (S k + m)%nat by lia.
      destruct tr as [| ev tr']; [discriminate | exact Hlast].
    + rewrite attempts_made_cons_attempt, attempts_made_cons_sleep, Hatt. reflexivity.
    + cbn [delays flat_map app]. fold (delays tr). rewrite Hdel. reflexivity.
Qed.

Lemma retry_loop_overflows (max_retries : Z) (base_delay : float) :
  (1026 <= Z.to_nat max_retries)%nat ->
  forall (j k m : nat) (w : W),
    (k + j)%nat = 1024%nat ->
    (k + S m)%nat = Z.to_nat max_retries ->
    exists w' tr,
      retry_loop asyncio_sleep logger_warning func max_retries base_delay
        (seq k (S m)) w
        = (Raise (OverflowError "int too large to convert to float"), w', tr) /\
      attempts_made tr = S j /\
      length (delays tr) = j.
Proof.
  intros Hn. induction j as [| j IH]; intros k m w Hj Hk;
    change (seq k (S m)) with (k :: seq (S k) m); rewrite retry_loop_cons;
    destruct (func_fails w) as (e & w1 & ->);
    destruct (Z.eqb_spec (Z.of_nat k) (max_retries - 1)); try lia.
  - rewrite float_of_pow2_large by lia.
    exists w1. eexists. split; [reflexivity |]. split; reflexivity.
  - rewrite float_of_pow2_small by lia. cbv zeta.
    destruct m as [| m]; [lia |].
    destruct (IH (S k) m (asyncio_sleep (base_delay * Z.ldexp 1 (Z.of_nat k))%float
                            (logger_warning (k + 1)%nat max_retries
                               (base_delay * Z.ldexp 1 (Z.of_nat k))%float e w1)))
      as (w' & tr & -> & Hatt & Hdel); [lia | lia |].
    exists w'. eexists. split; [reflexivity |]. split.
    + rewrite attempts_made_cons_attempt, attempts_made_cons_sleep, Hatt. reflexivity.
    + cbn [delays flat_map app length]. fold (delays tr). rewrite Hdel. reflexivity.
Qed.

(** The recorded events of a finished loop are what it did, and it
    ended in the world they lead to. *)
Lemma retry_loop_run_replays (max_retries : Z) (base_delay : float)
    (attempts : list nat) (w : W) (out : result (option V)) (w' : W)
    (tr : list (@event V)) :
  retry_loop asyncio_sleep logger_warning func max_retries base_delay attempts w
    = (out, w', tr) ->
  replays asyncio_sleep logger_warning func max_retries tr w w'.
Proof.
  intros Hrun.
  pose proof (retry_loop_replays asyncio_sleep logger_warning func max_retries
                base_delay attempts w) as H.
  rewrite Hrun in H. exact H.
Qed.

(** X3: when the function fails at every invocation and
    [1 <= max_retries <= 1025], the wrapper makes exactly [max_retries]
    attempts, sleeps [base_delay * 2**k] after each attempt [k] but the
    last, and raises the exception of the last attempt.  The attempts
    are invocations of the function, each in the world that the warning
    and the sleep after the previous failure left, and the call ends in
    the world the last invocation left. *)
Theorem async_retry_exhausts_with_backoff_schedule
    (max_retries : Z) (base_delay : float) (w : W) :
  1 <= max_retries <= 1025 ->
  exists e w' tr,
    async_retry asyncio_sleep logger_warning func max_retries base_delay w
      = (Raise e, w', tr) /\
    replays asyncio_sleep logger_warning func max_retries tr w w' /\
    last tr = Some (Attempt (Z.to_nat max_retries - 1) (Raise e)) /\
    attempts_made tr = Z.to_nat max_retries /\
    delays tr = backoff_delay base_delay <$> seq 0 (Z.to_nat max_retries - 1).
Proof.
  intros H. unfold async_retry.
  destruct (Z.to_nat max_retries) as [| m] eqn:E; [lia |].
  destruct (retry_loop_exhausts max_retries base_delay m 0 w)
    as (e & w' & tr & Hrun & Hlast & Hatt & Hdel); [lia | lia |].
  exists e, w', tr. replace (S m - 1)%nat with m by lia.
  split; [exact Hrun |].
  split; [exact (retry_loop_run_replays _ _ _ _ _ _ _ Hrun) |].
  split; [exact Hlast |]. split; [exact Hatt | exact Hdel].
Qed.

(** X4: when the function fails at every invocation and
    [max_retries > 1025], the wrapper does not exhaust its retries:
    after the failed attempt with index 1024 the product
    [base_delay * 2**1024] cannot be formed, and [OverflowError] comes
    out in place of the function's exception, after 1025 attempts and
    1024 sleeps.  The attempts are invocations of the function, each in
    the world that the warning and the sleep after the previous failure
    left, and the call ends in the world the last invocation left. *)
Theorem async_retry_overflows_past_1025_retries
    (max_retries : Z) (base_delay : float) (w : W) :
  1025 < max_retries ->
  exists w' tr,
    async_retry asyncio_sleep logger_warning func max_retries base_delay w
      = (Raise (OverflowError "int too large to convert to float"), w', tr) /\
    replays asyncio_sleep logger_warning func max_retries tr w w' /\
    attempts_made tr = 1025%nat /\
    length (delays tr) = 1024%nat.
Proof.
  intros H. unfold async_retry.
  destruct (Z.to_nat max_retries) as [| m] eqn:E; [lia |].
  destruct (retry_loop_overflows max_retries base_delay ltac:(lia) 1024 0 m w)
    as (w' & tr & Hrun & Hatt & Hdel); [lia | lia |].
  exists w', tr. split; [exact Hrun |].
  split; [exact (retry_loop_run_replays _ _ _ _ _ _ _ Hrun) |].
  split; [exact Hatt | exact Hdel].
Qed.
End RetryExhaustion.

Lemma always_failing_fails :
  forall n, exists e n', Retry.always_failing n = (Raise e, n').
Proof. intros n. eexists _, _. reflexivity. Qed.

Lemma async_retry_exhausts_witness :
  exists e w' tr,
    Retry.async_retry (fun _ n => n) (fun _ _ _ _ n => n) Retry.always_failing 4
      0.25%float 0%nat = (Raise e, w', tr) /\
    replays (fun _ n => n) (fun _ _ _ _ n => n) Retry.always_failing 4 tr 0%nat w' /\
    last tr = Some (Retry.Attempt (Z.to_nat 4 - 1) (Raise e)) /\
    Retry.attempts_made tr = Z.to_nat 4 /\
    Retry.delays tr = backoff_delay 0.25%float <$> seq 0 (Z.to_nat 4 - 1).
Proof.
  apply (async_retry_exhausts_with_backoff_schedule (fun _ n => n)
           (fun _ _ _ _ n => n) Retry.always_failing always_failing_fails
           4 0.25%float 0%nat).
  lia.
Defined.

Lemma async_retry_overflows_witness :
  exists w' tr,
    Retry.async_retry (fun _ n => n) (fun _ _ _ _ n => n) Retry.always_failing 2000
      0%float 0%nat
      = (Raise (OverflowError "int too large to convert to float"), w', tr) /\
    replays (fun _ n => n) (fun _ _ _ _ n => n) Retry.always_failing 2000 tr 0%nat w' /\
    Retry.attempts_made tr = 1025%nat /\
    length (Retry.delays tr) = 1024%nat.
Proof.
  apply (async_retry_overflows_past_1025_retries (fun _ n => n)
           (fun _ _ _ _ n => n) Retry.always_failing always_failing_fails
           2000 0%float 0%nat).
  lia.
Defined.

(** ** Connector configuration *)

Lemma truthy_str_env (environ : gmap string string) (name : string) :
  truthy_str (environ !! name) = true <-> env_set environ name.
Proof.
  unfold env_set. destruct (environ !! name) as [s |]; cbn.
  - split.
    + intros H. exists s. split; [reflexivity |]. intros ->. discriminate.
    + intros (s' & [= <-] & Hne). destruct s; [congruence | reflexivity].
  - split; [discriminate | intros (s & [=] & _)].
Qed.

(** X5: the Kalshi connector leaves mock mode exactly when both
    [KALSHI_API_KEY] and [KALSHI_USER_ID] are set to non-empty strings;
    the Polymarket connector exactly when [POLYMARKET_API_KEY] is. *)
Theorem mock_mode_unless_credentials_set (environ : gmap string string) :
  (KalshiConnector.mock_mode (KalshiConnector.new environ) = false <->
   env_set environ "KALSHI_API_KEY" /\ env_set environ "KALSHI_USER_ID") /\
  (PolymarketConnector.mock_mode (PolymarketConnector.new environ) = false <->
   env_set environ "POLYMARKET_API_KEY").
Proof.
  cbn [KalshiConnector.new KalshiConnector.mock_mode
       PolymarketConnector.new PolymarketConnector.mock_mode].
  rewrite <- !truthy_str_env. split.
  - destruct (truthy_str (environ !! "KALSHI_API_KEY")),
      (truthy_str (environ !! "KALSHI_USER_ID")); cbn; intuition congruence.
  - destruct (truthy_str (environ !! "POLYMARKET_API_KEY")); cbn; intuition congruence.
Qed.

(** ** Normalization in detail *)

Lemma market_keys_dom (a b c d' e f g h i j k l : value) :
  dom ({[ "id" := a; "title" := b; "description" := c; "provider" := d';
          "status" := e; "category" := f; "created_at" := g; "close_date" := h;
          "settle_date" := i; "outcomes" := j; "total_volume" := k;
          "liquidity" := l ]} : gmap string value) = market_keys.
Proof.
  rewrite !dom_insert_L, dom_singleton_L. unfold market_keys. set_solver.
Qed.

(** X6: a record that [normalize_market] of either connector returns
    has exactly the twelve keys of the market schema, whatever keys the
    raw market has: missing ones are filled in and others are dropped. *)
Theorem normalize_market_writes_schema_keys
    (kalshi : KalshiConnector.t) (polymarket : PolymarketConnector.t)
    (raw : value) (w w' : world) (m : value) :
  KalshiConnector.normalize_market kalshi raw w = (Ok m, w') \/
  PolymarketConnector.normalize_market polymarket raw w = (Ok m, w') ->
  exists d, m = VDict d /\ dom d = market_keys.
Proof.
  intros [H | H]; destruct raw as [| | | | | | d]; try (cbn in H; discriminate).
  - injection H as <- _. eexists. split; [reflexivity | apply market_keys_dom].
  - unfold PolymarketConnector.normalize_market in H. invert_binds H.
    injection H as <- _. eexists. split; [reflexivity | apply market_keys_dom].
Qed.

Lemma normalize_market_schema_keys_witness :
  exists d,
    VDict {[ "id" := VStr "X"; "title" := VStr ""; "description" := VStr "";
             "provider" := VStr "kalshi"; "status" := VStr "active";
             "category" := VStr ""; "created_at" := VStr "2024-01-01T12:00:00";
             "close_date" := VNone; "settle_date" := VNone; "outcomes" := VList [];
             "total_volume" := VInt 0; "liquidity" := VInt 0 ]} = VDict d /\
    dom d = market_keys.
Proof.
  refine (normalize_market_writes_schema_keys kalshi_mock polymarket_mock
            (VDict {[ "id" := VStr "X"; "color" := VStr "red" ]})
            world_without_file world_without_file _ (or_introl _)).
  vm_compute. reflexivity.
Defined.

Lemma py_get_dict_Ok (d : gmap string value) (key : string) (default : value)
    (w w' : world) (v : value) :
  py_get (VDict d) key default w = (Ok v, w') -> v = get_or d key default /\ w' = w.
Proof. cbn. unfold get_or. intros [= <- <-]. split; reflexivity. Qed.

(** Replaces the result of every [get] on the raw dict by its value. *)
Ltac resolve_gets :=
  repeat match goal with
    | H : py_get (VDict _) _ _ _ = (Ok _, _) |- _ =>
        apply py_get_dict_Ok in H; destruct H as [-> ->]
    end.

Lemma kalshi_normalize_fields self (d : gmap string value) w :
  KalshiConnector.normalize_market self (VDict d) w =
  (Ok (VDict {[ "id" := get_or d "id" (VStr "");
                "title" := get_or d "title" (VStr "");
                "description" := get_or d "description" (VStr "");
                "provider" := VStr "kalshi";
                "status" := get_or d "status" (VStr "active");
                "category" := get_or d "category" (VStr "");
                "created_at" := get_or d "created_at" (VStr (isoformat (clock w)));
                "close_date" := get_or d "close_date" VNone;
                "settle_date" := get_or d "settle_date" VNone;
                "outcomes" := get_or d "outcomes" (VList []);
                "total_volume" := get_or d "total_volume" (VInt 0);
                "liquidity" := get_or d "liquidity" (VInt 0) ]}), w).
Proof. reflexivity. Qed.

Lemma get_or_present (d : gmap string value) (key : string) (default v : value) :
  d !! key = Some v -> get_or d key default = v.
Proof. unfold get_or. intros ->. reflexivity. Qed.

Lemma get_or_absent (d : gmap string value) (key : string) (default : value) :
  d !! key = None -> get_or d key default = default.
Proof. unfold get_or. intros ->. reflexivity. Qed.

(** Splits membership in [market_keys] into its twelve cases. *)
Ltac market_key_cases H :=
  unfold market_keys in H;
  rewrite !elem_of_union, !elem_of_singleton in H;
  repeat destruct H as [H | H]; subst.

(** X7: [normalize_market] of either connector copies every schema field
    that the raw market has, other than [provider], unchanged into the
    record it returns: no value is converted, validated or replaced. *)
Theorem normalize_market_copies_present_fields
    (kalshi : KalshiConnector.t) (polymarket : PolymarketConnector.t)
    (d : gmap string value) (w w' : world) (m : value) (key : string) (v : value) :
  KalshiConnector.normalize_market kalshi (VDict d) w = (Ok m, w') \/
  PolymarketConnector.normalize_market polymarket (VDict d) w = (Ok m, w') ->
  key ∈ market_keys ->
  key <> "provider" ->
  d !! key = Some v ->
  record_field key m = Some v.
Proof.
  intros [H | H] Hk Hne Hd.
  - rewrite kalshi_normalize_fields in H. injection H as <- _.
    market_key_cases Hk; try congruence; cbn [record_field];
      rewrite ?lookup_insert_ne by done;
      first [rewrite lookup_insert_eq | rewrite lookup_singleton_eq];
      f_equal; apply get_or_present, Hd.
  - unfold PolymarketConnector.normalize_market in H. invert_binds H.
    injection H as <- _. resolve_gets.
    market_key_cases Hk; try congruence; cbn [record_field];
      rewrite ?lookup_insert_ne by done;
      first [rewrite lookup_insert_eq | rewrite lookup_singleton_eq];
      f_equal; apply get_or_present, Hd.
Qed.

Lemma normalize_market_copies_witness :
  record_field "status"
    (VDict {[ "id" := VStr "X"; "title" := VStr ""; "description" := VStr "";
              "provider" := VStr "kalshi"; "status" := VInt 7;
              "category" := VStr ""; "created_at" := VStr "2024-01-01T12:00:00";
              "close_date" := VNone; "settle_date" := VNone; "outcomes" := VList [];
              "total_volume" := VInt 0; "liquidity" := VInt 0 ]})
  = Some (VInt 7).
Proof.
  refine (normalize_market_copies_present_fields kalshi_mock polymarket_mock
            {[ "id" := VStr "X"; "status" := VInt 7 ]}
            world_without_file world_without_file _ "status" (VInt 7)
            (or_introl _) _ _ _).
  - vm_compute. reflexivity.
  - unfold market_keys. set_solver.
  - discriminate.
  - reflexivity.
Defined.

(** X8: the fallbacks of Polymarket's [normalize_market]: a raw market
    without [title] gets its [question] as title, one without
    [close_date] its [end_date], one without [total_volume] its
    [volume], and one without [category] the first element of a
    non-empty [tags] list; with nothing to fall back on these fields are
    the empty string, [None], [0] and the empty string. *)
Theorem polymarket_normalize_fallbacks
    (polymarket : PolymarketConnector.t) (d : gmap string value)
    (w w' : world) (m : value) :
  PolymarketConnector.normalize_market polymarket (VDict d) w = (Ok m, w') ->
  (d !! "title" = None ->
   record_field "title" m = Some (get_or d "question" (VStr ""))) /\
  (d !! "close_date" = None ->
   record_field "close_date" m = Some (get_or d "end_date" VNone)) /\
  (d !! "total_volume" = None ->
   record_field "total_volume" m = Some (get_or d "volume" (VInt 0))) /\
  (d !! "category" = None ->
   forall tag rest, d !! "tags" = Some (VList (tag :: rest)) ->
   record_field "category" m = Some tag) /\
  (d !! "category" = None -> d !! "tags" = None ->
   record_field "category" m = Some (VStr "")).
Proof.
  intros H. unfold PolymarketConnector.normalize_market in H.
  apply bind_Ok_inv in H as (id & w1 & Hid & H).
  apply bind_Ok_inv in H as (question & w2 & Hq & H).
  apply bind_Ok_inv in H as (title & w3 & Ht & H).
  apply bind_Ok_inv in H as (description & w4 & Hdesc & H).
  apply bind_Ok_inv in H as (status & w5 & Hst & H).
  apply bind_Ok_inv in H as (tags & w6 & Htags & H).
  apply bind_Ok_inv in H as (first_tag & w7 & Hft & H).
  invert_binds H. injection H as <- _. resolve_gets.
  cbn [record_field].
  repeat split.
  - intros Hn. rewrite !lookup_insert_ne, lookup_insert_eq by done.
    f_equal. apply get_or_absent, Hn.
  - intros Hn. rewrite !lookup_insert_ne, lookup_insert_eq by done.
    f_equal. apply get_or_absent, Hn.
  - intros Hn. rewrite !lookup_insert_ne, lookup_insert_eq by done.
    f_equal. apply get_or_absent, Hn.
  - intros Hn tag rest Htg. rewrite !lookup_insert_ne, lookup_insert_eq by done.
    rewrite (get_or_absent _ _ _ Hn).
    rewrite (get_or_present _ _ _ _ Htg) in Hft. cbn in Hft.
    rewrite Htg, bind_run in Hft. cbn in Hft.
    unfold mret, M_ret in Hft. congruence.
  - intros Hn Htg. rewrite !lookup_insert_ne, lookup_insert_eq by done.
    rewrite (get_or_absent _ _ _ Hn).
    rewrite (get_or_absent _ _ _ Htg) in Hft. cbn in Hft.
    unfold mret, M_ret in Hft. congruence.
Qed.

Lemma bind_ret_run {A B : Type} (a : A) (f : A -> M B) (w : world) :
  (mret a ≫= f) w = f a w.
Proof. reflexivity. Qed.

(** What Polymarket's [normalize_market] does with a truthy [tags] value
    that is neither a list nor a string: indexing it raises, whatever
    else the raw market holds. *)
Lemma polymarket_normalize_bad_tags self (d : gmap string value) (t : value) w :
  d !! "tags" = Some t ->
  truthy t = true ->
  match t with VList _ | VStr _ => False | _ => True end ->
  exists e, PolymarketConnector.normalize_market self (VDict d) w = (Raise e, w).
Proof.
  intros Et Htr Hbad. unfold PolymarketConnector.normalize_market.
  cbn [py_get]. rewrite Et.
  repeat (rewrite bind_ret_run; cbn beta).
  rewrite bind_run, Htr, bind_ret_run.
  destruct t; try contradiction; try discriminate; eexists; reflexivity.
Qed.

Lemma polymarket_normalize_good_tags self (d : gmap string value) w :
  tags_usable d = true ->
  exists m, PolymarketConnector.normalize_market self (VDict d) w = (Ok m, w).
Proof.
  unfold tags_usable. intros H. unfold PolymarketConnector.normalize_market.
  cbn [py_get].
  repeat (rewrite bind_ret_run; cbn beta). rewrite bind_run.
  destruct (d !! "tags") as [t |] eqn:Et.
  - destruct (truthy t) eqn:Htr.
    + rewrite bind_ret_run.
      destruct t as [| | | | s | l |]; try discriminate.
      * destruct s; [discriminate |]. eexists. reflexivity.
      * destruct l; [discriminate |]. eexists. reflexivity.
    + eexists. reflexivity.
  - eexists. reflexivity.
Qed.

(** X9: Polymarket's [normalize_market] succeeds on a raw dict exactly
    when [tags] is absent or falsy or is a non-empty list or string.
    Any other [tags] value makes it raise, even when the raw market has
    a [category] of its own: the fallback is evaluated before the
    lookup. *)
Theorem polymarket_normalize_succeeds_iff_tags_usable
    (polymarket : PolymarketConnector.t) (d : gmap string value) (w : world) :
  (exists m, PolymarketConnector.normalize_market polymarket (VDict d) w = (Ok m, w))
  <-> tags_usable d = true.
Proof.
  split; [| apply polymarket_normalize_good_tags].
  intros (m & Hrun). unfold tags_usable.
  destruct (d !! "tags") as [t |] eqn:Et; [| reflexivity].
  destruct (truthy t) eqn:Htr; [| reflexivity]. cbn [negb orb].
  destruct t; try reflexivity;
    (destruct (polymarket_normalize_bad_tags polymarket d _ w Et Htr I) as (e & He);
     congruence).
Qed.

(** A raw Polymarket market in the provider's own field names. *)
Lemma polymarket_normalize_fallbacks_witness :
  match (PolymarketConnector.normalize_market polymarket_mock
           (VDict {[ "id" := VStr "P1"; "question" := VStr "Will it rain?";
                     "end_date" := VStr "2025-01-01"; "volume" := VInt 5;
                     "tags" := VList [VStr "weather"; VStr "daily"] ]})
           world_without_file).1 with
  | Ok m =>
      record_field "title" m = Some (VStr "Will it rain?") /\
      record_field "close_date" m = Some (VStr "2025-01-01") /\
      record_field "total_volume" m = Some (VInt 5) /\
      record_field "category" m = Some (VStr "weather")
  | Raise _ => False
  end.
Proof.
  destruct (PolymarketConnector.normalize_market polymarket_mock _ world_without_file)
    as [[m | e] w'] eqn:E; cbn [fst].
  - destruct (polymarket_normalize_fallbacks polymarket_mock _ _ _ _ E)
      as (Ht & Hc & Hv & Hg & _).
    split; [apply Ht; reflexivity |]. split; [apply Hc; reflexivity |].
    split; [apply Hv; reflexivity |].
    apply (Hg eq_refl (VStr "weather") [VStr "daily"]). reflexivity.
  - assert (Hu : tags_usable
                   {[ "id" := VStr "P1"; "question" := VStr "Will it rain?";
                      "end_date" := VStr "2025-01-01"; "volume" := VInt 5;
                      "tags" := VList [VStr "weather"; VStr "daily"] ]} = true)
      by (vm_compute; reflexivity).
    destruct (polymarket_normalize_good_tags polymarket_mock _ world_without_file Hu)
      as (m & Hm).
    congruence.
Defined.

(** A raw market with a category and a numeric [tags] entry. *)
Example polymarket_rejects_numeric_tags :
  PolymarketConnector.normalize_market polymarket_mock
    (VDict {[ "id" := VStr "P2"; "title" := VStr "T"; "category" := VStr "crypto";
              "tags" := VInt 5 ]}) world_without_file
  = (Raise (TypeError "'int' object is not subscriptable"), world_without_file).
Proof. vm_compute. reflexivity. Qed.

(** ** Listing and lookup in detail *)

Lemma mapM_all_Ok {A B : Type} (R : A -> B -> Prop) (f : A -> M B) (w : world) :
  forall xs,
    Forall (fun x => exists y, f x w = (Ok y, w) /\ R x y) xs ->
    exists ys, mapM f xs w = (Ok ys, w) /\ Forall2 R xs ys.
Proof.
  induction 1 as [| x rest (y & Hy & HR) _ (ys & Hys & HF)]; cbn [mapM].
  - exists []. split; [reflexivity | constructor].
  - exists (y :: ys). rewrite bind_run, Hy, bind_run, Hys.
    split; [reflexivity | constructor; assumption].
Qed.

Lemma mapM_some_Raise {A B : Type} (f : A -> M B) (w : world) :
  (forall x, stateless (f x)) ->
  forall xs,
    Exists (fun x => exists e, f x w = (Raise e, w)) xs ->
    exists e, mapM f xs w = (Raise e, w).
Proof.
  intros Hs. induction xs as [| x rest IH]; intros H; [inversion H |].
  cbn [mapM]. rewrite bind_run, (stateless_run (f x) w (Hs x)).
  destruct (f x w).1 as [y | e] eqn:E; [| eauto].
  destruct IH as (e & He).
  - inversion H as [? ? (e & He) | ]; subst; [| assumption].
    rewrite (stateless_run (f x) w (Hs x)), E in He. discriminate.
  - exists e. rewrite bind_run, He. reflexivity.
Qed.

Lemma kalshi_get_markets_run self w :
  KalshiConnector.get_markets self w =
  match kalshi_fetch self w with
  | (Ok l, w') => (Ok l, w')
  | (Raise e, w') =>
      (Ok [], logged_error ("Error fetching Kalshi markets: " ++ str_exn e) w')
  end.
Proof.
  unfold KalshiConnector.get_markets.
  destruct (KalshiConnector.mock_mode self); rewrite try_except_Exception_run;
    destruct (kalshi_fetch self w) as [[l | e] w']; reflexivity.
Qed.

Lemma polymarket_get_markets_run self w :
  PolymarketConnector.get_markets self w =
  match polymarket_fetch self w with
  | (Ok l, w') => (Ok l, w')
  | (Raise e, w') =>
      (Ok [], logged_error ("Error fetching Polymarket markets: " ++ str_exn e) w')
  end.
Proof.
  unfold PolymarketConnector.get_markets.
  destruct (PolymarketConnector.mock_mode self); rewrite try_except_Exception_run;
    destruct (polymarket_fetch self w) as [[l | e] w']; reflexivity.
Qed.

Lemma kalshi_fetch_items self w (top : gmap string value) (items : list value) :
  sample_file w = FileJson (VDict top) ->
  top !! "markets" = Some (VList items) ->
  kalshi_fetch self w = mapM (KalshiConnector.normalize_market self) items w.
Proof.
  intros Hf Hm. rewrite bind_run.
  unfold KalshiConnector._load_sample_data, try_except, open_and_load_sample.
  rewrite Hf. rewrite bind_run. cbn [py_get mret M_ret]. rewrite Hm.
  rewrite bind_run. reflexivity.
Qed.

Lemma polymarket_fetch_items self w (top : gmap string value) (items : list value) :
  sample_file w = FileJson (VDict top) ->
  top !! "markets" = Some (VList items) ->
  polymarket_fetch self w = mapM (PolymarketConnector.normalize_market self) items w.
Proof.
  intros Hf Hm. rewrite bind_run.
  unfold PolymarketConnector._load_sample_data, try_except, open_and_load_sample.
  rewrite Hf. rewrite bind_run. cbn [py_get mret M_ret]. rewrite Hm.
  rewrite bind_run. reflexivity.
Qed.

Lemma Forall2_record_id (items l : list value) :
  Forall2 (fun raw m => record_id m = raw_id raw) items l ->
  record_id <$> l = raw_id <$> items.
Proof. induction 1 as [| raw m items l H _ IH]; cbn; [reflexivity | congruence]. Qed.

(** X10: when the sample file holds a dict whose [markets] entry is a
    list of dicts, Kalshi's [get_markets] returns one record per raw
    market, in file order and with the raw ids, logging nothing; so does
    Polymarket's when it can use the [tags] of every raw market.  Both
    connectors then list the same ids. *)
Theorem get_markets_lists_every_raw_market
    (kalshi : KalshiConnector.t) (polymarket : PolymarketConnector.t) (w : world)
    (top : gmap string value) (items : list value) :
  sample_file w = FileJson (VDict top) ->
  top !! "markets" = Some (VList items) ->
  Forall (fun raw => is_dict raw = true) items ->
  (exists l,
     KalshiConnector.get_markets kalshi w = (Ok l, w) /\
     record_id <$> l = raw_id <$> items) /\
  (Forall (fun raw => polymarket_accepts raw = true) items ->
   exists l,
     PolymarketConnector.get_markets polymarket w = (Ok l, w) /\
     record_id <$> l = raw_id <$> items).
Proof.
  intros Hf Hm Hd. split.
  - rewrite kalshi_get_markets_run, (kalshi_fetch_items _ _ _ _ Hf Hm).
    destruct (mapM_all_Ok (fun raw m => record_id m = raw_id raw)
                (KalshiConnector.normalize_market kalshi) w items) as (l & Hl & HF).
    { eapply Forall_impl; [exact Hd |]. intros raw Hraw.
      destruct raw; try discriminate.
      eexists. split; [apply kalshi_normalize_fields |].
      cbn. apply lookup_insert_eq. }
    rewrite Hl. exists l. split; [reflexivity | apply Forall2_record_id, HF].
  - intros Ha.
    rewrite polymarket_get_markets_run, (polymarket_fetch_items _ _ _ _ Hf Hm).
    destruct (mapM_all_Ok (fun raw m => record_id m = raw_id raw)
                (PolymarketConnector.normalize_market polymarket) w items)
      as (l & Hl & HF).
    { eapply Forall_impl; [exact Ha |]. intros raw Hraw.
      destruct raw as [| | | | | | d]; try discriminate.
      destruct (polymarket_normalize_good_tags polymarket d w Hraw) as (m & Hrun).
      exists m. split; [exact Hrun |].
      destruct (polymarket_normalize_Ok _ _ _ _ _ Hrun) as (_ & d' & [= <-] & Hid).
      rewrite Hid. cbn. unfold get_or. destruct (d !! "id"); reflexivity. }
    rewrite Hl. exists l. split; [reflexivity | apply Forall2_record_id, HF].
Qed.

Lemma get_markets_lists_sample_witness :
  (exists l,
     KalshiConnector.get_markets kalshi_mock world_with_sample
       = (Ok l, world_with_sample) /\
     record_id <$> l = raw_id <$> sample_markets) /\
  (exists l,
     PolymarketConnector.get_markets polymarket_mock world_with_sample
       = (Ok l, world_with_sample) /\
     record_id <$> l = raw_id <$> sample_markets).
Proof.
  assert (Hd : Forall (fun raw => is_dict raw = true) sample_markets)
    by (repeat constructor).
  assert (Ha : Forall (fun raw => polymarket_accepts raw = true) sample_markets)
    by (repeat constructor).
  destruct (get_markets_lists_every_raw_market kalshi_mock polymarket_mock
              world_with_sample
              {[ "markets" := VList sample_markets;
                 "generated_at" := VStr "2024-01-01T00:00:00Z";
                 "version" := VStr "1.0.0" ]}
              sample_markets eq_refl eq_refl Hd) as (Hk & Hp).
  exact (conj Hk (Hp Ha)).
Defined.

Lemma kalshi_normalize_non_dict self raw w :
  is_dict raw = false ->
  exists e, KalshiConnector.normalize_market self raw w = (Raise e, w).
Proof. destruct raw; try discriminate; intros _; eexists; reflexivity. Qed.

Lemma polymarket_normalize_rejected self raw w :
  polymarket_accepts raw = false ->
  exists e, PolymarketConnector.normalize_market self raw w = (Raise e, w).
Proof.
  destruct raw as [| | | | | | d]; try (intros _; eexists; reflexivity).
  cbn [polymarket_accepts]. unfold tags_usable. intros H.
  destruct (d !! "tags") as [t |] eqn:Et; [| discriminate].
  destruct (truthy t) eqn:Htr; [| discriminate]. cbn [negb orb] in H.
  apply (polymarket_normalize_bad_tags self d t w Et Htr).
  destruct t; try exact I; discriminate.
Qed.

(** X11: one raw item that is not a dict empties the whole listing: when
    the [markets] list of the sample file holds such an item anywhere,
    [get_markets] of both connectors logs one error and returns the
    empty list, dropping the well-formed markets as well. *)
Theorem get_markets_all_or_nothing
    (kalshi : KalshiConnector.t) (polymarket : PolymarketConnector.t) (w : world)
    (top : gmap string value) (items : list value) :
  sample_file w = FileJson (VDict top) ->
  top !! "markets" = Some (VList items) ->
  Exists (fun raw => is_dict raw = false) items ->
  (exists msg, KalshiConnector.get_markets kalshi w = (Ok [], logged_error msg w)) /\
  (exists msg, PolymarketConnector.get_markets polymarket w = (Ok [], logged_error msg w)).
Proof.
  intros Hf Hm Hbad. split.
  - rewrite kalshi_get_markets_run, (kalshi_fetch_items _ _ _ _ Hf Hm).
    destruct (mapM_some_Raise (KalshiConnector.normalize_market kalshi) w
                (kalshi_normalize_stateless kalshi) items) as (e & ->).
    { eapply Exists_impl; [exact Hbad |]. intros raw Hraw.
      apply kalshi_normalize_non_dict, Hraw. }
    eexists. reflexivity.
  - rewrite polymarket_get_markets_run, (polymarket_fetch_items _ _ _ _ Hf Hm).
    destruct (mapM_some_Raise (PolymarketConnector.normalize_market polymarket) w
                (polymarket_normalize_stateless polymarket) items) as (e & ->).
    { eapply Exists_impl; [exact Hbad |]. intros raw Hraw.
      apply polymarket_normalize_rejected. destruct raw; try reflexivity; discriminate. }
    eexists. reflexivity.
Qed.

(** A file whose second market is a string. *)
Lemma get_markets_all_or_nothing_witness :
  let w := World noon
             (FileJson (VDict {[ "markets" :=
                VList [VDict {[ "id" := VStr "A" ]}; VStr "oops"] ]})) [] in
  (exists msg, KalshiConnector.get_markets kalshi_mock w = (Ok [], logged_error msg w)) /\
  (exists msg,
     PolymarketConnector.get_markets polymarket_mock w = (Ok [], logged_error msg w)).
Proof.
  apply (get_markets_all_or_nothing kalshi_mock polymarket_mock
           (World noon
              (FileJson (VDict {[ "markets" :=
                 VList [VDict {[ "id" := VStr "A" ]}; VStr "oops"] ]})) [])
           {[ "markets" := VList [VDict {[ "id" := VStr "A" ]}; VStr "oops"] ]}
           [VDict {[ "id" := VStr "A" ]}; VStr "oops"]).
  - reflexivity.
  - apply lookup_singleton_eq.
  - right. left. reflexivity.
Defined.

(** X12: the connectors can disagree on the same file.  When every raw
    market is a dict but one has a [tags] value Polymarket cannot use,
    Kalshi lists every market while Polymarket logs an error and lists
    none. *)
Theorem polymarket_listing_empties_where_kalshi_lists
    (kalshi : KalshiConnector.t) (polymarket : PolymarketConnector.t) (w : world)
    (top : gmap string value) (items : list value) :
  sample_file w = FileJson (VDict top) ->
  top !! "markets" = Some (VList items) ->
  Forall (fun raw => is_dict raw = true) items ->
  Exists (fun raw => polymarket_accepts raw = false) items ->
  (exists l,
     KalshiConnector.get_markets kalshi w = (Ok l, w) /\
     length l = length items /\ l <> []) /\
  (exists msg, PolymarketConnector.get_markets polymarket w = (Ok [], logged_error msg w)).
Proof.
  intros Hf Hm Hd Hbad. split.
  - destruct (get_markets_lists_every_raw_market kalshi polymarket w top items Hf Hm Hd)
      as ((l & Hl & Hid) & _).
    exists l. split; [exact Hl |].
    assert (Hlen : length l = length items).
    { rewrite <- (length_fmap record_id l), Hid, length_fmap. reflexivity. }
    split; [exact Hlen |]. intros ->. destruct Hbad; discriminate.
  - rewrite polymarket_get_markets_run, (polymarket_fetch_items _ _ _ _ Hf Hm).
    destruct (mapM_some_Raise (PolymarketConnector.normalize_market polymarket) w
                (polymarket_normalize_stateless polymarket) items) as (e & ->).
    { eapply Exists_impl; [exact Hbad |]. intros raw Hraw.
      apply polymarket_normalize_rejected, Hraw. }
    eexists. reflexivity.
Qed.

Lemma polymarket_listing_empties_witness :
  let w := World noon
             (FileJson (VDict {[ "markets" :=
                VList [VDict {[ "id" := VStr "A"; "tags" := VInt 5 ]}] ]})) [] in
  (exists l,
     KalshiConnector.get_markets kalshi_mock w = (Ok l, w) /\
     length l = 1%nat /\ l <> []) /\
  (exists msg,
     PolymarketConnector.get_markets polymarket_mock w = (Ok [], logged_error msg w)).
Proof.
  apply (polymarket_listing_empties_where_kalshi_lists kalshi_mock polymarket_mock
           (World noon
              (FileJson (VDict {[ "markets" :=
                 VList [VDict {[ "id" := VStr "A"; "tags" := VInt 5 ]}] ]})) [])
           {[ "markets" := VList [VDict {[ "id" := VStr "A"; "tags" := VInt 5 ]}] ]}
           [VDict {[ "id" := VStr "A"; "tags" := VInt 5 ]}]).
  - reflexivity.
  - apply lookup_singleton_eq.
  - repeat constructor.
  - left. vm_compute. reflexivity.
Defined.

Lemma find_market_first (markets : list value) (market_id : string) (w : world) :
  Forall (fun m => is_Some (record_id m)) markets ->
  find_market markets market_id w = (Ok (first_with_id market_id markets), w).
Proof.
  unfold first_with_id.
  induction 1 as [| m rest [id Hid] _ IH]; cbn [find_market List.find]; [reflexivity |].
  rewrite bind_run. unfold has_id at 1. rewrite Hid.
  destruct m as [| | | | | | d]; try discriminate. cbn in Hid.
  cbn [py_getitem]. rewrite Hid. cbn [mret M_ret].
  destruct (eq_str id market_id); [reflexivity | exact IH].
Qed.

Lemma kalshi_fetch_Ok_ids self w l w' :
  kalshi_fetch self w = (Ok l, w') -> Forall (fun m => is_Some (record_id m)) l.
Proof.
  intros H.
  apply bind_Ok_inv in H as (sample_data & w1 & _ & H).
  apply bind_Ok_inv in H as (markets & w2 & _ & H).
  apply bind_Ok_inv in H as (items & w3 & _ & H).
  eapply mapM_Ok_Forall, H.
  intros x w0 b w0' Hx.
  destruct (kalshi_normalize_Ok _ _ _ _ _ Hx) as (_ & d & _ & ->). eauto.
Qed.

Lemma polymarket_fetch_Ok_ids self w l w' :
  polymarket_fetch self w = (Ok l, w') -> Forall (fun m => is_Some (record_id m)) l.
Proof.
  intros H.
  apply bind_Ok_inv in H as (sample_data & w1 & _ & H).
  apply bind_Ok_inv in H as (markets & w2 & _ & H).
  apply bind_Ok_inv in H as (items & w3 & _ & H).
  eapply mapM_Ok_Forall, H.
  intros x w0 b w0' Hx.
  destruct (polymarket_normalize_Ok _ _ _ _ _ Hx) as (_ & d & _ & ->). eauto.
Qed.

(** The lookup of both connectors, given what [get_markets] does. *)
Lemma get_market_is_first_match (get_markets : M (list value)) (msg : exn -> string)
    (market_id : string) (w : world) :
  fetches (fun m => is_Some (record_id m)) get_markets ->
  exists l w',
    get_markets w = (Ok l, w') /\
    try_except (markets ← get_markets; find_market markets market_id)
      [except_Exception (fun e => logger_error (msg e);; mret VNone)] w
      = (Ok (first_with_id market_id l), w').
Proof.
  intros Hf. rewrite try_except_Exception_run, bind_run.
  destruct (Hf w) as (l & HP & [Hrun | (-> & m & Hrun)]); rewrite Hrun.
  - exists l, w. split; [reflexivity |]. rewrite (find_market_first l market_id w HP).
    reflexivity.
  - eexists [], _. split; reflexivity.
Qed.

(** X13: [get_market] of either connector returns the first record of
    the list that [get_markets] returns whose id equals the requested
    string, and [None] when the list has no such record; it never
    raises, and it leaves the world as [get_markets] does. *)
Theorem get_market_returns_first_listed_match
    (kalshi : KalshiConnector.t) (polymarket : PolymarketConnector.t)
    (market_id : string) (w : world) :
  (exists l w',
     KalshiConnector.get_markets kalshi w = (Ok l, w') /\
     KalshiConnector.get_market kalshi market_id w
       = (Ok (first_with_id market_id l), w')) /\
  (exists l w',
     PolymarketConnector.get_markets polymarket w = (Ok l, w') /\
     PolymarketConnector.get_market polymarket market_id w
       = (Ok (first_with_id market_id l), w')).
Proof.
  split.
  - apply get_market_is_first_match.
    apply (get_markets_shape _ (kalshi_fetch kalshi));
      [apply kalshi_fetch_stateless | apply kalshi_fetch_Ok_ids].
  - apply get_market_is_first_match.
    apply (get_markets_shape _ (polymarket_fetch polymarket));
      [apply polymarket_fetch_stateless | apply polymarket_fetch_Ok_ids].
Qed.

(** The sample file lists [POLY-CRYPTO2024] second; Kalshi's lookup
    finds it, under Kalshi's tag. *)
Example kalshi_lookup_of_polymarket_id :
  let found := (KalshiConnector.get_market kalshi_mock "POLY-CRYPTO2024"
                  world_with_sample).1 in
  match found with
  | Ok m => record_id m = Some (VStr "POLY-CRYPTO2024") /\
            record_provider m = Some (VStr "kalshi")
  | Raise _ => False
  end.
Proof. vm_compute. split; reflexivity. Qed.

(** ** Prices *)

Lemma kalshi_fetch_Ok_outcomes self w l w' :
  kalshi_fetch self w = (Ok l, w') ->
  Forall (fun m => is_Some (record_field "outcomes" m)) l.
Proof.
  intros H.
  apply bind_Ok_inv in H as (sample_data & w1 & _ & H).
  apply bind_Ok_inv in H as (markets & w2 & _ & H).
  apply bind_Ok_inv in H as (items & w3 & _ & H).
  eapply mapM_Ok_Forall, H.
  intros raw w0 b w0' Hx.
  destruct raw as [| | | | | | d]; try (cbn in Hx; discriminate).
  rewrite kalshi_normalize_fields in Hx. injection Hx as <- _.
  eexists. cbn [record_field]. lookup_literal.
Qed.

Lemma polymarket_fetch_Ok_outcomes self w l w' :
  polymarket_fetch self w = (Ok l, w') ->
  Forall (fun m => is_Some (record_field "outcomes" m)) l.
Proof.
  intros H.
  apply bind_Ok_inv in H as (sample_data & w1 & _ & H).
  apply bind_Ok_inv in H as (markets & w2 & _ & H).
  apply bind_Ok_inv in H as (items & w3 & _ & H).
  eapply mapM_Ok_Forall, H.
  intros raw w0 b w0' Hx.
  destruct raw as [| | | | | | d]; try (cbn in Hx; discriminate).
  unfold PolymarketConnector.normalize_market in Hx. invert_binds Hx.
  injection Hx as <- _.
  eexists. cbn [record_field]. lookup_literal.
Qed.

(** The price method of both connectors, given what [get_market] did. *)
Lemma get_market_price_run (get_market : M value) (msg : exn -> string)
    (market_id : string) (w : world) (m : value) (w' : world) :
  get_market w = (Ok m, w') ->
  m = VNone \/ is_Some (record_field "outcomes" m) ->
  exists p,
    try_except
      (market ← get_market;
       if negb (truthy market) then mret VNone
       else
         now ← utcnow;
         outcomes ← py_get market "outcomes" (VList []);
         mret (VDict {[ "market_id" := VStr market_id;
                        "timestamp" := VStr (isoformat now);
                        "outcomes" := outcomes ]}))
      [except_Exception (fun e => logger_error (msg e);; mret VNone)] w = (Ok p, w') /\
    (m = VNone -> p = VNone) /\
    (m <> VNone ->
       record_field "market_id" p = Some (VStr market_id) /\
       record_field "timestamp" p = Some (VStr (isoformat (clock w'))) /\
       record_field "outcomes" p = record_field "outcomes" m).
Proof.
  intros Hrun Hm. rewrite try_except_Exception_run, bind_run, Hrun.
  destruct Hm as [-> | [o Ho]].
  - exists VNone. split; [reflexivity |]. split; [reflexivity | congruence].
  - destruct m as [| | | | | | d]; try discriminate. cbn [record_field] in Ho.
    assert (Hne : d <> ∅) by (intros ->; rewrite lookup_empty in Ho; discriminate).
    cbn [truthy]. rewrite (bool_decide_eq_false_2 _ Hne). cbn [negb].
    rewrite bind_run. cbn [utcnow]. rewrite bind_run. cbn [py_get].
    rewrite Ho. cbn [mret M_ret].
    eexists. split; [reflexivity |]. split; [discriminate |]. intros _.
    cbn [record_field]. rewrite Ho.
    split; [lookup_literal |]. split; lookup_literal.
Qed.

(** X14: [get_market_price] of either connector follows [get_market]:
    it returns [None] when the lookup finds no market, and otherwise a
    record with the requested id, the clock reading as timestamp and the
    found market's outcomes; it never raises and leaves the world as the
    lookup does. *)
Theorem get_market_price_follows_lookup
    (kalshi : KalshiConnector.t) (polymarket : PolymarketConnector.t)
    (market_id : string) (w : world) :
  (exists m p w',
     KalshiConnector.get_market kalshi market_id w = (Ok m, w') /\
     KalshiConnector.get_market_price kalshi market_id w = (Ok p, w') /\
     (m = VNone -> p = VNone) /\
     (m <> VNone ->
        record_field "market_id" p = Some (VStr market_id) /\
        record_field "timestamp" p = Some (VStr (isoformat (clock w))) /\
        record_field "outcomes" p = record_field "outcomes" m)) /\
  (exists m p w',
     PolymarketConnector.get_market polymarket market_id w = (Ok m, w') /\
     PolymarketConnector.get_market_price polymarket market_id w = (Ok p, w') /\
     (m = VNone -> p = VNone) /\
     (m <> VNone ->
        record_field "market_id" p = Some (VStr market_id) /\
        record_field "timestamp" p = Some (VStr (isoformat (clock w))) /\
        record_field "outcomes" p = record_field "outcomes" m)).
Proof.
  split.
  - destruct (get_market_shape (fun m => is_Some (record_field "outcomes" m))
                (KalshiConnector.get_markets kalshi)
                (fun e => "Error fetching Kalshi market " ++ market_id ++ ": " ++ str_exn e)
                market_id
                (get_markets_shape _ (kalshi_fetch kalshi) _ _
                   (kalshi_fetch_stateless kalshi) (kalshi_fetch_Ok_outcomes kalshi)) w)
      as (m & w' & Hrun & _ & Hm & Hc & _).
    assert (Hm' : m = VNone \/ is_Some (record_field "outcomes" m))
      by (destruct Hm as [-> | [Ho _]]; [left; reflexivity | right; exact Ho]).
    destruct (get_market_price_run _
                (fun e => "Error fetching Kalshi market price " ++ market_id ++ ": "
                          ++ str_exn e) market_id w m w' Hrun Hm')
      as (p & Hp & Hnone & Hsome).
    exists m, p, w'. rewrite Hc. auto.
  - destruct (get_market_shape (fun m => is_Some (record_field "outcomes" m))
                (PolymarketConnector.get_markets polymarket)
                (fun e => "Error fetching Polymarket market " ++ market_id ++ ": "
                          ++ str_exn e)
                market_id
                (get_markets_shape _ (polymarket_fetch polymarket) _ _
                   (polymarket_fetch_stateless polymarket)
                   (polymarket_fetch_Ok_outcomes polymarket)) w)
      as (m & w' & Hrun & _ & Hm & Hc & _).
    assert (Hm' : m = VNone \/ is_Some (record_field "outcomes" m))
      by (destruct Hm as [-> | [Ho _]]; [left; reflexivity | right; exact Ho]).
    destruct (get_market_price_run _
                (fun e => "Error fetching Polymarket market price " ++ market_id ++ ": "
                          ++ str_exn e) market_id w m w' Hrun Hm')
      as (p & Hp & Hnone & Hsome).
    exists m, p, w'. rewrite Hc. auto.
Qed.

(** ** The routes that serve inline data *)

(** X15: with the Kalshi connector in mock mode, the time-series,
    order-book and events routes answer 200 for every market id, listed
    or not: the data is what the Kalshi connector made up, the query
    parameters are echoed in [meta], and the Polymarket connector,
    whatever it is, is not consulted and the world is unchanged. *)
Theorem mock_routes_serve_any_market_id
    (kalshi : KalshiConnector.t) (polymarket : Connector.t)
    (market_id : string) (w : world) :
  KalshiConnector.mock_mode kalshi = true ->
  (forall start end_ interval, exists series body,
     KalshiConnector.get_market_timeseries kalshi market_id start end_ interval w
       = (Ok series, w) /\
     MarketsRoutes.get_market_timeseries (KalshiConnector.as_connector kalshi) polymarket
       market_id start end_ interval w = (Ok body, w) /\
     envelope_data body = Some series /\
     envelope_meta "interval" body = Some (VStr interval) /\
     envelope_meta "start" body = Some (MarketsRoutes.optional_str start) /\
     envelope_meta "end" body = Some (MarketsRoutes.optional_str end_)) /\
  (forall depth, exists book body,
     KalshiConnector.get_market_orderbook kalshi market_id depth w = (Ok book, w) /\
     MarketsRoutes.get_market_orderbook (KalshiConnector.as_connector kalshi) polymarket
       market_id depth w = (Ok body, w) /\
     envelope_data body = Some book /\
     envelope_meta "depth" body = Some (VInt depth) /\
     envelope_meta "timestamp" body = Some (VStr (isoformat (clock w)))) /\
  (forall since limit, exists events body,
     KalshiConnector.get_market_events kalshi market_id since limit w = (Ok events, w) /\
     MarketsRoutes.get_market_events (KalshiConnector.as_connector kalshi) polymarket
       market_id since limit w = (Ok body, w) /\
     envelope_data body = Some (VList events) /\
     envelope_meta "since" body = Some (MarketsRoutes.optional_str since) /\
     envelope_meta "limit" body = Some (VInt limit) /\
     envelope_meta "count" body = Some (VInt 1)).
Proof.
  intros Hk.
  unfold MarketsRoutes.get_market_timeseries, MarketsRoutes.get_market_orderbook,
    MarketsRoutes.get_market_events, KalshiConnector.as_connector.
  cbn [Connector.get_market_timeseries Connector.get_market_orderbook
       Connector.get_market_events].
  unfold KalshiConnector.get_market_timeseries, KalshiConnector.get_market_orderbook,
    KalshiConnector.get_market_events.
  rewrite Hk.
  split; [| split]; intros; eexists _, _;
    (split; [reflexivity |]); (split; [reflexivity |]);
    repeat split; reflexivity.
Qed.

Lemma mock_routes_serve_any_market_id_witness :
  exists book body,
    KalshiConnector.get_market_orderbook kalshi_mock "NO-SUCH-MARKET" 5 world_without_file
      = (Ok book, world_without_file) /\
    MarketsRoutes.get_market_orderbook (KalshiConnector.as_connector kalshi_mock)
      (PolymarketConnector.as_connector polymarket_mock)
      "NO-SUCH-MARKET" 5 world_without_file = (Ok body, world_without_file) /\
    envelope_data body = Some book /\
    envelope_meta "depth" body = Some (VInt 5) /\
    envelope_meta "timestamp" body = Some (VStr (isoformat (clock world_without_file))).
Proof.
  refine (proj1 (proj2 (mock_routes_serve_any_market_id kalshi_mock
                          (PolymarketConnector.as_connector polymarket_mock)
                          "NO-SUCH-MARKET" world_without_file _)) 5).
  reflexivity.
Defined.

(** X16: with both connectors out of mock mode (credentials set), the
    time-series, order-book and events routes answer 404 for every
    market id, whatever the sample file holds, and change nothing: the
    connectors' live branches return no data. *)
Theorem live_routes_always_404
    (kalshi : KalshiConnector.t) (polymarket : PolymarketConnector.t)
    (market_id : string) (w : world) :
  KalshiConnector.mock_mode kalshi = false ->
  PolymarketConnector.mock_mode polymarket = false ->
  (forall start end_ interval,
     MarketsRoutes.get_market_timeseries (KalshiConnector.as_connector kalshi)
       (PolymarketConnector.as_connector polymarket) market_id start end_ interval w
     = (Raise (HTTPException 404 "Market timeseries not found"), w)) /\
  (forall depth,
     MarketsRoutes.get_market_orderbook (KalshiConnector.as_connector kalshi)
       (PolymarketConnector.as_connector polymarket) market_id depth w
     = (Raise (HTTPException 404 "Market orderbook not found"), w)) /\
  (forall since limit,
     MarketsRoutes.get_market_events (KalshiConnector.as_connector kalshi)
       (PolymarketConnector.as_connector polymarket) market_id since limit w
     = (Raise (HTTPException 404 "Market events not found"), w)).
Proof.
  intros Hk Hp.
  unfold MarketsRoutes.get_market_timeseries, MarketsRoutes.get_market_orderbook,
    MarketsRoutes.get_market_events, KalshiConnector.as_connector,
    PolymarketConnector.as_connector.
  cbn [Connector.get_market_timeseries Connector.get_market_orderbook
       Connector.get_market_events].
  unfold KalshiConnector.get_market_timeseries, KalshiConnector.get_market_orderbook,
    KalshiConnector.get_market_events, PolymarketConnector.get_market_timeseries,
    PolymarketConnector.get_market_orderbook, PolymarketConnector.get_market_events.
  rewrite Hk, Hp. repeat split.
Qed.

Lemma live_routes_always_404_witness :
  MarketsRoutes.get_market_orderbook
    (KalshiConnector.as_connector
       (KalshiConnector.new {[ "KALSHI_API_KEY" := "key"; "KALSHI_USER_ID" := "user" ]}))
    (PolymarketConnector.as_connector
       (PolymarketConnector.new {[ "POLYMARKET_API_KEY" := "key" ]}))
    "KALSHI-PRES2024" 10 world_with_sample
  = (Raise (HTTPException 404 "Market orderbook not found"), world_with_sample).
Proof.
  refine (proj1 (proj2 (live_routes_always_404
                          (KalshiConnector.new
                             {[ "KALSHI_API_KEY" := "key"; "KALSHI_USER_ID" := "user" ]})
                          (PolymarketConnector.new {[ "POLYMARKET_API_KEY" := "key" ]})
                          "KALSHI-PRES2024" world_with_sample _ _)) 10);
    vm_compute; reflexivity.
Defined.

(** X17: in mock mode the time series of either connector has 24
    hourly points ending at the clock reading: point [i] is stamped
    [23 - i] hours before now and carries a volume that grows linearly
    with [i].  The record echoes [market_id] and [interval], and [start]
    and [end] have no effect on it. *)
Theorem mock_timeseries_covers_last_24_hours
    (kalshi : KalshiConnector.t) (polymarket : PolymarketConnector.t)
    (market_id : string) (start end_ : option string) (interval : string) (w : world) :
  KalshiConnector.mock_mode kalshi = true ->
  PolymarketConnector.mock_mode polymarket = true ->
  (exists series points,
     KalshiConnector.get_market_timeseries kalshi market_id start end_ interval w
       = (Ok series, w) /\
     record_field "market_id" series = Some (VStr market_id) /\
     record_field "interval" series = Some (VStr interval) /\
     record_field "data_points" series = Some (VList points) /\
     length points = 24%nat /\
     (forall i, 0 <= i < 24 -> exists point,
        points !! Z.to_nat i = Some point /\
        record_field "timestamp" point
          = Some (VStr (isoformat (clock w - timedelta_hours (23 - i)))) /\
        record_field "volume" point = Some (VInt (100 + i * 10))) /\
     (forall start' end',
        KalshiConnector.get_market_timeseries kalshi market_id start' end' interval w
          = (Ok series, w))) /\
  (exists series points,
     PolymarketConnector.get_market_timeseries polymarket market_id start end_ interval w
       = (Ok series, w) /\
     record_field "market_id" series = Some (VStr market_id) /\
     record_field "interval" series = Some (VStr interval) /\
     record_field "data_points" series = Some (VList points) /\
     length points = 24%nat /\
     (forall i, 0 <= i < 24 -> exists point,
        points !! Z.to_nat i = Some point /\
        record_field "timestamp" point
          = Some (VStr (isoformat (clock w - timedelta_hours (23 - i)))) /\
        record_field "volume" point = Some (VInt (150 + i * 15))) /\
     (forall start' end',
        PolymarketConnector.get_market_timeseries polymarket market_id start' end' interval w
          = (Ok series, w))).
Proof.
  intros Hk Hp.
  unfold KalshiConnector.get_market_timeseries, PolymarketConnector.get_market_timeseries.
  rewrite Hk, Hp.
  split; eexists _, _; (split; [reflexivity |]);
    (split; [cbn [record_field]; lookup_literal |]);
    (split; [cbn [record_field]; lookup_literal |]);
    (split; [cbn [record_field]; lookup_literal |]);
    (split; [rewrite length_fmap, length_seqZ; reflexivity |]);
    (split; [| intros; reflexivity]);
    intros i Hi; rewrite list_lookup_fmap, lookup_seqZ_lt by lia;
    rewrite Z2Nat.id by lia; cbn [fmap option_fmap option_map];
    eexists; (split; [reflexivity |]); cbn [record_field];
    rewrite Z.add_0_l; split; lookup_literal.
Qed.

Lemma mock_timeseries_witness :
  exists series points,
    KalshiConnector.get_market_timeseries kalshi_mock "KALSHI-PRES2024" None None "1h"
      world_without_file = (Ok series, world_without_file) /\
    record_field "data_points" series = Some (VList points) /\
    length points = 24%nat.
Proof.
  destruct (proj1 (mock_timeseries_covers_last_24_hours kalshi_mock polymarket_mock
                     "KALSHI-PRES2024" None None "1h" world_without_file
                     eq_refl eq_refl))
    as (series & points & Hrun & _ & _ & Hpts & Hlen & _).
  exists series, points. auto.
Defined.

(** ** The ingest route *)

(** X18: the ingest route answers an ASCII provider whose lower-cased
    name is neither ["kalshi"] nor ["polymarket"] with HTTP 400, naming
    the lower-cased provider in the detail; no connector is consulted,
    nothing is logged and the world is unchanged. *)
Theorem sync_unknown_provider_is_400
    (kalshi polymarket : Connector.t) (provider : string) (w : world) :
  is_ascii provider = true ->
  str_lower provider <> "kalshi" ->
  str_lower provider <> "polymarket" ->
  IngestRoutes.sync_provider_data kalshi polymarket provider w =
  (Raise (HTTPException 400
            ("Unknown provider: " ++ str_lower provider
             ++ ". Supported: kalshi, polymarket")), w).
Proof.
  intros _ Hk Hp. unfold IngestRoutes.sync_provider_data, try_except. cbv zeta.
  rewrite bind_run.
  rewrite (proj2 (String.eqb_neq _ _) Hk), (proj2 (String.eqb_neq _ _) Hp).
  reflexivity.
Qed.

Lemma sync_unknown_provider_witness :
  IngestRoutes.sync_provider_data (KalshiConnector.as_connector kalshi_mock)
    (PolymarketConnector.as_connector polymarket_mock) "Invalid" world_with_sample =
  (Raise (HTTPException 400 "Unknown provider: invalid. Supported: kalshi, polymarket"),
   world_with_sample).
Proof.
  refine (sync_unknown_provider_is_400 _ _ "Invalid" world_with_sample _ _ _);
    [reflexivity | vm_compute; discriminate | vm_compute; discriminate].
Defined.

(** X19: with the two connectors of the repository the ingest route
    never answers 500 to an ASCII provider: the status is 200 when the
    provider, in any letter case, is ["kalshi"] or ["polymarket"], and
    400 otherwise. *)
Theorem sync_route_status_by_provider
    (kalshi : KalshiConnector.t) (polymarket : PolymarketConnector.t)
    (provider : string) (w : world) :
  is_ascii provider = true ->
  http_status
    (IngestRoutes.sync_provider_data (KalshiConnector.as_connector kalshi)
       (PolymarketConnector.as_connector polymarket) provider w).1
  = if String.eqb (str_lower provider) "kalshi"
       || String.eqb (str_lower provider) "polymarket"
    then 200 else 400.
Proof.
  intros _.
  unfold IngestRoutes.sync_provider_data, try_except. cbv zeta. rewrite bind_run.
  destruct (String.eqb (str_lower provider) "kalshi").
  - cbn [Connector.sync_data KalshiConnector.as_connector orb].
    destruct (kalshi_sync_data_run kalshi w) as (l & w' & d & _ & _ & _ & Hs & _).
    rewrite Hs. reflexivity.
  - destruct (String.eqb (str_lower provider) "polymarket"); [| reflexivity].
    cbn [Connector.sync_data PolymarketConnector.as_connector orb].
    destruct (polymarket_sync_data_run polymarket w) as (l & w' & d & _ & _ & _ & Hs & _).
    rewrite Hs. reflexivity.
Qed.

Lemma sync_route_status_witness :
  http_status
    (IngestRoutes.sync_provider_data (KalshiConnector.as_connector kalshi_mock)
       (PolymarketConnector.as_connector polymarket_mock) "PolyMarket"
       world_without_file).1
  = if String.eqb (str_lower "PolyMarket") "kalshi"
       || String.eqb (str_lower "PolyMarket") "polymarket"
    then 200 else 400.
Proof.
  apply (sync_route_status_by_provider kalshi_mock polymarket_mock "PolyMarket"
           world_without_file).
  reflexivity.
Defined.

(** ** The listing route in detail *)

(** X20: the listing answers a non-empty ASCII [provider] that lowers
    to neither ["kalshi"] nor ["polymarket"] with 200 and an empty list:
    no connector is consulted, [total] is 0, [providers] echoes the
    parameter as given, and the filters find nothing to fail on. *)
Theorem listing_unknown_provider_is_empty
    (kalshi polymarket : Connector.t) (provider : string) (status q : option string)
    (w : world) :
  is_ascii provider = true ->
  provider <> "" ->
  str_lower provider <> "kalshi" ->
  str_lower provider <> "polymarket" ->
  exists body,
    MarketsRoutes.get_markets kalshi polymarket (Some provider) status q w = (Ok body, w) /\
    envelope_data body = Some (VList []) /\
    envelope_meta "total" body = Some (VInt 0) /\
    envelope_meta "providers" body = Some (VList [VStr provider]).
Proof.
  intros _ Hne Hk Hp. unfold MarketsRoutes.get_markets. rewrite try_except_Exception_run.
  unfold lower_is.
  rewrite (proj2 (String.eqb_neq _ _) Hk), (proj2 (String.eqb_neq _ _) Hp).
  cbn [truthy_str]. rewrite (proj2 (String.eqb_neq _ _) Hne). cbn [negb orb].
  destruct status as [s |], q as [s' |]; cbn [truthy_str];
    repeat match goal with |- context [String.eqb ?a ""] => destruct (String.eqb a "") end;
    eexists; (split; [reflexivity |]); repeat split; reflexivity.
Qed.

Lemma listing_unknown_provider_witness :
  exists body,
    MarketsRoutes.get_markets (KalshiConnector.as_connector kalshi_mock)
      (PolymarketConnector.as_connector polymarket_mock) (Some "Manifold")
      (Some "active") None world_with_sample = (Ok body, world_with_sample) /\
    envelope_data body = Some (VList []) /\
    envelope_meta "total" body = Some (VInt 0) /\
    envelope_meta "providers" body = Some (VList [VStr "Manifold"]).
Proof.
  refine (listing_unknown_provider_is_empty _ _ "Manifold" (Some "active") None
            world_with_sample _ _ _ _);
    [reflexivity | discriminate | vm_compute; discriminate | vm_compute; discriminate].
Defined.

Lemma try_except_reraising_Ok {A : Type} (body : M A) (msg : exn -> string) (e' : exn)
    (w w' : world) (a : A) :
  try_except body [except_Exception (fun e => logger_error (msg e);; raise e')] w
    = (Ok a, w') ->
  body w = (Ok a, w').
Proof.
  rewrite try_except_Exception_run.
  destruct (body w) as [[a0 | e] w0]; [trivial | discriminate].
Qed.

Lemma filterM_Ok_kept {A : Type} (p : A -> M bool) (xs : list A) :
  forall w ys w', filterM p xs w = (Ok ys, w') ->
    Forall (fun x => exists w1 w2, p x w1 = (Ok true, w2)) ys.
Proof.
  induction xs as [| x rest IH]; cbn [filterM]; intros w ys w' H.
  - injection H as <- _. constructor.
  - apply bind_Ok_inv in H as (keep & w1 & Hk & H).
    apply bind_Ok_inv in H as (ys' & w2 & Hys & H).
    injection H as <- _. specialize (IH _ _ _ Hys).
    destruct keep; [constructor; eauto | assumption].
Qed.

Lemma str_lower_nonempty (s : string) : s <> "" -> str_lower s <> "".
Proof. destruct s; [congruence | discriminate]. Qed.

Lemma status_test_true (m : value) (t : string) (w1 w2 : world) :
  (s ← py_get m "status" (VStr ""); s' ← py_lower s; mret (String.eqb s' t)) w1
    = (Ok true, w2) ->
  t <> "" ->
  exists v, record_field "status" m = Some (VStr v) /\ str_lower v = t.
Proof.
  intros H Ht. apply bind_Ok_inv in H as (s & w3 & Hs & H).
  apply bind_Ok_inv in H as (s' & w4 & Hs' & H). injection H as H _.
  apply String.eqb_eq in H. subst t.
  destruct m as [| | | | | | d]; try discriminate. cbn [py_get] in Hs.
  injection Hs as <- _. cbn [record_field].
  destruct (d !! "status") as [v |].
  - destruct v; try discriminate. injection Hs' as <- _. eauto.
  - injection Hs' as <- _. contradiction Ht. reflexivity.
Qed.

Lemma title_test_true (m : value) (t : string) (w1 w2 : world) :
  (title ← py_get m "title" (VStr ""); title' ← py_lower title;
   mret (str_contains t title')) w1 = (Ok true, w2) ->
  t <> "" ->
  exists v, record_field "title" m = Some (VStr v) /\
            str_contains t (str_lower v) = true.
Proof.
  intros H Ht. apply bind_Ok_inv in H as (s & w3 & Hs & H).
  apply bind_Ok_inv in H as (s' & w4 & Hs' & H). injection H as H _.
  destruct m as [| | | | | | d]; try discriminate. cbn [py_get] in Hs.
  injection Hs as <- _. cbn [record_field].
  destruct (d !! "title") as [v |].
  - destruct v; try discriminate. injection Hs' as <- _. eauto.
  - injection Hs' as <- _. destruct t; [congruence | discriminate].
Qed.

Lemma filterM_Ok_filter {A : Type} (p : A -> M bool) (pred : A -> bool) (xs : list A) :
  (forall x w1 b w2, p x w1 = (Ok b, w2) -> b = pred x) ->
  forall w ys w', filterM p xs w = (Ok ys, w') -> ys = List.filter pred xs.
Proof.
  intros Hp. induction xs as [| x rest IH]; cbn [filterM List.filter]; intros w ys w' H.
  - injection H as <- _. reflexivity.
  - apply bind_Ok_inv in H as (keep & w1 & Hk & H).
    apply bind_Ok_inv in H as (ys' & w2 & Hys & H).
    injection H as <- _. rewrite <- (Hp _ _ _ _ Hk), <- (IH _ _ _ Hys). reflexivity.
Qed.

Lemma filter_all {A : Type} (l : list A) : List.filter (fun _ => true) l = l.
Proof. induction l as [| x l IH]; [reflexivity | cbn; rewrite IH; reflexivity]. Qed.

Lemma status_test_Ok (m : value) (t : string) (w1 w2 : world) (b : bool) :
  (s ← py_get m "status" (VStr ""); s' ← py_lower s; mret (String.eqb s' t)) w1
    = (Ok b, w2) ->
  t <> "" ->
  b = match record_field "status" m with
      | Some (VStr v) => String.eqb (str_lower v) t
      | _ => false
      end.
Proof.
  intros H Ht. apply bind_Ok_inv in H as (s & w3 & Hs & H).
  apply bind_Ok_inv in H as (s' & w4 & Hs' & H). injection H as <- _.
  destruct m as [| | | | | | d]; try discriminate. cbn [py_get] in Hs.
  injection Hs as <- _. cbn [record_field].
  destruct (d !! "status") as [v |].
  - destruct v; try discriminate. injection Hs' as <- _. reflexivity.
  - injection Hs' as <- _. destruct t; [congruence | reflexivity].
Qed.

Lemma title_test_Ok (m : value) (t : string) (w1 w2 : world) (b : bool) :
  (title ← py_get m "title" (VStr ""); title' ← py_lower title;
   mret (str_contains t title')) w1 = (Ok b, w2) ->
  t <> "" ->
  b = match record_field "title" m with
      | Some (VStr v) => str_contains t (str_lower v)
      | _ => false
      end.
Proof.
  intros H Ht. apply bind_Ok_inv in H as (s & w3 & Hs & H).
  apply bind_Ok_inv in H as (s' & w4 & Hs' & H). injection H as <- _.
  destruct m as [| | | | | | d]; try discriminate. cbn [py_get] in Hs.
  injection Hs as <- _. cbn [record_field].
  destruct (d !! "title") as [v |].
  - destruct v; try discriminate. injection Hs' as <- _. reflexivity.
  - injection Hs' as <- _. destruct t; [congruence | reflexivity].
Qed.

Lemma truthy_str_lower_nonempty (o : option string) :
  truthy_str o = true -> str_lower (default "" o) <> "".
Proof.
  destruct o as [s |]; [| discriminate]. intros H.
  change (default "" (Some s)) with s.
  apply str_lower_nonempty. intros ->. discriminate.
Qed.

(** X21: on ASCII text, the filtered listing is the unfiltered listing
    of the same provider with the records that fail a filter left out,
    in the same order: a record stays under a non-empty [status] when
    it has a string [status] equal to the parameter up to letter case,
    and under a non-empty [q] when it has a string [title] that contains
    the parameter up to letter case.  A record without the field is
    never listed under the filter, and [meta.total] is the length of
    the [data] list.  Any two connectors. *)
Theorem listing_total_and_filters
    (kalshi polymarket : Connector.t) (provider status q : option string)
    (w : world) (all : list value) (body : value) (w' : world) :
  response_records (MarketsRoutes.get_markets kalshi polymarket provider None None w).1
    = Some all ->
  forallb ascii_text all = true ->
  is_ascii_opt status = true ->
  is_ascii_opt q = true ->
  MarketsRoutes.get_markets kalshi polymarket provider status q w = (Ok body, w') ->
  exists l,
    envelope_data body = Some (VList l) /\
    envelope_meta "total" body = Some (VInt (Z.of_nat (length l))) /\
    l = List.filter (title_matches q) (List.filter (status_matches status) all) /\
    (forall s, status = Some s -> s <> "" ->
       Forall (fun m => exists v, record_field "status" m = Some (VStr v) /\
                                  str_lower v = str_lower s) l) /\
    (forall s, q = Some s -> s <> "" ->
       Forall (fun m => exists v, record_field "title" m = Some (VStr v) /\
                                  str_contains (str_lower s) (str_lower v) = true) l).
Proof.
  intros Hall _ _ _ H. unfold MarketsRoutes.get_markets in H, Hall.
  apply try_except_reraising_Ok in H.
  apply bind_Ok_inv in H as (markets1 & w1 & H1 & H).
  apply bind_Ok_inv in H as (markets2 & w2 & H2 & H).
  apply bind_Ok_inv in H as (markets3 & w3 & H3 & H).
  apply bind_Ok_inv in H as (markets4 & w4 & H4 & H).
  injection H as <- _.
  rewrite try_except_Exception_run, bind_run, H1, bind_run, H2 in Hall.
  repeat first [ rewrite bind_run in Hall
               | progress cbn [truthy_str mret M_ret fst] in Hall ].
  unfold response_records in Hall. rewrite envelope_data_create in Hall.
  injection Hall as <-.
  exists markets4. split; [apply envelope_data_create |].
  split; [reflexivity |]. split; [| split].
  - assert (E3 : markets3 = List.filter (status_matches status) markets2).
    { unfold status_matches. destruct (truthy_str status) eqn:Et.
      - eapply filterM_Ok_filter, H3. intros m wa b wb Hm.
        eapply status_test_Ok; [exact Hm | apply truthy_str_lower_nonempty, Et].
      - injection H3 as <- _. symmetry. apply filter_all. }
    rewrite <- E3. unfold title_matches. destruct (truthy_str q) eqn:Et.
    + eapply filterM_Ok_filter, H4. intros m wa b wb Hm.
      eapply title_test_Ok; [exact Hm | apply truthy_str_lower_nonempty, Et].
    + injection H4 as <- _. symmetry. apply filter_all.
  - intros s -> Hs.
    assert (truthy_str (Some s) = true) as Ht
      by (cbn; rewrite (proj2 (String.eqb_neq _ _) Hs); reflexivity).
    rewrite Ht in H3.
    assert (H3' : Forall (fun m => exists v, record_field "status" m = Some (VStr v) /\
                                   str_lower v = str_lower s) markets3).
    { eapply Forall_impl; [eapply filterM_Ok_kept, H3 |].
      intros m (wa & wb & Hm). eapply status_test_true; [exact Hm |].
      apply str_lower_nonempty, Hs. }
    destruct (truthy_str q).
    + eapply filterM_Ok_Forall, H4. exact H3'.
    + injection H4 as <- _. exact H3'.
  - intros s -> Hs.
    assert (truthy_str (Some s) = true) as Ht
      by (cbn; rewrite (proj2 (String.eqb_neq _ _) Hs); reflexivity).
    rewrite Ht in H4.
    eapply Forall_impl; [eapply filterM_Ok_kept, H4 |].
    intros m (wa & wb & Hm). eapply title_test_true; [exact Hm |].
    apply str_lower_nonempty, Hs.
Qed.

Lemma listing_total_and_filters_witness :
  exists all body w',
    response_records
      (MarketsRoutes.get_markets (KalshiConnector.as_connector kalshi_mock)
         (PolymarketConnector.as_connector polymarket_mock) None None None
         world_without_file).1 = Some all /\
    forallb ascii_text all = true /\
    MarketsRoutes.get_markets (KalshiConnector.as_connector kalshi_mock)
      (PolymarketConnector.as_connector polymarket_mock) None (Some "ACTIVE") (Some "bitcoin")
      world_without_file = (Ok body, w') /\
    exists l,
      envelope_data body = Some (VList l) /\
      envelope_meta "total" body = Some (VInt (Z.of_nat (length l))) /\
      l = List.filter (title_matches (Some "bitcoin"))
            (List.filter (status_matches (Some "ACTIVE")) all) /\
      (forall s, Some "ACTIVE" = Some s -> s <> "" ->
         Forall (fun m => exists v, record_field "status" m = Some (VStr v) /\
                                    str_lower v = str_lower s) l) /\
      (forall s, Some "bitcoin" = Some s -> s <> "" ->
         Forall (fun m => exists v, record_field "title" m = Some (VStr v) /\
                                    str_contains (str_lower s) (str_lower v) = true) l).
Proof.
  eexists _, _, _. split; [reflexivity |]. split; [reflexivity |].
  split; [reflexivity |].
  eapply (listing_total_and_filters (KalshiConnector.as_connector kalshi_mock)
           (PolymarketConnector.as_connector polymarket_mock) None (Some "ACTIVE")
           (Some "bitcoin") world_without_file); reflexivity.
Defined.

Lemma status_test_run (t : string) (m : value) (w : world) :
  if breaks_status_filter m
  then exists e,
         (s ← py_get m "status" (VStr ""); s' ← py_lower s; mret (String.eqb s' t)) w
           = (Raise e, w)
  else exists b,
         (s ← py_get m "status" (VStr ""); s' ← py_lower s; mret (String.eqb s' t)) w
           = (Ok b, w).
Proof.
  destruct m as [| | | | | | d]; try (eexists; reflexivity).
  unfold breaks_status_filter. rewrite bind_run. cbn [py_get mret M_ret].
  destruct (d !! "status") as [[] |]; eexists; reflexivity.
Qed.

Lemma filterM_status_raises (t : string) (xs : list value) (w : world) :
  Exists (fun m => breaks_status_filter m = true) xs ->
  exists e,
    filterM (fun m => s ← py_get m "status" (VStr ""); s' ← py_lower s;
                      mret (String.eqb s' t)) xs w = (Raise e, w).
Proof.
  induction xs as [| m rest IH]; intros HE; [inversion HE |].
  cbn [filterM]. rewrite bind_run.
  pose proof (status_test_run t m w) as Hm.
  destruct (breaks_status_filter m) eqn:Eb.
  - destruct Hm as [e ->]. eauto.
  - destruct Hm as [b ->]. rewrite bind_run.
    apply Exists_cons in HE as [HE | HE]; [congruence |].
    destruct (IH HE) as [e ->]. eauto.
Qed.

(** X22: when the connectors return a record that is no dict or whose
    [status] is not a string, the listing with a non-empty [status]
    filter answers HTTP 500 and logs one error, although the same
    listing without filters answers 200 with every record. *)
Theorem listing_status_filter_fails_on_bad_status
    (kalshi polymarket : Connector.t) (s : string) (q : option string)
    (w : world) (lk : list value) (w1 : world) (lp : list value) (w2 : world) :
  Connector.get_markets kalshi w = (Ok lk, w1) ->
  Connector.get_markets polymarket w1 = (Ok lp, w2) ->
  s <> "" ->
  Exists (fun m => breaks_status_filter m = true) (lk ++ lp) ->
  (exists msg,
     MarketsRoutes.get_markets kalshi polymarket None (Some s) q w =
     (Raise (HTTPException 500 "Failed to fetch markets"),
      logged_error ("Error fetching markets: " ++ msg) w2)) /\
  (exists body,
     MarketsRoutes.get_markets kalshi polymarket None None None w = (Ok body, w2) /\
     envelope_data body = Some (VList (lk ++ lp)%list)).
Proof.
  intros Hk Hp Hs HE. unfold MarketsRoutes.get_markets.
  rewrite !try_except_Exception_run. cbn [truthy_str negb orb].
  rewrite (proj2 (String.eqb_neq _ _) Hs). cbn [negb].
  split.
  - rewrite bind_run, bind_run, Hk. cbn [mret M_ret]. rewrite bind_run, bind_run, Hp.
    cbn [mret M_ret app]. rewrite bind_run.
    destruct (filterM_status_raises (str_lower (default "" (Some s))) (lk ++ lp) w2 HE)
      as [e He].
    rewrite He. exists (str_exn e). reflexivity.
  - rewrite bind_run, bind_run, Hk. cbn [mret M_ret]. rewrite bind_run, bind_run, Hp.
    cbn [mret M_ret app]. rewrite !bind_run. cbn [mret M_ret].
    eexists. split; [reflexivity | apply envelope_data_create].
Qed.

Lemma listing_status_filter_fails_witness :
  let w := World noon (FileJson (VDict {[ "markets" :=
             VList [VDict {[ "id" := VStr "A"; "status" := VInt 1 ]}] ]})) [] in
  (exists msg,
     MarketsRoutes.get_markets (KalshiConnector.as_connector kalshi_mock)
       (PolymarketConnector.as_connector polymarket_mock) None (Some "active") None w =
     (Raise (HTTPException 500 "Failed to fetch markets"),
      logged_error ("Error fetching markets: " ++ msg) w)) /\
  (exists body,
     MarketsRoutes.get_markets (KalshiConnector.as_connector kalshi_mock)
       (PolymarketConnector.as_connector polymarket_mock) None None None w = (Ok body, w) /\
     option_map (List.map (record_field "status")) (response_records (Ok body))
       = Some [Some (VInt 1); Some (VInt 1)]).
Proof.
  intros w.
  edestruct (listing_status_filter_fails_on_bad_status
               (KalshiConnector.as_connector kalshi_mock)
               (PolymarketConnector.as_connector polymarket_mock) "active" None w)
    as [H500 (body & Hrun & Hdata)].
  - reflexivity.
  - reflexivity.
  - discriminate.
  - left. reflexivity.
  - split; [exact H500 |]. exists body. split; [exact Hrun |].
    unfold response_records. rewrite Hdata. reflexivity.
Defined.

(** ** The price route *)

Lemma truthy_of_field (key : string) (v : value) :
  is_Some (record_field key v) -> truthy v = true.
Proof.
  intros [x Hx]. destruct v as [| | | | | | d]; try discriminate.
  cbn [record_field] in Hx. cbn [truthy].
  rewrite bool_decide_eq_false_2; [reflexivity |].
  intros ->. rewrite lookup_empty in Hx. discriminate.
Qed.

Lemma price_truthy_as_market (m p : value) (market_id : string) (t : value) :
  m = VNone \/ is_Some (record_field "outcomes" m) ->
  (m = VNone -> p = VNone) ->
  (m <> VNone -> record_field "market_id" p = Some (VStr market_id) /\ t = t) ->
  truthy p = truthy m.
Proof.
  intros [-> | Ho] Hnone Hsome.
  - rewrite Hnone; reflexivity.
  - rewrite (truthy_of_field _ _ Ho).
    assert (m <> VNone) as Hm by (intros ->; destruct Ho; discriminate).
    destruct (Hsome Hm) as [Hp _]. eapply truthy_of_field. rewrite Hp. eauto.
Qed.

Lemma kalshi_lookup_and_price self market_id w :
  exists m p w',
    KalshiConnector.get_market self market_id w = (Ok m, w') /\
    KalshiConnector.get_market_price self market_id w = (Ok p, w') /\
    truthy p = truthy m.
Proof.
  destruct (get_market_shape (fun m => is_Some (record_field "outcomes" m))
              (KalshiConnector.get_markets self)
              (fun e => "Error fetching Kalshi market " ++ market_id ++ ": " ++ str_exn e)
              market_id
              (get_markets_shape _ (kalshi_fetch self) _ _
                 (kalshi_fetch_stateless self) (kalshi_fetch_Ok_outcomes self)) w)
    as (m & w' & Hrun & _ & Hm & _).
  assert (Hm' : m = VNone \/ is_Some (record_field "outcomes" m))
    by (destruct Hm as [-> | [Ho _]]; [left; reflexivity | right; exact Ho]).
  destruct (get_market_price_run _
              (fun e => "Error fetching Kalshi market price " ++ market_id ++ ": "
                        ++ str_exn e) market_id w m w' Hrun Hm')
    as (p & Hp & Hnone & Hsome).
  exists m, p, w'. split; [exact Hrun |]. split; [exact Hp |].
  apply (price_truthy_as_market m p market_id VNone Hm' Hnone).
  intros Hne. destruct (Hsome Hne) as [H _]. auto.
Qed.

Lemma polymarket_lookup_and_price self market_id w :
  exists m p w',
    PolymarketConnector.get_market self market_id w = (Ok m, w') /\
    PolymarketConnector.get_market_price self market_id w = (Ok p, w') /\
    truthy p = truthy m.
Proof.
  destruct (get_market_shape (fun m => is_Some (record_field "outcomes" m))
              (PolymarketConnector.get_markets self)
              (fun e => "Error fetching Polymarket market " ++ market_id ++ ": "
                        ++ str_exn e)
              market_id
              (get_markets_shape _ (polymarket_fetch self) _ _
                 (polymarket_fetch_stateless self) (polymarket_fetch_Ok_outcomes self)) w)
    as (m & w' & Hrun & _ & Hm & _).
  assert (Hm' : m = VNone \/ is_Some (record_field "outcomes" m))
    by (destruct Hm as [-> | [Ho _]]; [left; reflexivity | right; exact Ho]).
  destruct (get_market_price_run _
              (fun e => "Error fetching Polymarket market price " ++ market_id ++ ": "
                        ++ str_exn e) market_id w m w' Hrun Hm')
    as (p & Hp & Hnone & Hsome).
  exists m, p, w'. split; [exact Hrun |]. split; [exact Hp |].
  apply (price_truthy_as_market m p market_id VNone Hm' Hnone).
  intros Hne. destruct (Hsome Hne) as [H _]. auto.
Qed.

(** X23: with the two connectors of the repository the price route
    answers exactly as the market route does: 200 when the lookup finds
    the market in either connector, 404 otherwise, never 500; and both
    leave the same world behind. *)
Theorem price_route_answers_as_market_route
    (kalshi : KalshiConnector.t) (polymarket : PolymarketConnector.t)
    (market_id : string) (w : world) :
  let price := MarketsRoutes.get_market_price (KalshiConnector.as_connector kalshi)
                 (PolymarketConnector.as_connector polymarket) market_id w in
  let market := MarketsRoutes.get_market (KalshiConnector.as_connector kalshi)
                  (PolymarketConnector.as_connector polymarket) market_id w in
  http_status price.1 = http_status market.1 /\
  (http_status price.1 = 200 \/ http_status price.1 = 404) /\
  price.2 = market.2.
Proof.
  cbv zeta. unfold MarketsRoutes.get_market_price, MarketsRoutes.get_market, try_except.
  cbn [Connector.get_market Connector.get_market_price KalshiConnector.as_connector
       PolymarketConnector.as_connector].
  rewrite !bind_run.
  destruct (kalshi_lookup_and_price kalshi market_id w) as (m & p & w1 & -> & -> & Ht).
  destruct (truthy m) eqn:Em.
  - repeat first [ rewrite Ht | rewrite Em | rewrite bind_run
                 | progress cbn [negb mret M_ret] | progress cbv beta ].
    split; [reflexivity | split; [left; reflexivity | reflexivity]].
  - repeat first [ rewrite Ht | rewrite Em | rewrite bind_run
                 | progress cbn [negb mret M_ret] | progress cbv beta ].
    destruct (polymarket_lookup_and_price polymarket market_id w1)
      as (m2 & p2 & w2 & -> & -> & Ht2).
    destruct (truthy m2) eqn:Em2;
      repeat first [ rewrite Ht2 | rewrite Em2 | rewrite bind_run
                   | progress cbn [negb mret M_ret] | progress cbv beta ];
      (split; [reflexivity | split; [first [left; reflexivity | right; reflexivity]
                                   | reflexivity]]).
Qed.

(** ** The sample file *)

(** X24: the built-in fallback data is used only when the sample file
    is missing: each connector then lists exactly its one fallback
    market, under its own tag, and logs nothing.  When opening or
    parsing the file fails in any other way, the listing is empty and
    one error naming the failure is logged. *)
Theorem fallback_data_only_when_file_missing
    (kalshi : KalshiConnector.t) (polymarket : PolymarketConnector.t)
    (now : datetime) (log : list log_record) :
  (exists mk mp,
     KalshiConnector.get_markets kalshi (World now FileMissing log)
       = (Ok [mk], World now FileMissing log) /\
     record_id mk = Some (VStr "KALSHI-PRES2024") /\ has_provider "kalshi" mk /\
     PolymarketConnector.get_markets polymarket (World now FileMissing log)
       = (Ok [mp], World now FileMissing log) /\
     record_id mp = Some (VStr "POLY-CRYPTO2024") /\ has_provider "polymarket" mp) /\
  (forall e, (forall s, e <> FileNotFoundError s) ->
     KalshiConnector.get_markets kalshi (World now (FileUnreadable e) log)
       = (Ok [], logged_error ("Error fetching Kalshi markets: " ++ str_exn e)
                   (World now (FileUnreadable e) log)) /\
     PolymarketConnector.get_markets polymarket (World now (FileUnreadable e) log)
       = (Ok [], logged_error ("Error fetching Polymarket markets: " ++ str_exn e)
                   (World now (FileUnreadable e) log))).
Proof.
  split.
  - unfold KalshiConnector.get_markets, PolymarketConnector.get_markets.
    destruct (KalshiConnector.mock_mode kalshi), (PolymarketConnector.mock_mode polymarket);
      eexists _, _; repeat (split; [reflexivity |]); reflexivity.
  - intros e He. rewrite kalshi_get_markets_run, polymarket_get_markets_run.
    destruct e; try (split; reflexivity). destruct (He _ eq_refl).
Qed.
